(** * DingTalk channel plugin: a shallow embedding and its verified properties

    The development follows the two source files of the plugin:
    the channel module (token cache, media download, message codec,
    outbound senders, inbound handler, stream listener) and
    [media-utils.ts] (size-gated media upload).

    JavaScript strings are sequences of UTF-16 code units, JSON payloads
    are untyped trees, and every call that leaves the module (HTTP, file
    system, host runtime, vendor SDK) is a [Call] answered by an
    environment oracle and recorded in a trace.

    Conventions of the embedding:
    - an [await] is a sequential step: one frame is handled at a time;
    - a logger is optional in the source and, when one is passed, it has
      the methods the module calls and they return without throwing; the
      log lines whose argument cannot throw (a constant, a string or a
      number of the module, the message of an Error, the JSON text of a
      reply) are left out, as is [console.error]; the two lines that write
      out a value taken from a payload are modelled: the "Inbound" line of
      the handler, through the flag [log_info] that says whether a logger
      with an [info] method was passed, and the "uploaded" line of
      [uploadMedia], through the flag [log_debug];
    - the account id the host hands to the gateway is a string;
    - a number is the Number a JSON numeral denotes; those of the module
      are integers (timestamps, sizes, codes);
    - notifications that return nothing ([markDispatchIdle],
      [socketCallBackResponse], [fileStream.destroy]) and the pure
      helpers of node ([os.tmpdir], [path.join], [path.basename],
      [fs.existsSync], [fs.createReadStream]) do not throw; every other
      call may;
    - the replies of the vendor endpoints have the shape the interface
      documents; inbound events and configuration objects are arbitrary
      JSON. *)

From Stdlib Require Import String Ascii DecimalString ZArith NArith Bool Lia List.
Import ListNotations.
Local Open Scope Z_scope.
Set Warnings "-register-all".

(* ================================================================== *)
(** * JavaScript strings *)
(* ================================================================== *)

(** A JavaScript string: its UTF-16 code units. *)
Definition jstring : Type := list N.

(** An ASCII literal of the source as a [jstring]. *)
Definition lit (s : string) : jstring :=
  map N_of_ascii (list_ascii_of_string s).

Definition jstring_eqb (a b : jstring) : bool :=
  if list_eq_dec N.eq_dec a b then true else false.

Definition mem (c : N) (cs : list N) : bool := existsb (N.eqb c) cs.

(** White space and line terminators of ECMAScript: what
    [String.prototype.trim] removes and what [\s] matches. *)
Definition is_js_space (c : N) : bool :=
  (mem c [0x9; 0xA; 0xB; 0xC; 0xD; 0x20; 0xA0; 0x1680; 0x2028; 0x2029;
          0x202F; 0x205F; 0x3000; 0xFEFF]
   || ((0x2000 <=? c) && (c <=? 0x200A)))%N.

Fixpoint drop_while (p : N -> bool) (s : jstring) : jstring :=
  match s with
  | [] => []
  | c :: r => if p c then drop_while p r else s
  end.

Fixpoint take_while (p : N -> bool) (s : jstring) : jstring :=
  match s with
  | [] => []
  | c :: r => if p c then c :: take_while p r else []
  end.

(** [s.trim()] *)
Definition trim (s : jstring) : jstring :=
  rev (drop_while is_js_space (rev (drop_while is_js_space s))).

(** [s.split(c)] for a one-character separator. *)
Fixpoint split_on (c : N) (s : jstring) : list jstring :=
  match s with
  | [] => [[]]
  | x :: r =>
      if N.eqb x c then [] :: split_on c r
      else match split_on c r with
           | [] => [[x]]
           | h :: t => (x :: h) :: t
           end
  end.

(** The decimal numeral of an integer. *)
Definition decimal (z : Z) : jstring :=
  lit (NilZero.string_of_int (Z.to_int z)).

(** ** [Number::toString] for an integer

    The Number nearest to a positive integer, ties to the even
    significand; [None] is Infinity.  Below [2^53] every integer is a
    Number. *)
Definition nearest_double (x : Z) : option Z :=
  let e := Z.log2 x - 52 in
  if e <=? 0 then Some x
  else
    let ulp := 2 ^ e in
    let q := x / ulp in
    let r := x mod ulp in
    let q' := if 2 * r <? ulp then q
              else if ulp <? 2 * r then q + 1
              else if Z.even q then q else q + 1 in
    if q' * ulp <? 2 ^ 1024 then Some (q' * ulp) else None.

(** Whether the decimal [s * 10^j] denotes the Number [m]. *)
Definition denotes (m s : Z) (j : nat) : bool :=
  (0 <? s)
  && match nearest_double (s * 10 ^ Z.of_nat j) with
     | Some y => y =? m
     | None => false
     end.

(** The digits [s] and the number [j] of zeros after them of the shortest
    decimal that denotes the Number [m]: the largest [j] for which a
    multiple of [10^j] denotes [m], and of the multiples next to [m] the
    closer one (the even one on a tie). *)
Fixpoint shortest_decimal (j : nat) (m : Z) : Z * nat :=
  match j with
  | O => (m, O)
  | S j' =>
      let p := 10 ^ Z.of_nat j in
      let lo := m / p in
      let hi := lo + 1 in
      match denotes m lo j, denotes m hi j with
      | true, true =>
          (if m - lo * p <? hi * p - m then lo
           else if hi * p - m <? m - lo * p then hi
           else if Z.even lo then lo else hi, j)
      | true, false => (lo, j)
      | false, true => (hi, j)
      | false, false => shortest_decimal j' m
      end
  end.

(** The digits followed by the zeros when the whole has at most 21
    digits, the exponent form [d.ddde+x] otherwise. *)
Definition render_decimal (s : Z) (j : nat) : jstring :=
  let ds := decimal s in
  let n := (length ds + j)%nat in
  if (n <=? 21)%nat then ds ++ repeat 0x30%N j
  else
    match ds with
    | [] => []
    | [d] => [d] ++ lit "e+" ++ decimal (Z.of_nat (n - 1))
    | d :: rest =>
        d :: 0x2E%N :: rest ++ lit "e+" ++ decimal (Z.of_nat (n - 1))
    end.

(** [String(z)] for the Number that the numeral [z] denotes.  An integer
    below [2^53] prints as itself; no decimal with more zeros than [m] has
    bits denotes [m], which bounds the search. *)
Definition number_to_string (z : Z) : jstring :=
  if Z.abs z <? 2 ^ 53 then decimal z
  else
    (if z <? 0 then lit "-" else [])
    ++ match nearest_double (Z.abs z) with
       | None => lit "Infinity"
       | Some m =>
           let (s, j) := shortest_decimal (Z.to_nat (Z.log2 m)) m in
           render_decimal s j
       end.

Definition NEWLINE : N := 0xA%N.
Definition QUOTE : N := 0x22%N.

(** The non-ASCII literals of the source, code unit by code unit. *)
Definition PLACEHOLDER_RICHTEXT : jstring :=
  [0x5B; 0x5BCC; 0x6587; 0x672C; 0x6D88; 0x606F; 0x5D]%N.   (* [富文本消息] *)
Definition PLACEHOLDER_PICTURE : jstring :=
  [0x5B; 0x56FE; 0x7247; 0x5D]%N.                           (* [图片] *)
Definition PLACEHOLDER_AUDIO : jstring :=
  [0x5B; 0x8BED; 0x97F3; 0x6D88; 0x606F; 0x5D]%N.           (* [语音消息] *)
Definition PLACEHOLDER_VIDEO : jstring :=
  [0x5B; 0x89C6; 0x9891; 0x5D]%N.                           (* [视频] *)
Definition FILE_WORD : jstring := [0x6587; 0x4EF6]%N.       (* 文件 *)
Definition MESSAGE_WORD : jstring := [0x6D88; 0x606F]%N.    (* 消息 *)
Definition DEFAULT_TITLE : jstring :=
  lit "Clawdbot " ++ MESSAGE_WORD.                          (* Clawdbot 消息 *)
Definition THINKING_TEXT : jstring :=
  [0xD83E; 0xDD14; 0x20; 0x6B63; 0x5728; 0x601D; 0x8003; 0x2E; 0x2E; 0x2E]%N.

(* ================================================================== *)
(** * JavaScript values and exceptions *)
(* ================================================================== *)

(** Values of type [any] that the module handles: what [JSON.parse]
    produces, plus [undefined].  [JNum z] is the Number that the integer
    numeral [z] denotes (timestamps, sizes, codes); an object is its list
    of own properties, looked up from the front. *)
Inductive JValue : Type :=
| JUndefined
| JNull
| JBool (b : bool)
| JNum (z : Z)
| JStr (s : jstring)
| JArr (elems : list JValue)
| JObj (fields : list (jstring * JValue)).

(** Thrown values.  Everything thrown by the runtime, axios, node:fs and
    the host is an Error object, and so is what a token accessor handed to
    [uploadMedia] throws: the [catch] blocks read [err.message] and
    [err.code]. *)
Inductive exn : Type :=
| TypeError
| SyntaxError
| Error (message : jstring).

Inductive Result (A : Type) : Type :=
| Ok (a : A)
| Thrown (e : exn).
Arguments Ok {A} a.
Arguments Thrown {A} e.

Definition rbind {A B} (r : Result A) (f : A -> Result B) : Result B :=
  match r with
  | Ok a => f a
  | Thrown e => Thrown e
  end.

Notation "'let?' x ':=' r 'in' k" := (rbind r (fun x => k))
  (at level 10, x name, r at level 100, k at level 200).

(** Truthiness ([ToBoolean]). *)
Definition truthy (v : JValue) : bool :=
  match v with
  | JUndefined | JNull => false
  | JBool b => b
  | JNum z => negb (z =? 0)
  | JStr s => match s with [] => false | _ => true end
  | JArr _ | JObj _ => true
  end.

(** [a || b] *)
Definition jor (a b : JValue) : JValue := if truthy a then a else b.

Fixpoint lookup (k : jstring) (fs : list (jstring * JValue)) : JValue :=
  match fs with
  | [] => JUndefined
  | (k', v) :: r => if jstring_eqb k k' then v else lookup k r
  end.

(** [v.k] for the data properties read by the module: a TypeError on
    [undefined] and [null], the property of an object, [undefined] on
    every other value. *)
Definition get (v : JValue) (k : string) : Result JValue :=
  match v with
  | JUndefined | JNull => Thrown TypeError
  | JObj fs => Ok (lookup (lit k) fs)
  | _ => Ok JUndefined
  end.

(** [v?.k] *)
Definition oget (v : JValue) (k : string) : JValue :=
  match v with
  | JObj fs => lookup (lit k) fs
  | _ => JUndefined
  end.

(** [v === 'k'] for a string literal. *)
Definition is_str (v : JValue) (k : jstring) : bool :=
  match v with
  | JStr s => jstring_eqb s k
  | _ => false
  end.

(** [v !== false] *)
Definition not_false (v : JValue) : bool :=
  match v with
  | JBool false => false
  | _ => true
  end.

(** Whether an object has an own property of that name. *)
Definition has_property (k : string) (fs : list (jstring * JValue)) : bool :=
  existsb (fun kv => jstring_eqb (lit k) (fst kv)) fs.

(** [ToString], as used by template literals, [Array.prototype.join] and
    computed property names.  An array prints as its [join(',')].  An
    object prints through [Object.prototype.toString] unless it has an own
    property [toString]: a value of JSON is not callable, the inherited
    [valueOf] returns the object itself, and the conversion ends in a
    TypeError. *)
Fixpoint to_string (v : JValue) : Result jstring :=
  match v with
  | JUndefined => Ok (lit "undefined")
  | JNull => Ok (lit "null")
  | JBool true => Ok (lit "true")
  | JBool false => Ok (lit "false")
  | JNum z => Ok (number_to_string z)
  | JStr s => Ok s
  | JArr l =>
      (fix join_comma (l : list JValue) : Result jstring :=
         match l with
         | [] => Ok []
         | x :: r =>
             let? sx := match x with
                        | JUndefined | JNull => Ok []
                        | _ => to_string x
                        end in
             match r with
             | [] => Ok sx
             | _ => let? sr := join_comma r in Ok (sx ++ lit "," ++ sr)
             end
         end) l
  | JObj fs =>
      if has_property "toString" fs then Thrown TypeError
      else Ok (lit "[object Object]")
  end.

(** The string an element contributes to [Array.prototype.join]. *)
Definition element_string (x : JValue) : Result jstring :=
  match x with
  | JUndefined | JNull => Ok []
  | _ => to_string x
  end.

(** [arr.join('')] *)
Fixpoint join_empty (l : list JValue) : Result jstring :=
  match l with
  | [] => Ok []
  | x :: r =>
      let? sx := element_string x in
      let? sr := join_empty r in
      Ok (sx ++ sr)
  end.

(** [v?.trim()]: short-circuits on [undefined]/[null], trims a string, and
    is a TypeError on any other value (it has no [trim] method). *)
Definition otrim (v : JValue) : Result JValue :=
  match v with
  | JUndefined | JNull => Ok JUndefined
  | JStr s => Ok (JStr (trim s))
  | _ => Thrown TypeError
  end.

(* ================================================================== *)
(** * Message codec: [extractMessageContent] *)
(* ================================================================== *)

(** The [MessageContent] interface.  The two optional properties are
    [None] when the object literal does not mention them. *)
Record MessageContent : Type := mkContent {
  text : JValue;
  mediaPath : option JValue;
  mediaType : option JValue;
  messageType : JValue
}.

(** [parts.filter((p) => p.type === 'text')] *)
Fixpoint filter_text (parts : list JValue) : Result (list JValue) :=
  match parts with
  | [] => Ok []
  | p :: r =>
      let? ty := get p "type" in
      let? rest := filter_text r in
      Ok (if is_str ty (lit "text") then p :: rest else rest)
  end.

(** [xs.map((p) => p.text)] *)
Fixpoint map_text (parts : list JValue) : Result (list JValue) :=
  match parts with
  | [] => Ok []
  | p :: r =>
      let? t := get p "text" in
      let? rest := map_text r in
      Ok (t :: rest)
  end.

(** [parts.filter(...).map(...).join('')] on the value of [parts]; a value
    that is not an array has no [filter] method. *)
Definition rich_text_parts (parts : JValue) : Result jstring :=
  match parts with
  | JArr l =>
      let? kept := filter_text l in
      let? texts := map_text kept in
      join_empty texts
  | _ => Thrown TypeError
  end.

Definition extractMessageContent (data : JValue) : Result MessageContent :=
  let? raw := get data "msgtype" in
  let msgtype := jor raw (JStr (lit "text")) in
  if is_str msgtype (lit "text") then
    let? t := get data "text" in
    let? trimmed := otrim (oget t "content") in
    Ok (mkContent (jor trimmed (JStr [])) None None (JStr (lit "text")))
  else if is_str msgtype (lit "richText") then
    let? c := get data "content" in
    let parts := jor (oget c "richText") (JArr []) in
    let? textParts := rich_text_parts parts in
    Ok (mkContent (jor (JStr textParts) (JStr PLACEHOLDER_RICHTEXT))
                  None None (JStr (lit "richText")))
  else if is_str msgtype (lit "picture") then
    let? c := get data "content" in
    Ok (mkContent (JStr PLACEHOLDER_PICTURE)
                  (Some (oget c "downloadCode")) (Some (JStr (lit "image")))
                  (JStr (lit "picture")))
  else if is_str msgtype (lit "audio") then
    let? c := get data "content" in
    Ok (mkContent (jor (oget c "recognition") (JStr PLACEHOLDER_AUDIO))
                  (Some (oget c "downloadCode")) (Some (JStr (lit "audio")))
                  (JStr (lit "audio")))
  else if is_str msgtype (lit "video") then
    let? c := get data "content" in
    Ok (mkContent (JStr PLACEHOLDER_VIDEO)
                  (Some (oget c "downloadCode")) (Some (JStr (lit "video")))
                  (JStr (lit "video")))
  else if is_str msgtype (lit "file") then
    let? c := get data "content" in
    let? fileName := to_string (jor (oget c "fileName") (JStr FILE_WORD)) in
    Ok (mkContent
          (JStr (lit "[" ++ FILE_WORD ++ lit ": " ++ fileName ++ lit "]"))
          (Some (oget c "downloadCode")) (Some (JStr (lit "file")))
          (JStr (lit "file")))
  else
    let? t := get data "text" in
    let? trimmed := otrim (oget t "content") in
    if truthy trimmed then Ok (mkContent trimmed None None msgtype)
    else
      let? name := to_string msgtype in
      Ok (mkContent (JStr (lit "[" ++ name ++ MESSAGE_WORD ++ lit "]"))
                    None None msgtype).

(* ================================================================== *)
(** * Message codec: the markdown heuristic and the title *)
(* ================================================================== *)

Definition HASH : N := 0x23%N.       (* # *)
Definition STAR : N := 0x2A%N.       (* * *)
Definition GT : N := 0x3E%N.         (* > *)
Definition DASH : N := 0x2D%N.       (* - *)
Definition UNDERSCORE : N := 0x5F%N. (* _ *)
Definition BACKTICK : N := 0x60%N.   (* ` *)
Definition LBRACKET : N := 0x5B%N.   (* [ *)
Definition RBRACKET : N := 0x5D%N.   (* ] *)

(** The class [[#*>-]] *)
Definition LEADING_MARKERS : list N := [HASH; STAR; GT; DASH].
(** The class [[*_`#\[\]]] *)
Definition INLINE_MARKERS : list N :=
  [STAR; UNDERSCORE; BACKTICK; HASH; LBRACKET; RBRACKET].

(** [/^[#*>-]|[*_`#\[\]]/.test(text)] *)
Definition markdown_regex_test (t : jstring) : bool :=
  match t with
  | c :: _ => mem c LEADING_MARKERS
  | [] => false
  end
  || existsb (fun c => mem c INLINE_MARKERS) t.

(** [text.includes('\n')] *)
Definition includes_newline (t : jstring) : bool := mem NEWLINE t.

(** The class [[#*\s\->]] of the title pattern. *)
Definition is_title_marker (c : N) : bool :=
  mem c [HASH; STAR; DASH; GT] || is_js_space c.

(** [text.split('\n')[0]] *)
Definition first_line (t : jstring) : jstring :=
  hd [] (split_on NEWLINE t).

(** [s.replace(/^[#*\s\->]+/, '')] *)
Definition strip_markers (s : jstring) : jstring :=
  drop_while is_title_marker s.

(** [s.slice(0, 20)] *)
Definition slice20 (s : jstring) : jstring := firstn 20 s.

(** [hasMarkdownFeatures] of [sendMessage]. *)
Definition hasMarkdownFeatures (t : jstring) : bool :=
  markdown_regex_test t || includes_newline t.

(** [useMarkdown] of [sendMessage], from the value of
    [options.useMarkdown]. *)
Definition useMarkdown (flag : JValue) (t : jstring) : bool :=
  not_false flag && (truthy flag || hasMarkdownFeatures t).

(** [title] of [sendMessage], from the value of [options.title]. *)
Definition markdown_title (title : JValue) (t : jstring) : JValue :=
  jor title
      (jor (JStr (slice20 (strip_markers (first_line t))))
           (JStr DEFAULT_TITLE)).

(* ================================================================== *)
(** * The environment: calls, answers, traces *)
(* ================================================================== *)

(** The body of the token endpoint's reply, [{accessToken, expireIn}]. *)
Record TokenResponse : Type := mkTokenResponse {
  resp_accessToken : jstring;
  resp_expireIn : Z
}.

(** What [axios.get(url, {responseType: 'arraybuffer'})] resolves to: the
    [content-type] header, when there is one, and the body. *)
Record MediaResponse : Type := mkMediaResponse {
  content_type : option jstring;
  media_data : list Byte.byte
}.

(** A reply payload of the host: [{markdown?: string, text?: string}]. *)
Record Payload : Type := mkPayload {
  p_markdown : option jstring;
  p_text : option jstring
}.

(** Every call that leaves the two modules.  Arguments are the values the
    source passes. *)
Inductive Call : Type :=
(* clock, paths, file system *)
| CNow                                             (* Date.now() *)
| CTmpdir                                          (* os.tmpdir() *)
| CPathJoin (dir name : jstring)                   (* path.join *)
| CBasename (p : jstring)                          (* path.basename *)
| CWriteFile (p : jstring) (data : list Byte.byte) (* fs.writeFileSync *)
| CExistsSync (p : jstring)                        (* fs.existsSync *)
| CUnlinkSync (p : jstring)                        (* fs.unlinkSync *)
| CStat (p : jstring)                              (* fsPromises.stat *)
| CCreateReadStream (p : jstring)                  (* fs.createReadStream *)
| CStreamDestroy                                   (* fileStream.destroy() *)
| CJsonParse (s : jstring)                         (* JSON.parse *)
(* vendor HTTP API *)
| CPostAccessToken (appKey appSecret : JValue)
| CPostDownload (downloadCode robotCode : JValue) (token : jstring)
| CGetUrl (url : JValue)
| CPostWebhook (url : JValue) (body : JValue) (token : jstring)
| CPostUpload (url : jstring) (filename : jstring)
(* vendor stream SDK *)
| CAck (messageId : JValue) (success : bool)       (* socketCallBackResponse *)
(* host runtime, rt.channel.* *)
| CResolveAgentRoute (arg : JValue)
| CResolveStorePath (store opts : JValue)
| CResolveEnvelopeFormatOptions (cfg : JValue)
| CReadSessionUpdatedAt (arg : JValue)
| CFormatInboundEnvelope (arg : JValue)
| CFinalizeInboundContext (arg : JValue)
| CRecordInboundSession (arg : JValue)
| CCreateReplyDispatcherWithTyping
| CDispatchReplyFromConfig (ctx cfg dispatcher replyOptions : JValue)
| CMarkDispatchIdle.

(** The type of the answer to each call.  A call that can reject or throw
    answers a [Result].  [dispatchReplyFromConfig] answers with the reply
    payloads the host drives through the [deliver] callback, in order, and
    with how the dispatch itself ends. *)
Definition Ans (c : Call) : Type :=
  match c with
  | CNow => Z
  | CTmpdir => jstring
  | CPathJoin _ _ => jstring
  | CBasename _ => jstring
  | CWriteFile _ _ => Result unit
  | CExistsSync _ => bool
  | CUnlinkSync _ => Result unit
  | CStat _ => Result Z
  | CCreateReadStream _ => unit
  | CStreamDestroy => unit
  | CJsonParse _ => Result JValue
  | CPostAccessToken _ _ => Result TokenResponse
  | CPostDownload _ _ _ => Result JValue
  | CGetUrl _ => Result MediaResponse
  | CPostWebhook _ _ _ => Result JValue
  | CPostUpload _ _ => Result JValue
  | CAck _ _ => unit
  | CResolveAgentRoute _ => Result JValue
  | CResolveStorePath _ _ => Result JValue
  | CResolveEnvelopeFormatOptions _ => Result JValue
  | CReadSessionUpdatedAt _ => Result JValue
  | CFormatInboundEnvelope _ => Result JValue
  | CFinalizeInboundContext _ => Result JValue
  | CRecordInboundSession _ => Result unit
  | CCreateReplyDispatcherWithTyping => Result (JValue * JValue)
  | CDispatchReplyFromConfig _ _ _ _ => (list Payload * Result unit)%type
  | CMarkDispatchIdle => unit
  end.

(** The environment answers a call knowing the calls made before it. *)
Definition Oracle : Type := forall (past : list Call) (c : Call), Ans c.

(** Module-level state of the channel module ([accessToken],
    [accessTokenExpiry], whether [runtime] is set) and the calls made so
    far. *)
Record World : Type := mkWorld {
  trace : list Call;
  accessToken : option jstring;
  accessTokenExpiry : Z;
  runtime : bool
}.

Definition log_call (c : Call) (w : World) : World :=
  mkWorld (trace w ++ [c]) (accessToken w) (accessTokenExpiry w) (runtime w).

Definition set_token (t : jstring) (expiry : Z) (w : World) : World :=
  mkWorld (trace w) (Some t) expiry (runtime w).

Definition set_runtime (b : bool) (w : World) : World :=
  mkWorld (trace w) (accessToken w) (accessTokenExpiry w) b.

(** Computations: they read the oracle, change the world, and return or
    throw.  The world survives a throw, as module state does. *)
Definition M (A : Type) : Type := Oracle -> World -> Result A * World.

Definition ret {A} (a : A) : M A := fun _ w => (Ok a, w).

Definition throw {A} (e : exn) : M A := fun _ w => (Thrown e, w).

Definition bind {A B} (m : M A) (f : A -> M B) : M B :=
  fun o w =>
    match m o w with
    | (Ok a, w') => f a o w'
    | (Thrown e, w') => (Thrown e, w')
    end.

Notation "x <- m ;; k" := (bind m (fun x => k))
  (at level 61, m at next level, right associativity).
Notation "m ;;; k" := (bind m (fun _ => k))
  (at level 61, right associativity).

(** A pure step that may throw. *)
Definition lift {A} (r : Result A) : M A := fun _ w => (r, w).

(** A call whose answer is a plain value. *)
Definition call (c : Call) : M (Ans c) :=
  fun o w => (Ok (o (trace w) c), log_call c w).

(** A call that may throw: [await] of a promise or a throwing function. *)
Definition callR {A} (c : Call) (cast : Ans c -> Result A) : M A :=
  fun o w => (cast (o (trace w) c), log_call c w).

Definition read_world : M World := fun _ w => (Ok w, w).

Definition modify (f : World -> World) : M unit := fun _ w => (Ok tt, f w).

(** [try { m } catch (err) { h err }] *)
Definition try_catch {A} (m : M A) (h : exn -> M A) : M A :=
  fun o w =>
    match m o w with
    | (Ok a, w') => (Ok a, w')
    | (Thrown e, w') => h e o w'
    end.

(** [try { m } finally { fin }] *)
Definition try_finally {A} (m : M A) (fin : M unit) : M A :=
  fun o w =>
    match m o w with
    | (r, w') =>
        match fin o w' with
        | (Ok _, w'') => (r, w'')
        | (Thrown e, w'') => (Thrown e, w'')
        end
    end.

(** [if (c) m] *)
Definition when (c : bool) (m : M unit) : M unit :=
  if c then m else ret tt.

(* ================================================================== *)
(** * Token cache *)
(* ================================================================== *)

(** [accessToken && ...]: the cached token is neither [null] nor empty. *)
Definition token_truthy (t : option jstring) : bool :=
  match t with
  | Some (_ :: _) => true
  | _ => false
  end.

Definition TOKEN_MARGIN_MS : Z := 60000.

(** The cached token read after the guard has established it is a
    string. *)
Definition cached_value (t : option jstring) : jstring :=
  match t with
  | Some tok => tok
  | None => []
  end.

Definition getAccessToken (config : JValue) : M jstring :=
  now <- call CNow ;;
  w <- read_world ;;
  if token_truthy (accessToken w)
     && (accessTokenExpiry w >? now + TOKEN_MARGIN_MS)
  then ret (cached_value (accessToken w))
  else
    appKey <- lift (get config "clientId") ;;
    appSecret <- lift (get config "clientSecret") ;;
    resp <- callR (CPostAccessToken appKey appSecret) (fun r => r) ;;
    modify (set_token (resp_accessToken resp)
                      (now + resp_expireIn resp * 1000)) ;;;
    ret (resp_accessToken resp).

(* ================================================================== *)
(** * Media download *)
(* ================================================================== *)

Record Media : Type := mkMedia {
  media_path : jstring;
  media_mimeType : jstring
}.

(** [headers['content-type'] || 'application/octet-stream'] *)
Definition content_type_or_default (h : option jstring) : jstring :=
  match h with
  | Some (c :: s) => c :: s
  | _ => lit "application/octet-stream"
  end.

(** [contentType.split('/')[1]?.split(';')[0] || 'bin'] *)
Definition extension_of (contentType : jstring) : jstring :=
  match nth_error (split_on 0x2F%N contentType) 1 with
  | Some sub =>
      match hd [] (split_on 0x3B%N sub) with
      | [] => lit "bin"
      | ext => ext
      end
  | None => lit "bin"
  end.

Definition downloadMedia (config : JValue) (downloadCode : JValue)
  : M (option Media) :=
  try_catch
    (token <- getAccessToken config ;;
     robotCode <- lift (get config "robotCode") ;;
     data <- callR (CPostDownload downloadCode robotCode token) (fun r => r) ;;
     let downloadUrl := oget data "downloadUrl" in
     if negb (truthy downloadUrl) then ret None
     else
       mediaResponse <- callR (CGetUrl downloadUrl) (fun r => r) ;;
       let contentType := content_type_or_default (content_type mediaResponse) in
       let ext := extension_of contentType in
       tmp <- call CTmpdir ;;
       stamp <- call CNow ;;
       tempPath <- call (CPathJoin tmp (lit "dingtalk_"
                                        ++ number_to_string stamp
                                        ++ lit "." ++ ext)) ;;
       callR (CWriteFile tempPath (media_data mediaResponse)) (fun r => r) ;;;
       ret (Some (mkMedia tempPath contentType)))
    (fun _ => ret None).

(* ================================================================== *)
(** * Outbound senders *)
(* ================================================================== *)

(** [options: any = {}] *)
Definition default_options (options : JValue) : JValue :=
  match options with
  | JUndefined => JObj []
  | _ => options
  end.

(** [{ atUserIds: [id], isAtAll: false }] *)
Definition at_field (atUserId : JValue) : JValue :=
  JObj [(lit "atUserIds", JArr [atUserId]); (lit "isAtAll", JBool false)].

Definition sendTextMessage (config sessionWebhook : JValue) (t : jstring)
           (options : JValue) : M JValue :=
  let options := default_options options in
  token <- getAccessToken config ;;
  atUserId <- lift (get options "atUserId") ;;
  let body :=
    [(lit "msgtype", JStr (lit "text"));
     (lit "text", JObj [(lit "content", JStr t)])]
    ++ (if truthy atUserId then [(lit "at", at_field atUserId)] else []) in
  callR (CPostWebhook sessionWebhook (JObj body) token) (fun r => r).

Definition sendMarkdownMessage (config sessionWebhook : JValue)
           (title : JValue) (markdown : jstring) (options : JValue)
  : M JValue :=
  let options := default_options options in
  token <- getAccessToken config ;;
  atUserId <- lift (get options "atUserId") ;;
  finalText <- lift (if truthy atUserId
                     then let? id := to_string atUserId in
                          Ok (markdown ++ lit " @" ++ id)
                     else Ok markdown) ;;
  let body :=
    [(lit "msgtype", JStr (lit "markdown"));
     (lit "markdown",
      JObj [(lit "title", jor title (JStr DEFAULT_TITLE));
            (lit "text", JStr finalText)])]
    ++ (if truthy atUserId then [(lit "at", at_field atUserId)] else []) in
  callR (CPostWebhook sessionWebhook (JObj body) token) (fun r => r).

(** Smart send. *)
Definition sendMessage (config sessionWebhook : JValue) (t : jstring)
           (options : JValue) : M JValue :=
  let options := default_options options in
  flag <- lift (get options "useMarkdown") ;;
  if useMarkdown flag t then
    title <- lift (get options "title") ;;
    sendMarkdownMessage config sessionWebhook (markdown_title title t) t options
  else
    sendTextMessage config sessionWebhook t options.

(* ================================================================== *)
(** * Inbound handler *)
(* ================================================================== *)

Definition getRuntime : M unit :=
  w <- read_world ;;
  if runtime w then ret tt
  else throw (Error (lit "DingTalk runtime not initialized")).

(** [plugin.register]: sets the module-level runtime reference. *)
Definition register : M unit := modify (set_runtime true).

(** What [deliver] reports back to the dispatcher: [{ ok: true }] or
    [{ ok: false, error }]. *)
Inductive DeliverResult : Type :=
| DeliverOk
| DeliverFailed (e : exn).

(** [payload.markdown || payload.text] *)
Definition textToSend (payload : Payload) : option jstring :=
  match p_markdown payload with
  | Some (c :: s) => Some (c :: s)
  | _ => p_text payload
  end.

(** [Boolean(payload.markdown)] *)
Definition has_markdown (payload : Payload) : bool :=
  match p_markdown payload with
  | Some (_ :: _) => true
  | _ => false
  end.

(** [isMarkdown] of the [deliver] callback. *)
Definition deliver_isMarkdown (payload : Payload) (t : jstring) : bool :=
  has_markdown payload || markdown_regex_test t.

(** [!isDirect ? senderId : null] *)
Definition at_user (isDirect : bool) (senderId : JValue) : JValue :=
  if negb isDirect then senderId else JNull.

(** The [deliver] callback handed to the reply dispatcher. *)
Definition deliver (dingtalkConfig sessionWebhook : JValue) (isDirect : bool)
           (senderId : JValue) (payload : Payload) : M DeliverResult :=
  try_catch
    (match textToSend payload with
     | Some (c :: s) =>
         let t := c :: s in
         sendMessage dingtalkConfig sessionWebhook t
           (JObj [(lit "atUserId", at_user isDirect senderId);
                  (lit "useMarkdown", JBool (deliver_isMarkdown payload t))]) ;;;
         ret DeliverOk
     | _ => ret DeliverOk
     end)
    (fun e => ret (DeliverFailed e)).

(** The deliveries the host drives during one dispatch. *)
Fixpoint deliver_all (dingtalkConfig sessionWebhook : JValue) (isDirect : bool)
         (senderId : JValue) (payloads : list Payload) : M unit :=
  match payloads with
  | [] => ret tt
  | p :: rest =>
      deliver dingtalkConfig sessionWebhook isDirect senderId p ;;;
      deliver_all dingtalkConfig sessionWebhook isDirect senderId rest
  end.

(** [await rt.channel.reply.dispatchReplyFromConfig({...})] together with
    the deliveries it causes. *)
Definition dispatch_reply (ctx cfg dispatcher replyOptions : JValue)
           (dingtalkConfig sessionWebhook : JValue) (isDirect : bool)
           (senderId : JValue) : M unit :=
  answer <- call (CDispatchReplyFromConfig ctx cfg dispatcher replyOptions) ;;
  deliver_all dingtalkConfig sessionWebhook isDirect senderId (fst answer) ;;;
  lift (snd answer).

(** [if (mediaPath && fs.existsSync(mediaPath)) { try { fs.unlinkSync(mediaPath); } catch {} }] *)
Definition cleanup_media (mediaPath : option jstring) : M unit :=
  match mediaPath with
  | Some (c :: s) =>
      present <- call (CExistsSync (c :: s)) ;;
      when present
        (try_catch (callR (CUnlinkSync (c :: s)) (fun r => r))
                   (fun _ => ret tt))
  | _ => ret tt
  end.

(** The [finally] block of the handler. *)
Definition after_dispatch (mediaPath : option jstring) : M unit :=
  call CMarkDispatchIdle ;;;
  cleanup_media mediaPath.

Definition opt_str (s : option jstring) : JValue :=
  match s with
  | Some x => JStr x
  | None => JUndefined
  end.

Definition opt_val (v : option JValue) : JValue :=
  match v with
  | Some x => x
  | None => JUndefined
  end.

Definition chat_type (isDirect : bool) : JValue :=
  JStr (lit (if isDirect then "direct" else "group")).

(** The locals the handler derives from the event before any call:
    [isDirect], [senderId], [senderName], [groupId], [groupName]. *)
Record Peer : Type := mkPeer {
  isDirect : bool;
  senderId : JValue;
  senderName : JValue;
  groupId : JValue;
  groupName : JValue
}.

Definition read_peer (data : JValue) : Result Peer :=
  let? conversationType := get data "conversationType" in
  let? senderStaffId := get data "senderStaffId" in
  let? senderId0 := get data "senderId" in
  let? senderNick := get data "senderNick" in
  let? conversationId := get data "conversationId" in
  let? conversationTitle := get data "conversationTitle" in
  Ok (mkPeer (is_str conversationType (lit "1"))
             (jor senderStaffId senderId0)
             (jor senderNick (JStr (lit "Unknown")))
             conversationId
             (jor conversationTitle (JStr (lit "Group")))).

(** [if (content.mediaPath && dingtalkConfig.robotCode) { ... }]: the
    media of the event, when it has a reference and the account a robot
    code, and the download succeeds. *)
Definition fetch_media (dingtalkConfig : JValue) (content : MessageContent)
  : M (option Media) :=
  let contentMediaPath := opt_val (mediaPath content) in
  wanted <- (if truthy contentMediaPath
             then robotCode <- lift (get dingtalkConfig "robotCode") ;;
                  ret (truthy robotCode)
             else ret false) ;;
  if wanted : bool
  then downloadMedia dingtalkConfig contentMediaPath
  else ret None.

(** [fromLabel] *)
Definition from_label (p : Peer) : Result jstring :=
  if isDirect p
  then let? name := to_string (senderName p) in
       let? id := to_string (senderId p) in
       Ok (name ++ lit " (" ++ id ++ lit ")")
  else let? subject := to_string (groupName p) in
       let? name := to_string (senderName p) in
       Ok (subject ++ lit " - " ++ name).

(** [to] *)
Definition to_address (p : Peer) : Result jstring :=
  if isDirect p
  then let? id := to_string (senderId p) in Ok (lit "dingtalk:" ++ id)
  else let? id := to_string (groupId p) in Ok (lit "dingtalk:group:" ++ id).

(** [content.text.slice(0, 50)]: the first 50 code units of a string, the
    first 50 elements of an array; no other value has a [slice] method. *)
Definition slice50 (v : JValue) : Result JValue :=
  match v with
  | JStr s => Ok (JStr (firstn 50 s))
  | JArr l => Ok (JArr (firstn 50 l))
  | _ => Thrown TypeError
  end.

(** The line handed to [log.info] once the session is recorded. *)
Definition inbound_log_line (p : Peer) (content : MessageContent)
  : Result jstring :=
  let? name := to_string (senderName p) in
  let? head := slice50 (text content) in
  let? shown := to_string head in
  Ok (lit "[DingTalk] Inbound: from=" ++ name ++ lit " text=" ++ [QUOTE]
      ++ shown ++ lit "..." ++ [QUOTE]).

(** The argument of [finalizeInboundContext]. *)
Definition inbound_context (body contentText sessionKey accountId : JValue)
           (p : Peer) (fromLabel to : jstring) (msgId createAt : JValue)
           (mediaPath mediaType : option jstring) : JValue :=
  JObj [(lit "Body", body); (lit "RawBody", contentText);
        (lit "CommandBody", contentText);
        (lit "From", JStr to); (lit "To", JStr to);
        (lit "SessionKey", sessionKey); (lit "AccountId", accountId);
        (lit "ChatType", chat_type (isDirect p));
        (lit "ConversationLabel", JStr fromLabel);
        (lit "GroupSubject", if isDirect p then JUndefined else groupName p);
        (lit "SenderName", senderName p); (lit "SenderId", senderId p);
        (lit "Provider", JStr (lit "dingtalk"));
        (lit "Surface", JStr (lit "dingtalk"));
        (lit "MessageSid", msgId); (lit "Timestamp", createAt);
        (lit "MediaPath", opt_str mediaPath);
        (lit "MediaType", opt_str mediaType);
        (lit "MediaUrl", opt_str mediaPath);
        (lit "CommandAuthorized", JBool true);
        (lit "OriginatingChannel", JStr (lit "dingtalk"));
        (lit "OriginatingTo", JStr to)].

(** Route resolution, envelope construction, session recording, the log
    line and the optional thinking message; returns the finalized
    context. *)
Definition route_and_record (log_info : bool)
           (cfg accountId data sessionWebhook dingtalkConfig : JValue)
           (content : MessageContent) (p : Peer)
           (mediaPath mediaType : option jstring) : M JValue :=
  route <- callR (CResolveAgentRoute
                    (JObj [(lit "cfg", cfg);
                           (lit "channel", JStr (lit "dingtalk"));
                           (lit "accountId", accountId);
                           (lit "peer",
                            JObj [(lit "kind",
                                   JStr (lit (if isDirect p then "dm" else "group")));
                                  (lit "id",
                                   if isDirect p then senderId p else groupId p)])]))
                 (fun r => r) ;;
  session <- lift (get cfg "session") ;;
  agentId <- lift (get route "agentId") ;;
  storePath <- callR (CResolveStorePath (oget session "store")
                                        (JObj [(lit "agentId", agentId)]))
                     (fun r => r) ;;
  envelopeOptions <- callR (CResolveEnvelopeFormatOptions cfg) (fun r => r) ;;
  sessionKey <- lift (get route "sessionKey") ;;
  previousTimestamp <-
    callR (CReadSessionUpdatedAt
             (JObj [(lit "storePath", storePath);
                    (lit "sessionKey", sessionKey)]))
          (fun r => r) ;;
  fromLabel <- lift (from_label p) ;;
  createAt <- lift (get data "createAt") ;;
  body <- callR (CFormatInboundEnvelope
                   (JObj [(lit "channel", JStr (lit "DingTalk"));
                          (lit "from", JStr fromLabel);
                          (lit "timestamp", createAt);
                          (lit "body", text content);
                          (lit "chatType", chat_type (isDirect p));
                          (lit "sender",
                           JObj [(lit "name", senderName p);
                                 (lit "id", senderId p)]);
                          (lit "previousTimestamp", previousTimestamp);
                          (lit "envelope", envelopeOptions)]))
                (fun r => r) ;;
  to <- lift (to_address p) ;;
  msgId <- lift (get data "msgId") ;;
  ctx <- callR (CFinalizeInboundContext
                  (inbound_context body (text content) sessionKey accountId p
                     fromLabel to msgId createAt mediaPath mediaType))
               (fun r => r) ;;
  ctxSessionKey <- lift (get ctx "SessionKey") ;;
  mainSessionKey <- (if isDirect p then lift (get route "mainSessionKey")
                     else ret JUndefined) ;;
  callR (CRecordInboundSession
           (JObj [(lit "storePath", storePath);
                  (lit "sessionKey", jor ctxSessionKey sessionKey);
                  (lit "ctx", ctx);
                  (lit "updateLastRoute",
                   if isDirect p
                   then JObj [(lit "sessionKey", mainSessionKey);
                              (lit "channel", JStr (lit "dingtalk"));
                              (lit "to", senderId p);
                              (lit "accountId", accountId)]
                   else JUndefined)]))
        (fun r => r) ;;;
  when log_info (lift (inbound_log_line p content) ;;; ret tt) ;;;
  showThinking <- lift (get dingtalkConfig "showThinking") ;;
  when (not_false showThinking)
       (try_catch
          (sendTextMessage dingtalkConfig sessionWebhook THINKING_TEXT
             (JObj [(lit "atUserId", at_user (isDirect p) (senderId p))]) ;;;
           ret tt)
          (fun _ => ret tt)) ;;;
  ret ctx.

(** Creation of the reply dispatcher, the dispatch inside [try], and the
    [finally] block. *)
Definition reply_cycle (ctx cfg dingtalkConfig sessionWebhook : JValue)
           (p : Peer) (mediaPath : option jstring) : M unit :=
  handles <- callR CCreateReplyDispatcherWithTyping (fun r => r) ;;
  try_finally
    (dispatch_reply ctx cfg (fst handles) (snd handles)
                    dingtalkConfig sessionWebhook (isDirect p) (senderId p))
    (after_dispatch mediaPath).

Definition handleDingTalkMessage (log_info : bool)
           (cfg accountId data sessionWebhook dingtalkConfig : JValue)
  : M unit :=
  getRuntime ;;;
  content <- lift (extractMessageContent data) ;;
  if negb (truthy (text content)) then ret tt
  else
    p <- lift (read_peer data) ;;
    media <- fetch_media dingtalkConfig content ;;
    let mediaPath := option_map media_path media in
    let mediaType := option_map media_mimeType media in
    ctx <- route_and_record log_info cfg accountId data sessionWebhook
                            dingtalkConfig content p mediaPath mediaType ;;
    reply_cycle ctx cfg dingtalkConfig sessionWebhook p mediaPath.

(* ================================================================== *)
(** * Stream listener *)
(* ================================================================== *)

(** A frame handed to the callback: [res.headers?.messageId] and
    [res.data]. *)
Record Frame : Type := mkFrame {
  frame_messageId : JValue;
  frame_data : jstring
}.

(** [if (messageId) client.socketCallBackResponse(messageId, { success })] *)
Definition acknowledge (messageId : JValue) (success : bool) : M unit :=
  when (truthy messageId) (call (CAck messageId success)).

(** The body of the [try] block up to the acknowledgment: parse the frame
    and run the inbound handler. *)
Definition handle_frame (log_info : bool) (cfg accountId config : JValue)
           (res : Frame) : M unit :=
  data <- callR (CJsonParse (frame_data res)) (fun r => r) ;;
  sessionWebhook <- lift (get data "sessionWebhook") ;;
  handleDingTalkMessage log_info cfg accountId data sessionWebhook config.

(** The callback registered for [TOPIC_ROBOT] in [startAccount];
    [log_info] says whether [ctx.log] has an [info] method. *)
Definition on_frame (log_info : bool) (cfg accountId config : JValue)
           (res : Frame) : M unit :=
  try_catch
    (let messageId := frame_messageId res in
     handle_frame log_info cfg accountId config res ;;;
     acknowledge messageId true)
    (fun _ =>
       let messageId := frame_messageId res in
       acknowledge messageId false).

(** The listener over a sequence of frames, one at a time. *)
Fixpoint on_frames (log_info : bool) (cfg accountId config : JValue)
         (frames : list Frame) : M unit :=
  match frames with
  | [] => ret tt
  | res :: rest =>
      on_frame log_info cfg accountId config res ;;;
      on_frames log_info cfg accountId config rest
  end.

(* ================================================================== *)
(** * media-utils.ts: size-gated upload *)
(* ================================================================== *)

Module MediaUtils.

Inductive DingTalkMediaType : Type := image | voice | video | file.

Definition media_type_name (t : DingTalkMediaType) : jstring :=
  lit (match t with
       | image => "image"
       | voice => "voice"
       | video => "video"
       | file => "file"
       end).

(** File size limits for DingTalk media types (in bytes). *)
Definition FILE_SIZE_LIMITS (t : DingTalkMediaType) : Z :=
  match t with
  | image => 20 * 1024 * 1024
  | voice => 2 * 1024 * 1024
  | video => 20 * 1024 * 1024
  | file => 20 * 1024 * 1024
  end.

(** [v === 0] *)
Definition is_zero (v : JValue) : bool :=
  match v with
  | JNum 0 => true
  | _ => false
  end.

(** A computation with one local variable ([let fileStream]) whose value
    survives a throw, so that a [finally] block can read it. *)
Definition ML (L A : Type) : Type :=
  L -> Oracle -> World -> (Result A * L) * World.

Definition lret {L A} (a : A) : ML L A := fun l _ w => ((Ok a, l), w).

Definition lbind {L A B} (m : ML L A) (f : A -> ML L B) : ML L B :=
  fun l o w =>
    match m l o w with
    | ((Ok a, l'), w') => f a l' o w'
    | ((Thrown e, l'), w') => ((Thrown e, l'), w')
    end.

(** A computation of the module that does not touch the local. *)
Definition keep {L A} (m : M A) : ML L A :=
  fun l o w => match m o w with (r, w') => ((r, l), w') end.

Definition assign {L} (v : L) : ML L unit := fun _ _ w => ((Ok tt, v), w).

Definition read_local {L} : ML L L := fun l _ w => ((Ok l, l), w).

Definition ltry_catch {L A} (m : ML L A) (h : exn -> ML L A) : ML L A :=
  fun l o w =>
    match m l o w with
    | ((Ok a, l'), w') => ((Ok a, l'), w')
    | ((Thrown e, l'), w') => h e l' o w'
    end.

Definition ltry_finally {L A} (m : ML L A) (fin : ML L unit) : ML L A :=
  fun l o w =>
    match m l o w with
    | ((r, l'), w') =>
        match fin l' o w' with
        | ((Ok _, l''), w'') => ((r, l''), w'')
        | ((Thrown e, l''), w'') => ((Thrown e, l''), w'')
        end
    end.

(** Entering the function: the local gets its initial value. *)
Definition with_local {L A} (init : L) (m : ML L A) : M A :=
  fun o w => match m init o w with ((r, _), w') => (r, w') end.

Notation "x <~ m ;; k" := (lbind m (fun x => k))
  (at level 61, m at next level, right associativity).
Notation "m ~;; k" := (lbind m (fun _ => k))
  (at level 61, right associativity).

(** [uploadMedia]; the local is [true] once [fileStream] holds a stream.
    [log_debug] says whether a logger with a [debug] method was passed: the
    line it is given after a successful upload writes the media id out. *)
Definition uploadMedia (log_debug : bool) (config : JValue)
           (mediaPath : jstring) (mediaType : DingTalkMediaType)
           (getAccessToken : JValue -> M jstring) : M JValue :=
  with_local false
    (ltry_finally
       (ltry_catch
          (token <~ keep (getAccessToken config) ;;
           size <~ keep (callR (CStat mediaPath) (fun r => r)) ;;
           let sizeLimit := FILE_SIZE_LIMITS mediaType in
           if size >? sizeLimit then lret JNull
           else
             keep (call (CCreateReadStream mediaPath)) ~;;
             assign true ~;;
             filename <~ keep (call (CBasename mediaPath)) ;;
             let uploadUrl :=
               lit "https://oapi.dingtalk.com/media/upload?access_token="
               ++ token ++ lit "&type=" ++ media_type_name mediaType in
             data <~ keep (callR (CPostUpload uploadUrl filename) (fun r => r)) ;;
             if is_zero (oget data "errcode") && truthy (oget data "media_id")
             then
               media_id <~ keep (lift (get data "media_id")) ;;
               (if log_debug
                then keep (lift (to_string media_id)) ~;; lret tt
                else lret tt) ~;;
               lret media_id
             else lret JNull)
          (fun _ => lret JNull))
       (opened <~ read_local ;;
        if opened : bool then keep (call CStreamDestroy) else lret tt)).

End MediaUtils.

(* ================================================================== *)
(** * Specification vocabulary *)
(* ================================================================== *)

(** The rows of the codec table. *)
Inductive Row : Type :=
| RowText | RowRichText | RowPicture | RowAudio | RowVideo | RowFile | RowOther.

Definition row_of (msgtype : JValue) : Row :=
  if is_str msgtype (lit "text") then RowText
  else if is_str msgtype (lit "richText") then RowRichText
  else if is_str msgtype (lit "picture") then RowPicture
  else if is_str msgtype (lit "audio") then RowAudio
  else if is_str msgtype (lit "video") then RowVideo
  else if is_str msgtype (lit "file") then RowFile
  else RowOther.

(** The trimmed text content of an event; empty when there is none. *)
Definition original_text (data : JValue) : jstring :=
  match oget (oget data "text") "content" with
  | JStr s => trim s
  | _ => []
  end.

Definition nullish (v : JValue) : bool :=
  match v with
  | JUndefined | JNull => true
  | _ => false
  end.

(** The text of a rich-text segment on the wire: a string, or nothing. *)
Definition segment_text (p : JValue) : jstring :=
  match oget p "text" with
  | JStr s => s
  | _ => []
  end.

(** The texts of the rich-text segments whose type is ["text"], joined
    with no separator. *)
Definition text_segments (data : JValue) : jstring :=
  match oget (oget data "content") "richText" with
  | JArr l =>
      List.concat
        (map segment_text
             (filter (fun p => is_str (oget p "type") (lit "text")) l))
  | _ => []
  end.

Definition nonempty_or (s d : jstring) : jstring :=
  match s with
  | [] => d
  | _ => s
  end.

(** The file name of a file event on the wire; empty when there is
    none. *)
Definition file_name (data : JValue) : jstring :=
  match oget (oget data "content") "fileName" with
  | JStr s => s
  | _ => []
  end.

(** The name of the message type of an event on the wire. *)
Definition type_name (data : JValue) : jstring :=
  match oget data "msgtype" with
  | JStr s => s
  | _ => []
  end.

(** The table of the message codec, row by row as the specification
    words it: text, media reference, media type; the message type is the
    event's [msgtype].  The placeholder labels are written out, code unit
    by code unit, as they reach the chat. *)
Definition codec_table (data : JValue) : MessageContent :=
  let msgtype := oget data "msgtype" in
  let downloadCode := oget (oget data "content") "downloadCode" in
  match row_of msgtype with
  | RowText =>
      mkContent (JStr (original_text data)) None None msgtype
  | RowRichText =>
      (* [富文本消息] *)
      mkContent
        (JStr (nonempty_or (text_segments data)
                 [0x5B; 0x5BCC; 0x6587; 0x672C; 0x6D88; 0x606F; 0x5D]%N))
        None None msgtype
  | RowPicture =>
      (* [图片] *)
      mkContent (JStr [0x5B; 0x56FE; 0x7247; 0x5D]%N)
                (Some downloadCode) (Some (JStr (lit "image"))) msgtype
  | RowAudio =>
      (* the transcript, or [语音消息] *)
      let recognition := oget (oget data "content") "recognition" in
      mkContent (if truthy recognition then recognition
                 else JStr [0x5B; 0x8BED; 0x97F3; 0x6D88; 0x606F; 0x5D]%N)
                (Some downloadCode) (Some (JStr (lit "audio"))) msgtype
  | RowVideo =>
      (* [视频] *)
      mkContent (JStr [0x5B; 0x89C6; 0x9891; 0x5D]%N)
                (Some downloadCode) (Some (JStr (lit "video"))) msgtype
  | RowFile =>
      (* [文件: <name>], the name being 文件 when the event has none *)
      mkContent
        (JStr ([0x5B; 0x6587; 0x4EF6; 0x3A; 0x20]%N
               ++ nonempty_or (file_name data) [0x6587; 0x4EF6]%N
               ++ [0x5D]%N))
        (Some downloadCode) (Some (JStr (lit "file"))) msgtype
  | RowOther =>
      (* the text, or [<type>消息] *)
      mkContent
        (JStr (nonempty_or (original_text data)
                 ([0x5B]%N ++ type_name data ++ [0x6D88; 0x606F; 0x5D]%N)))
        None None msgtype
  end.

(** The text content of the event is a string or absent. *)
Definition text_content_ok (data : JValue) : bool :=
  match oget (oget data "text") "content" with
  | JUndefined | JNull | JStr _ => true
  | _ => false
  end.

(** A rich-text segment is an object, and when its type is ["text"] its
    text is a string or absent. *)
Definition segment_ok (p : JValue) : bool :=
  negb (nullish p)
  && (negb (is_str (oget p "type") (lit "text"))
      || match oget p "text" with
         | JUndefined | JNull | JStr _ => true
         | _ => false
         end).

(** The rich-text segments are absent, or an array of such segments. *)
Definition segments_ok (data : JValue) : bool :=
  match oget (oget data "content") "richText" with
  | JArr l => forallb segment_ok l
  | v => negb (truthy v)
  end.

(** The file name is a string or absent. *)
Definition file_name_ok (data : JValue) : bool :=
  match oget (oget data "content") "fileName" with
  | JStr _ => true
  | v => negb (truthy v)
  end.

(** The message type is a string. *)
Definition type_name_ok (data : JValue) : bool :=
  match oget data "msgtype" with
  | JStr _ => true
  | _ => false
  end.

(** An event is well formed for its row when the parts that row reads
    have the shape of the wire format. *)
Definition well_formed_event (data : JValue) : bool :=
  match row_of (oget data "msgtype") with
  | RowText => text_content_ok data
  | RowRichText => segments_ok data
  | RowFile => file_name_ok data
  | RowOther => type_name_ok data && text_content_ok data
  | _ => true
  end.


(** The markdown features of an outbound text, as the specification
    lists them: a newline anywhere, one of [# * > -] at the start, or one
    of [* _ ` # [ ]] anywhere. *)
Definition markdown_features (t : jstring) : Prop :=
  In 0xA%N t
  \/ (exists c r, t = c :: r /\ In c (lit "#*>-"))
  \/ (exists c, In c t /\ In c (lit "*_`#[]")).

(** White space, as a regular expression's [\s] reads it: the white
    space and line terminator code points of ECMAScript. *)
Definition white_space (c : N) : Prop :=
  In c [0x9; 0xA; 0xB; 0xC; 0xD; 0x20; 0xA0; 0x1680; 0x2028; 0x2029;
        0x202F; 0x205F; 0x3000; 0xFEFF]%N
  \/ (0x2000 <= c <= 0x200A)%N.

(** A character the title leaves out at the start of the first line: one
    of [# * - >] or white space. *)
Definition title_marker (c : N) : Prop :=
  In c (lit "#*->") \/ white_space c.

(** [line] is the first line of [t]: the text up to its first newline. *)
Definition is_first_line (t line : jstring) : Prop :=
  ~ In 0xA%N line /\ (t = line \/ exists rest, t = line ++ 0xA%N :: rest).

(** [stripped] is [line] without its leading run of markers. *)
Definition is_stripped (line stripped : jstring) : Prop :=
  exists markers,
    line = markers ++ stripped
    /\ Forall title_marker markers
    /\ match stripped with
       | [] => True
       | c :: _ => ~ title_marker c
       end.

(** The fixed fallback title, [Clawdbot 消息]. *)
Definition FALLBACK_TITLE : jstring := lit "Clawdbot " ++ [0x6D88; 0x606F]%N.

(** The title derived from what is left of the first line: its first 20
    code units, or the fallback title when nothing is left. *)
Definition derived_title (stripped : jstring) : jstring :=
  match stripped with
  | [] => FALLBACK_TITLE
  | _ => firstn 20 stripped
  end.

(** The value has a string form: [String(v)] returns. *)
Definition has_string_form (v : JValue) : Prop :=
  exists s, to_string v = Ok s.

Definition writable (v : JValue) : bool :=
  match to_string v with
  | Ok _ => true
  | Thrown _ => false
  end.

(** A mention that can be written into a markdown text: nobody, or an id
    with a string form. *)
Definition mentionable (atUserId : JValue) : Prop :=
  truthy atUserId = true -> has_string_form atUserId.

(** The peer of an event, as the wire format carries it. *)
Definition event_peer (data : JValue) : Peer :=
  mkPeer (is_str (oget data "conversationType") (lit "1"))
         (jor (oget data "senderStaffId") (oget data "senderId"))
         (jor (oget data "senderNick") (JStr (lit "Unknown")))
         (oget data "conversationId")
         (jor (oget data "conversationTitle") (JStr (lit "Group"))).

(** The ids and names of a peer that go into labels and addresses have a
    string form. *)
Definition peer_printable (p : Peer) : Prop :=
  has_string_form (senderId p) /\ has_string_form (senderName p)
  /\ has_string_form (groupId p) /\ has_string_form (groupName p).

(** The log line can be written: no logger is listening, or the decoded
    text is a string. *)
Definition loggable (log_info : bool) (content : MessageContent) : Prop :=
  log_info = true -> exists s, text content = JStr s.

(** The message kind a webhook body announces. *)
Definition body_kind (body : JValue) : JValue := oget body "msgtype".

(** The title a markdown webhook body carries. *)
Definition body_title (body : JValue) : JValue :=
  oget (oget body "markdown") "title".

(** What [Date.now()] answers in world [w]. *)
Definition clock (o : Oracle) (w : World) : Z := o (trace w) CNow.

(** The refresh request [getAccessToken] sends for a configuration. *)
Definition refresh_request (config : JValue) : Call :=
  CPostAccessToken (oget config "clientId") (oget config "clientSecret").

(** What the identity endpoint answers to a refresh made in world [w]. *)
Definition refresh_answer (o : Oracle) (w : World) (config : JValue)
  : Result TokenResponse :=
  o (trace w ++ [CNow]) (refresh_request config).

(** The calls made between two worlds. *)
Definition calls_between (w w' : World) (tr : list Call) : Prop :=
  trace w' = trace w ++ tr.

(** The closing sentence of the token-cache contract, as the
    specification words it: no call returns a token within 60 seconds of
    the expiry stored for it. *)
Definition never_returned_near_expiry : Prop :=
  forall (o : Oracle) (w : World) (config : JValue) (tok : jstring) (w' : World),
    getAccessToken config o w = (Ok tok, w') ->
    accessTokenExpiry w' > clock o w + 60000.

(** Classes of calls. *)

(** The calls of the token cache. *)
Definition token_call (c : Call) : bool :=
  match c with
  | CNow | CPostAccessToken _ _ => true
  | _ => false
  end.

(** The calls of the outbound senders. *)
Definition send_call (c : Call) : bool :=
  match c with
  | CNow | CPostAccessToken _ _ | CPostWebhook _ _ _ => true
  | _ => false
  end.

(** The calls of one media download. *)
Definition download_call (c : Call) : bool :=
  match c with
  | CNow | CPostAccessToken _ _ | CPostDownload _ _ _ | CGetUrl _
  | CTmpdir | CPathJoin _ _ | CWriteFile _ _ => true
  | _ => false
  end.

(** A request to the download endpoint, the fetch of the file, or the
    write of the temp file. *)
Definition media_transfer_call (c : Call) : bool :=
  match c with
  | CPostDownload _ _ _ | CGetUrl _ | CWriteFile _ _ => true
  | _ => false
  end.

(** The calls to the host runtime. *)
Definition host_call (c : Call) : bool :=
  match c with
  | CResolveAgentRoute _ | CResolveStorePath _ _
  | CResolveEnvelopeFormatOptions _ | CReadSessionUpdatedAt _
  | CFormatInboundEnvelope _ | CFinalizeInboundContext _
  | CRecordInboundSession _ | CCreateReplyDispatcherWithTyping
  | CDispatchReplyFromConfig _ _ _ _ | CMarkDispatchIdle => true
  | _ => false
  end.

(** The calls the handler makes once the media has been fetched. *)
Definition after_media_call (c : Call) : bool :=
  send_call c || host_call c
  || match c with
     | CExistsSync _ | CUnlinkSync _ => true
     | _ => false
     end.

(** The calls of the inbound handler. *)
Definition handler_call (c : Call) : bool :=
  download_call c || after_media_call c.

Definition is_ack (c : Call) : bool :=
  match c with
  | CAck _ _ => true
  | _ => false
  end.

(** Every call a computation makes belongs to the class [p]. *)
Definition emits (p : Call -> bool) {A} (m : M A) : Prop :=
  forall (o : Oracle) (w : World),
    exists tr, trace (snd (m o w)) = trace w ++ tr /\ forallb p tr = true.

(** The class [p] contains the class [q]. *)
Definition covers (p q : Call -> bool) : Prop :=
  forall c, q c = true -> p c = true.

(** A request to the media download endpoint. *)
Definition is_download_request (c : Call) : bool :=
  match c with
  | CPostDownload _ _ _ => true
  | _ => false
  end.

Definition download_requests (tr : list Call) : nat :=
  length (filter is_download_request tr).

(** An answer of the host that does not throw and, where the handler
    reads a property of the value, is not [null] or [undefined]. *)
Definition obliging (c : Call) : Ans c -> bool :=
  match c return Ans c -> bool with
  | CResolveAgentRoute _ | CFinalizeInboundContext _ =>
      fun a => match a with
               | Ok v => negb (nullish v)
               | Thrown _ => false
               end
  | CResolveStorePath _ _ | CResolveEnvelopeFormatOptions _
  | CReadSessionUpdatedAt _ | CFormatInboundEnvelope _ =>
      fun a => match a with
               | Ok _ => true
               | Thrown _ => false
               end
  | CRecordInboundSession _ =>
      fun a => match a with
               | Ok _ => true
               | Thrown _ => false
               end
  | CCreateReplyDispatcherWithTyping =>
      fun a => match a with
               | Ok _ => true
               | Thrown _ => false
               end
  | _ => fun _ => true
  end.

(** The host serves every request of the handler. *)
Definition host_obliging (o : Oracle) : Prop :=
  forall past c, obliging c (o past c) = true.

(** The file-system calls of the [finally] block for a media path, given
    the calls made before them. *)
Definition cleanup_calls (o : Oracle) (past : list Call)
           (mediaPath : option jstring) : list Call :=
  match mediaPath with
  | Some (c :: s) =>
      CExistsSync (c :: s)
      :: (if (o past (CExistsSync (c :: s)) : bool)
          then [CUnlinkSync (c :: s)] else [])
  | _ => []
  end.

(** Whether a run completed without throwing. *)
Definition completed {A} (r : Result A) : bool :=
  match r with
  | Ok _ => true
  | Thrown _ => false
  end.

(** The acknowledgment contract, as the specification words it: whenever
    handling a frame throws, a negative acknowledgment for the frame's
    [messageId] is sent. *)
Definition nack_always_sent : Prop :=
  forall (log_info : bool) (o : Oracle) (w : World)
         (cfg accountId config : JValue) (res : Frame),
    completed (fst (handle_frame log_info cfg accountId config res o w))
    = false ->
    In (CAck (frame_messageId res) false)
       (trace (snd (on_frame log_info cfg accountId config res o w))).

(** The frames that carry a [messageId]. *)
Definition identified (frames : list Frame) : list Frame :=
  filter (fun res => truthy (frame_messageId res)) frames.

(* ================================================================== *)
(** * Sample inputs *)
(* ================================================================== *)

Definition obj (l : list (string * JValue)) : JValue :=
  JObj (map (fun p => (lit (fst p), snd p)) l).

Definition str (s : string) : JValue := JStr (lit s).

(** An audio event with a transcript. *)
Definition sample_audio_event : JValue :=
  obj [("msgtype", str "audio");
       ("content", obj [("recognition", str "hello");
                        ("downloadCode", str "DC1")])]%string.

(** A text event whose content is padded with white space. *)
Definition sample_padded_event : JValue :=
  obj [("msgtype", str "text");
       ("text", obj [("content", str "  hi there  ")])]%string.

(** A rich-text event: two text segments around a picture. *)
Definition sample_richtext_event : JValue :=
  obj [("msgtype", str "richText");
       ("content",
        obj [("richText",
              JArr [obj [("type", str "text"); ("text", str "see ")];
                    obj [("type", str "picture"); ("downloadCode", str "DC2")];
                    obj [("type", str "text"); ("text", str "this")]])])]%string.

(** A rich-text event without a text segment. *)
Definition sample_bare_richtext_event : JValue :=
  obj [("msgtype", str "richText");
       ("content",
        obj [("richText",
              JArr [obj [("type", str "picture");
                         ("downloadCode", str "DC2")]])])]%string.

(** A picture event. *)
Definition sample_image_event : JValue :=
  obj [("msgtype", str "picture");
       ("content", obj [("downloadCode", str "DC1")])]%string.

(** An audio event without a transcript. *)
Definition sample_silent_audio_event : JValue :=
  obj [("msgtype", str "audio");
       ("content", obj [("downloadCode", str "DC1")])]%string.

(** A video event. *)
Definition sample_video_event : JValue :=
  obj [("msgtype", str "video");
       ("content", obj [("downloadCode", str "DC1")])]%string.

(** A file event with a file name, and one without. *)
Definition sample_file_event : JValue :=
  obj [("msgtype", str "file");
       ("content", obj [("fileName", str "report.pdf");
                        ("downloadCode", str "DC1")])]%string.

Definition sample_unnamed_file_event : JValue :=
  obj [("msgtype", str "file");
       ("content", obj [("downloadCode", str "DC1")])]%string.

(** An event of a type the codec does not know, without text. *)
Definition sample_location_event : JValue :=
  obj [("msgtype", str "location")]%string.

(** A text event without a [msgtype] property. *)
Definition sample_untyped_fields : list (jstring * JValue) :=
  [(lit "text", obj [("content", str "  hi  ")]%string);
   (lit "senderId", str "u1")].

(** A scripted environment: one answer per kind of call. *)
Record Scenario : Type := mkScenario {
  sc_now : Z;
  sc_token : Result TokenResponse;
  sc_download : Result JValue;
  sc_media : Result MediaResponse;
  sc_write : Result unit;
  sc_exists : bool;
  sc_unlink : Result unit;
  sc_stat : Result Z;
  sc_parse : Result JValue;
  sc_webhook : Result JValue;
  sc_upload : Result JValue;
  sc_host : Result JValue;
  sc_dispatch : list Payload * Result unit
}.

Definition scripted (s : Scenario) : Oracle :=
  fun _ c =>
    match c return Ans c with
    | CNow => sc_now s
    | CTmpdir => lit "/tmp"
    | CPathJoin dir name => dir ++ lit "/" ++ name
    | CBasename p => p
    | CWriteFile _ _ => sc_write s
    | CExistsSync _ => sc_exists s
    | CUnlinkSync _ => sc_unlink s
    | CStat _ => sc_stat s
    | CCreateReadStream _ => tt
    | CStreamDestroy => tt
    | CJsonParse _ => sc_parse s
    | CPostAccessToken _ _ => sc_token s
    | CPostDownload _ _ _ => sc_download s
    | CGetUrl _ => sc_media s
    | CPostWebhook _ _ _ => sc_webhook s
    | CPostUpload _ _ => sc_upload s
    | CAck _ _ => tt
    | CResolveAgentRoute _ => sc_host s
    | CResolveStorePath _ _ => sc_host s
    | CResolveEnvelopeFormatOptions _ => sc_host s
    | CReadSessionUpdatedAt _ => sc_host s
    | CFormatInboundEnvelope _ => sc_host s
    | CFinalizeInboundContext _ => sc_host s
    | CRecordInboundSession _ =>
        match sc_host s with
        | Ok _ => Ok tt
        | Thrown e => Thrown e
        end
    | CCreateReplyDispatcherWithTyping =>
        match sc_host s with
        | Ok v => Ok (v, v)
        | Thrown e => Thrown e
        end
    | CDispatchReplyFromConfig _ _ _ _ => sc_dispatch s
    | CMarkDispatchIdle => tt
    end.

(** The environment in which every call succeeds. *)
Definition calm : Scenario :=
  mkScenario 1000
             (Ok (mkTokenResponse (lit "T1") 7200))
             (Ok (obj [("downloadUrl", str "https://media/1")]%string))
             (Ok (mkMediaResponse (Some (lit "image/png")) []))
             (Ok tt) true (Ok tt) (Ok 0)
             (Ok (JObj []))
             (Ok (JObj [])) (Ok (JObj []))
             (Ok (JObj []))
             ([], Ok tt).

(** A registered plugin with an empty token cache and no calls yet. *)
Definition fresh_world : World := mkWorld [] None 0 true.

(** A registered plugin holding a token valid for a long time. *)
Definition warm_world : World := mkWorld [] (Some (lit "T0")) 10000000 true.

Definition sample_config : JValue :=
  obj [("clientId", str "id"); ("clientSecret", str "secret");
       ("robotCode", str "robot")]%string.

Definition sample_webhook : JValue := str "https://hook".

(** The identity endpoint grants a token that lives 30 seconds. *)
Definition short_lived : Scenario :=
  mkScenario 1000
             (Ok (mkTokenResponse (lit "T1") 30))
             (sc_download calm) (sc_media calm) (sc_write calm)
             (sc_exists calm) (sc_unlink calm) (sc_stat calm)
             (sc_parse calm) (sc_webhook calm) (sc_upload calm)
             (sc_host calm) (sc_dispatch calm).

(** A file one byte above the voice ceiling. *)
Definition oversize_voice : Scenario :=
  mkScenario 1000 (sc_token calm)
             (sc_download calm) (sc_media calm) (sc_write calm)
             (sc_exists calm) (sc_unlink calm) (Ok (2 * 1024 * 1024 + 1))
             (sc_parse calm) (sc_webhook calm) (sc_upload calm)
             (sc_host calm) (sc_dispatch calm).

(** A file of exactly the voice ceiling. *)
Definition full_voice : Scenario :=
  mkScenario 1000 (sc_token calm)
             (sc_download calm) (sc_media calm) (sc_write calm)
             (sc_exists calm) (sc_unlink calm) (Ok (2 * 1024 * 1024))
             (sc_parse calm) (sc_webhook calm) (sc_upload calm)
             (sc_host calm) (sc_dispatch calm).

Definition sample_voice_path : jstring := lit "/tmp/a.amr".

(** A text event whose content is white space only. *)
Definition sample_blank_event : JValue :=
  obj [("msgtype", str "text");
       ("text", obj [("content", str "   ")]);
       ("senderId", str "u1")]%string.

(** A group picture event with a download code. *)
Definition sample_picture_event : JValue :=
  obj [("msgtype", str "picture");
       ("content", obj [("downloadCode", str "DC1")]);
       ("conversationType", str "2");
       ("conversationId", str "cid1");
       ("conversationTitle", str "Team");
       ("senderId", str "u1");
       ("senderNick", str "Alice");
       ("createAt", JNum 1000);
       ("sessionWebhook", str "https://hook")]%string.

(** The download endpoint is unreachable. *)
Definition download_down : Scenario :=
  mkScenario 1000 (sc_token calm)
             (Thrown (Error (lit "network")))
             (sc_media calm) (sc_write calm)
             (sc_exists calm) (sc_unlink calm) (sc_stat calm)
             (sc_parse calm) (sc_webhook calm) (sc_upload calm)
             (sc_host calm) (sc_dispatch calm).

(** The download endpoint answers, but the file cannot be fetched. *)
Definition fetch_down : Scenario :=
  mkScenario 1000 (sc_token calm)
             (sc_download calm)
             (Thrown (Error (lit "timeout")))
             (sc_write calm)
             (sc_exists calm) (sc_unlink calm) (sc_stat calm)
             (sc_parse calm) (sc_webhook calm) (sc_upload calm)
             (sc_host calm) (sc_dispatch calm).

(** The file is fetched, but the temp file cannot be written. *)
Definition disk_full : Scenario :=
  mkScenario 1000 (sc_token calm)
             (sc_download calm) (sc_media calm)
             (Thrown (Error (lit "ENOSPC")))
             (sc_exists calm) (sc_unlink calm) (sc_stat calm)
             (sc_parse calm) (sc_webhook calm) (sc_upload calm)
             (sc_host calm) (sc_dispatch calm).

(** The dispatch delivers one reply and then throws; the temp file is
    still there but cannot be unlinked. *)
Definition dispatch_throws : Scenario :=
  mkScenario 1000 (sc_token calm)
             (sc_download calm) (sc_media calm) (sc_write calm)
             true (Thrown (Error (lit "EPERM"))) (sc_stat calm)
             (sc_parse calm) (sc_webhook calm) (sc_upload calm)
             (sc_host calm)
             ([mkPayload None (Some (lit "hi"))], Thrown (Error (lit "boom"))).

(** [JSON.parse] rejects every frame body. *)
Definition malformed_json : Scenario :=
  mkScenario 1000 (sc_token calm)
             (sc_download calm) (sc_media calm) (sc_write calm)
             (sc_exists calm) (sc_unlink calm) (sc_stat calm)
             (Thrown SyntaxError) (sc_webhook calm) (sc_upload calm)
             (sc_host calm) (sc_dispatch calm).

(** A frame without [headers.messageId]. *)
Definition anonymous_frame : Frame := mkFrame JUndefined (lit "{oops").

(** A frame with a [messageId] and a body that does not parse. *)
Definition broken_frame : Frame := mkFrame (str "m1") (lit "{oops").

(** The host rejects every request. *)
Definition host_down : Scenario :=
  mkScenario 1000 (sc_token calm)
             (sc_download calm) (sc_media calm) (sc_write calm)
             (sc_exists calm) (sc_unlink calm) (sc_stat calm)
             (sc_parse calm) (sc_webhook calm) (sc_upload calm)
             (Thrown (Error (lit "no route")))
             (sc_dispatch calm).

From Stdlib Require Import Permutation.

(* ================================================================== *)
(** * Plugin façade: configuration and accounts *)
(* ================================================================== *)

(** [(cfg?.channels as any)?.dingtalk || {}] *)
Definition getConfig (cfg : JValue) : JValue :=
  jor (oget (oget cfg "channels") "dingtalk") (JObj []).

(** [Boolean(config.clientId && config.clientSecret)] for the channel
    configuration of [cfg]. *)
Definition isConfigured (cfg : JValue) : bool :=
  let config := getConfig cfg in
  truthy (oget config "clientId") && truthy (oget config "clientSecret").

Definition is_digit (c : N) : bool := ((48 <=? c) && (c <=? 57))%N.

Definition digits_value (k : jstring) : N :=
  fold_left (fun acc c => acc * 10 + (c - 48))%N k 0%N.

(** A property name that is an array index: the canonical decimal form of
    an integer below [2^32 - 1]. *)
Definition array_index (k : jstring) : option N :=
  match k with
  | [] => None
  | c :: r =>
      if forallb is_digit k
         && (negb (c =? 48)%N || match r with [] => true | _ => false end)
         && (digits_value k <=? 4294967294)%N
      then Some (digits_value k)
      else None
  end.

Fixpoint insert_index (i : N) (k : jstring) (l : list (N * jstring))
  : list (N * jstring) :=
  match l with
  | [] => [(i, k)]
  | (j, k') :: r =>
      if (i <=? j)%N then (i, k) :: l else (j, k') :: insert_index i k r
  end.

Fixpoint sort_indices (l : list (N * jstring)) : list (N * jstring) :=
  match l with
  | [] => []
  | (i, k) :: r => insert_index i k (sort_indices r)
  end.

(** The distinct names of a property list, in order of first
    appearance. *)
Definition distinct_names (names : list jstring) : list jstring :=
  rev (nodup (list_eq_dec N.eq_dec) (rev names)).

(** The own property names of an object in the order of
    [Object.keys]: array indices ascending, then the other names in
    order of creation. *)
Definition ordered_names (names : list jstring) : list jstring :=
  let ks := distinct_names names in
  map snd
      (sort_indices
         (flat_map (fun k => match array_index k with
                             | Some i => [(i, k)]
                             | None => []
                             end) ks))
  ++ filter (fun k => match array_index k with
                      | Some _ => false
                      | None => true
                      end) ks.

(** The names ["0"], ..., ["n-1"]. *)
Definition index_names (n : nat) : list jstring :=
  map (fun i => decimal (Z.of_nat i)) (seq 0 n).

(** [Object.keys(v)] *)
Definition object_keys (v : JValue) : Result (list jstring) :=
  match v with
  | JUndefined | JNull => Thrown TypeError
  | JBool _ | JNum _ => Ok []
  | JStr s => Ok (index_names (length s))
  | JArr l => Ok (index_names (length l))
  | JObj fs => Ok (ordered_names (map fst fs))
  end.

(** [listAccountIds] *)
Definition listAccountIds (cfg : JValue) : Result (list jstring) :=
  let config := getConfig cfg in
  if truthy (oget config "accounts")
  then object_keys (oget config "accounts")
  else Ok (if isConfigured cfg then [lit "default"] else []).

(** The properties every object inherits from [Object.prototype]. *)
Definition OBJECT_PROTOTYPE_NAMES : list jstring :=
  map lit ["constructor"; "__defineGetter__"; "__defineSetter__";
           "hasOwnProperty"; "__lookupGetter__"; "__lookupSetter__";
           "isPrototypeOf"; "propertyIsEnumerable"; "toString"; "valueOf";
           "__proto__"; "toLocaleString"]%string.

Definition has_own (fs : list (jstring * JValue)) (k : jstring) : bool :=
  existsb (fun kv => jstring_eqb k (fst kv)) fs.

(** [v?.[k]] for a computed name [k].  The result is [None] where the
    property is an inherited method or belongs to a string, an array, a
    number or a boolean: those values are outside [JValue]. *)
Definition oget_computed (v : JValue) (k : jstring) : option JValue :=
  match v with
  | JUndefined | JNull => Some JUndefined
  | JObj fs =>
      if has_own fs k then Some (lookup k fs)
      else if existsb (jstring_eqb k) OBJECT_PROTOTYPE_NAMES then None
      else Some JUndefined
  | _ => None
  end.

(** What [resolveAccount] returns: [{ accountId, config, enabled }]. *)
Record Account : Type := mkAccount {
  account_id : JValue;
  account_config : JValue;
  account_enabled : bool
}.

(** [config.accounts?.[id]]: the name is computed only when there are
    accounts.  [None] where [oget_computed] is, and for an id without a
    string form (the parameter is typed [string]). *)
Definition account_entry (accounts id : JValue) : option JValue :=
  if nullish accounts then Some JUndefined
  else match to_string id with
       | Ok name => oget_computed accounts name
       | Thrown _ => None
       end.

(** [resolveAccount]; [None] where [account_entry] is. *)
Definition resolveAccount (cfg : JValue) (accountId : JValue)
  : option Account :=
  let config := getConfig cfg in
  let id := jor accountId (JStr (lit "default")) in
  match account_entry (oget config "accounts") id with
  | None => None
  | Some entry =>
      Some (if truthy entry
            then mkAccount id entry (not_false (oget entry "enabled"))
            else mkAccount (JStr (lit "default")) config
                           (not_false (oget config "enabled")))
  end.

(** [defaultAccountId] *)
Definition defaultAccountId : jstring := lit "default".

(** [config.isConfigured(account)] *)
Definition accountIsConfigured (account : Account) : bool :=
  truthy (oget (account_config account) "clientId")
  && truthy (oget (account_config account) "clientSecret").

(** What [describeAccount] returns. *)
Record AccountDescription : Type := mkDescription {
  described_id : JValue;
  described_name : JValue;
  described_enabled : bool;
  described_configured : bool
}.

(** [describeAccount] *)
Definition describeAccount (account : Account) : AccountDescription :=
  mkDescription (account_id account)
                (jor (oget (account_config account) "name")
                     (JStr (lit "DingTalk")))
                (account_enabled account)
                (truthy (oget (account_config account) "clientId")).

(* ================================================================== *)
(** * Plugin façade: policies and targets *)
(* ================================================================== *)

(** Lower case of an ASCII letter; every other code unit is itself. *)
Definition ascii_lower (c : N) : N :=
  if ((65 <=? c) && (c <=? 90))%N then (c + 32)%N else c.

(** Matching a lower-case ASCII literal at the start of a string, letters
    compared without case as the [i] flag does: the rest of the string
    after the literal, when it matches. *)
Fixpoint strip_literal_ci (literal s : jstring) : option jstring :=
  match literal with
  | [] => Some s
  | l :: literal' =>
      match s with
      | [] => None
      | c :: s' =>
          if (ascii_lower c =? l)%N then strip_literal_ci literal' s'
          else None
      end
  end.

(** [raw.replace(/^(dingtalk|dd|ding):/i, '')] *)
Definition strip_channel_prefix (raw : jstring) : jstring :=
  match strip_literal_ci (lit "dingtalk:") raw with
  | Some rest => rest
  | None =>
      match strip_literal_ci (lit "dd:") raw with
      | Some rest => rest
      | None =>
          match strip_literal_ci (lit "ding:") raw with
          | Some rest => rest
          | None => raw
          end
      end
  end.

(** [security.resolveDmPolicy(...).normalizeEntry] *)
Definition normalizeEntry (raw : jstring) : jstring :=
  strip_channel_prefix raw.

(** [messaging.normalizeTarget]: [null] for an empty target. *)
Definition normalizeTarget (target : jstring) : option jstring :=
  match target with
  | [] => None
  | _ => Some (strip_channel_prefix target)
  end.

(** The class [[\w-]]. *)
Definition is_id_char (c : N) : bool :=
  (((65 <=? c) && (c <=? 90)) || ((97 <=? c) && (c <=? 122))
   || ((48 <=? c) && (c <=? 57)) || (c =? 95) || (c =? 45))%N.

(** [looksLikeId]: [/^[\w-]+$/.test(id)] *)
Definition looksLikeId (id : jstring) : bool :=
  match id with
  | [] => false
  | _ => forallb is_id_char id
  end.

(** What [resolveDmPolicy] returns, without its constant paths and
    hint. *)
Record DmPolicy : Type := mkDmPolicy {
  dm_policy : JValue;
  dm_allowFrom : JValue
}.

(** [security.resolveDmPolicy] *)
Definition resolveDmPolicy (account : Account) : DmPolicy :=
  mkDmPolicy (jor (oget (account_config account) "dmPolicy")
                  (JStr (lit "open")))
             (jor (oget (account_config account) "allowFrom") (JArr [])).

(** [groups.resolveRequireMention] *)
Definition resolveRequireMention (cfg : JValue) : bool :=
  negb (is_str (oget (getConfig cfg) "groupPolicy") (lit "open")).

(* ================================================================== *)
(** * Plugin façade: status probe *)
(* ================================================================== *)

(** What [status.probe] resolves to. *)
Inductive ProbeResult : Type :=
| ProbeNotConfigured                (* { ok: false, error: 'Not configured' } *)
| ProbeOk (clientId : JValue)       (* { ok: true, details: { clientId } } *)
| ProbeFailed (e : exn).            (* { ok: false, error: error.message } *)

(** [status.probe] *)
Definition probe (cfg : JValue) : M ProbeResult :=
  if negb (isConfigured cfg) then ret ProbeNotConfigured
  else
    try_catch
      (let config := getConfig cfg in
       getAccessToken config ;;;
       clientId <- lift (get config "clientId") ;;
       ret (ProbeOk clientId))
      (fun e => ret (ProbeFailed e)).

(** The two gateway methods [plugin.register] adds, as what each passes to
    [respond]: [respond(true, result)] for ['dingtalk.status'] and
    [respond(result.ok, result)] for ['dingtalk.probe']. *)
Definition probe_ok (result : ProbeResult) : bool :=
  match result with
  | ProbeOk _ => true
  | ProbeNotConfigured | ProbeFailed _ => false
  end.

Definition status_method (cfg : JValue) : M (bool * ProbeResult) :=
  result <- probe cfg ;;
  ret (true, result).

Definition probe_method (cfg : JValue) : M (bool * ProbeResult) :=
  result <- probe cfg ;;
  ret (probe_ok result, result).

(* ================================================================== *)
(** * Gateway: [startAccount] and the handle it returns *)
(* ================================================================== *)

Module Gateway.

Import MediaUtils.

(** What [startAccount] and its two closures do to the stream client, to
    the abort signal and to the host's activity log. *)
Inductive Step : Type :=
| NewClient (clientId clientSecret debug : JValue)
    (* new DWClient({ clientId, clientSecret, debug }) *)
| RegisterCallbackListener (cfg accountId config : JValue)
    (* client.registerCallbackListener(TOPIC_ROBOT, ...); the listener is
       [on_frame cfg accountId config] *)
| Connect
    (* await client.connect() *)
| ActivityRecord (channel : jstring) (accountId : JValue) (what : jstring)
    (* rt.channel.activity.record(channel, accountId, what) *)
| AddAbortListener.
    (* abortSignal.addEventListener('abort', ...) *)

(** How the environment answers: whether [client.connect()] resolves, and
    whether [activity.record] returns. *)
Record Env : Type := mkEnv {
  env_connect : Result unit;
  env_record : JValue -> jstring -> Result unit
}.

(** One started account: the steps made so far, the closure variable
    [stopped], and whether an abort listener is installed. *)
Record State : Type := mkState {
  steps : list Step;
  stopped : bool;
  listening : bool
}.

Definition G : Type -> Type := ML State.

Definition step (s : Step) : G unit :=
  st <~ read_local ;;
  assign (mkState (steps st ++ [s]) (stopped st) (listening st)).

Definition set_stopped (b : bool) : G unit :=
  st <~ read_local ;;
  assign (mkState (steps st) b (listening st)).

Definition set_listening (b : bool) : G unit :=
  st <~ read_local ;;
  assign (mkState (steps st) (stopped st) b).

(** [rt.channel.activity.record('dingtalk', accountId, what)] *)
Definition record_activity (env : Env) (accountId : JValue) (what : string)
  : G unit :=
  step (ActivityRecord (lit "dingtalk") accountId (lit what)) ~;;
  keep (lift (env_record env accountId (lit what))).

(** The handle's [stop]. *)
Definition stop (env : Env) (account : JValue) : G unit :=
  st <~ read_local ;;
  if stopped st then lret tt
  else
    set_stopped true ~;;
    record_activity env (oget account "accountId") "stop".

(** The listener added to [abortSignal]. *)
Definition on_abort (env : Env) (account : JValue) : G unit :=
  st <~ read_local ;;
  if stopped st then lret tt
  else
    set_stopped true ~;;
    record_activity env (oget account "accountId") "stop".

(** [gateway.startAccount]; [account], [cfg] and [abortSignal] are the
    three properties it takes from [ctx]. *)
Definition startAccount (env : Env) (account cfg abortSignal : JValue)
  : G unit :=
  config <~ keep (lift (get account "config")) ;;
  clientId <~ keep (lift (get config "clientId")) ;;
  if negb (truthy clientId) || negb (truthy (oget config "clientSecret"))
  then keep (throw (Error
                      (lit "DingTalk clientId and clientSecret are required")))
  else
    step (NewClient (oget config "clientId") (oget config "clientSecret")
                    (jor (oget config "debug") (JBool false))) ~;;
    step (RegisterCallbackListener cfg (oget account "accountId") config) ~;;
    step Connect ~;;
    keep (lift (env_connect env)) ~;;
    keep getRuntime ~;;
    record_activity env (oget account "accountId") "start" ~;;
    set_stopped false ~;;
    if truthy abortSignal
    then step AddAbortListener ~;; set_listening true
    else lret tt.

(** What the host can do with a started account. *)
Inductive Event : Type :=
| StopCalled     (* the handle's stop() is called *)
| AbortFired.    (* the abort signal fires *)

Definition fire (env : Env) (account : JValue) (e : Event) : G unit :=
  match e with
  | StopCalled => stop env account
  | AbortFired =>
      st <~ read_local ;;
      if listening st then on_abort env account else lret tt
  end.

(** A sequence of such events, each one a call of its own: an exception
    goes to that call's caller and the next event still happens. *)
Fixpoint fire_all (env : Env) (account : JValue) (es : list Event) : G unit :=
  match es with
  | [] => lret tt
  | e :: rest =>
      ltry_catch (fire env account e) (fun _ => lret tt) ~;;
      fire_all env account rest
  end.

End Gateway.

(* ================================================================== *)
(** * media-utils.ts: media type of a file *)
(* ================================================================== *)

(** [list.includes(ext)] for a list of string literals. *)
Definition includes (l : list string) (ext : jstring) : bool :=
  existsb (fun s => jstring_eqb (lit s) ext) l.

(** [detectMediaTypeFromExtension]; [extname] is [path.extname] and
    [toLowerCase] is [String.prototype.toLowerCase]. *)
Definition detectMediaTypeFromExtension
           (extname toLowerCase : jstring -> jstring) (filePath : jstring)
  : MediaUtils.DingTalkMediaType :=
  let ext := toLowerCase (extname filePath) in
  if includes [".jpg"; ".jpeg"; ".png"; ".gif"; ".bmp"]%string ext
  then MediaUtils.image
  else if includes [".mp3"; ".amr"; ".wav"]%string ext
  then MediaUtils.voice
  else if includes [".mp4"; ".avi"; ".mov"]%string ext
  then MediaUtils.video
  else MediaUtils.file.

(* ================================================================== *)
(** * Further vocabulary *)
(* ================================================================== *)

(** The world a computation leaves. *)
Definition world_after {A} (m : M A) (o : Oracle) (w : World) : World :=
  snd (m o w).

(** The value a computation returns, or what it throws. *)
Definition result_of {A} (m : M A) (o : Oracle) (w : World) : Result A :=
  fst (m o w).

(** The mention block of the outbound wire format for one user. *)
Definition mention_of (atUserId : JValue) : JValue :=
  if truthy atUserId
  then JObj [(lit "atUserIds", JArr [atUserId]); (lit "isAtAll", JBool false)]
  else JUndefined.

(** A direct-chat text event. *)
Definition sample_direct_event : JValue :=
  obj [("msgtype", str "text");
       ("conversationType", str "1");
       ("text", obj [("content", str "hello")]);
       ("senderId", str "u1");
       ("senderNick", str "Alice");
       ("createAt", JNum 1000)]%string.

Definition SLASH : N := 0x2F%N.      (* / *)
Definition SEMICOLON : N := 0x3B%N.  (* ; *)

(** The account configuration with the thinking message switched off. *)
Definition sample_quiet_config : JValue :=
  obj [("clientId", str "id"); ("clientSecret", str "secret");
       ("showThinking", JBool false)]%string.

Definition sample_peer : Peer :=
  mkPeer false (str "u1") (str "Alice") (str "cid1") (str "Team").

(** The address [uploadMedia] posts to. *)
Definition upload_url (token : jstring) (t : MediaUtils.DingTalkMediaType)
  : jstring :=
  lit "https://oapi.dingtalk.com/media/upload?access_token="
  ++ token ++ lit "&type=" ++ MediaUtils.media_type_name t.

(** What [uploadMedia] makes of the body of the upload answer: its
    [media_id] when the [errcode] is the number [0] and the id is truthy
    and, for a logger that takes debug lines, can be written out. *)
Definition media_id_of (log_debug : bool) (data : JValue) : JValue :=
  match oget data "errcode" with
  | JNum 0 =>
      if truthy (oget data "media_id")
         && (negb log_debug || writable (oget data "media_id"))
      then oget data "media_id"
      else JNull
  | _ => JNull
  end.

(** The identity endpoint is unreachable. *)
Definition token_down : Scenario :=
  mkScenario 1000 (Thrown (Error (lit "unauthorized")))
             (sc_download calm) (sc_media calm) (sc_write calm)
             (sc_exists calm) (sc_unlink calm) (sc_stat calm)
             (sc_parse calm) (sc_webhook calm) (sc_upload calm)
             (sc_host calm) (sc_dispatch calm).

(** A small file whose upload the media server accepts. *)
Definition upload_accepted : Scenario :=
  mkScenario 1000 (sc_token calm)
             (sc_download calm) (sc_media calm) (sc_write calm)
             (sc_exists calm) (sc_unlink calm) (Ok 100)
             (sc_parse calm) (sc_webhook calm)
             (Ok (obj [("errcode", JNum 0); ("media_id", str "M1")]%string))
             (sc_host calm) (sc_dispatch calm).

(** The media server answers with an id that has no string form. *)
Definition upload_odd_id : Scenario :=
  mkScenario 1000 (sc_token calm)
             (sc_download calm) (sc_media calm) (sc_write calm)
             (sc_exists calm) (sc_unlink calm) (Ok 100)
             (sc_parse calm) (sc_webhook calm)
             (Ok (obj [("errcode", JNum 0);
                       ("media_id", obj [("toString", JNull)])]%string))
             (sc_host calm) (sc_dispatch calm).

(** A plugin that has not been registered. *)
Definition unregistered_world : World := mkWorld [] None 0 false.

(** A frame with a [messageId]. *)
Definition sample_frame : Frame := mkFrame (str "m7") (lit "{}").

Definition NOT_INITIALIZED : exn :=
  Error (lit "DingTalk runtime not initialized").

(** The default account: the channel-level configuration under the id
    ["default"]. *)
Definition default_account (cfg : JValue) : Account :=
  mkAccount (JStr (lit "default")) (getConfig cfg)
            (not_false (oget (getConfig cfg) "enabled")).

(** The [accounts] property of the channel configuration. *)
Definition accounts_of (cfg : JValue) : JValue :=
  oget (getConfig cfg) "accounts".

(** A configuration in the single-account shape. *)
Definition sample_single_cfg : JValue :=
  obj [("channels",
        obj [("dingtalk",
              obj [("clientId", str "id"); ("clientSecret", str "secret")])])
      ]%string.

(** A configuration with two named accounts, one of them switched off,
    and an entry that is [null]. *)
Definition sample_multi_cfg : JValue :=
  obj [("channels",
        obj [("dingtalk",
              obj [("accounts",
                    obj [("sales", obj [("clientId", str "a");
                                        ("clientSecret", str "b")]);
                         ("ops", obj [("clientId", str "c");
                                      ("enabled", JBool false)]);
                         ("gone", JNull)])])])
      ]%string.

Definition COLON : N := 0x3A%N.  (* : *)

(** The channel prefixes [normalizeEntry] and [normalizeTarget] know. *)
Definition CHANNEL_PREFIXES : list jstring :=
  [lit "dingtalk"; lit "dd"; lit "ding"].

(** The object [resolveAccount] returns, as [startAccount] receives it. *)
Definition account_value (a : Account) : JValue :=
  obj [("accountId", account_id a);
       ("config", account_config a);
       ("enabled", JBool (account_enabled a))]%string.

Definition CREDENTIALS_REQUIRED : exn :=
  Error (lit "DingTalk clientId and clientSecret are required").

(** The state of an account before [startAccount] runs. *)
Definition not_started : Gateway.State := Gateway.mkState [] false false.

(** An environment in which the connection is made and the activity log
    accepts every record. *)
Definition friendly : Gateway.Env :=
  Gateway.mkEnv (Ok tt) (fun _ _ => Ok tt).

(** An environment whose activity log throws. *)
Definition log_down : Gateway.Env :=
  Gateway.mkEnv (Ok tt) (fun _ _ => Thrown TypeError).

(** The steps that open the connection of an account. *)
Definition opening (account cfg : JValue) : list Gateway.Step :=
  let config := oget account "config" in
  [Gateway.NewClient (oget config "clientId") (oget config "clientSecret")
                     (jor (oget config "debug") (JBool false));
   Gateway.RegisterCallbackListener cfg (oget account "accountId") config;
   Gateway.Connect].

Definition record_of (account : JValue) (what : string) : Gateway.Step :=
  Gateway.ActivityRecord (lit "dingtalk") (oget account "accountId")
                         (lit what).

(** The event reaches a closure: [stop()] always does, an abort only when
    a listener was added. *)
Definition effective (st : Gateway.State) (e : Gateway.Event) : bool :=
  match e with
  | Gateway.StopCalled => true
  | Gateway.AbortFired => Gateway.listening st
  end.

(** The state a computation of the gateway leaves. *)
Definition state_after {A} (r : (Result A * Gateway.State) * World)
  : Gateway.State := snd (fst r).

(** The size limits in bytes. *)
Definition MB2 : Z := 2 * 1024 * 1024.
Definition MB20 : Z := 20 * 1024 * 1024.

(** A stand-in for [path.extname]: everything from the last full stop
    on. *)
Fixpoint last_dot (s : jstring) : jstring :=
  match s with
  | [] => []
  | c :: r =>
      match last_dot r with
      | [] => if (c =? 0x2E)%N then s else []
      | ext => ext
      end
  end.

(** The state after some more steps. *)
Definition add_steps (l : list Gateway.Step) (st : Gateway.State)
  : Gateway.State :=
  Gateway.mkState (Gateway.steps st ++ l) (Gateway.stopped st)
                  (Gateway.listening st).

(** The state a started account is left in by a successful start. *)
Definition started (account cfg abortSignal : JValue) (st : Gateway.State)
  : Gateway.State :=
  Gateway.mkState
    (Gateway.steps st ++ opening account cfg
     ++ [record_of account "start"]
     ++ (if truthy abortSignal then [Gateway.AddAbortListener] else []))
    false
    (if truthy abortSignal then true else Gateway.listening st).

(** The state after the first effective stop. *)
Definition halted (account : JValue) (st : Gateway.State) : Gateway.State :=
  Gateway.mkState (Gateway.steps st ++ [record_of account "stop"]) true
                  (Gateway.listening st).

(** An account with both credentials, and one without a secret. *)
Definition sample_account : Account :=
  mkAccount (str "sales")
            (obj [("clientId", str "a"); ("clientSecret", str "b")]%string)
            true.

Definition sample_half_account : Account :=
  mkAccount (str "ops") (obj [("clientId", str "c")]%string) true.

(** The extensions [detectMediaTypeFromExtension] knows, by type. *)
Definition IMAGE_EXTENSIONS : list string :=
  [".jpg"; ".jpeg"; ".png"; ".gif"; ".bmp"]%string.
Definition VOICE_EXTENSIONS : list string := [".mp3"; ".amr"; ".wav"]%string.
Definition VIDEO_EXTENSIONS : list string := [".mp4"; ".avi"; ".mov"]%string.

(** A voice recording whose extension is in upper case. *)
Definition sample_recording_path : jstring := lit "/tmp/Memo.WAV".
(* ================================================================== *)
(** * Properties of the message codec *)
(* ================================================================== *)

(** [String(n)] prints the Number a numeral denotes: the digits of an
    integer below [10^21], rounded to the nearest Number from [2^53] on,
    and the exponent form from [10^21] on. *)
Example number_to_string_examples :
  number_to_string 1000 = lit "1000"
  /\ number_to_string (-17) = lit "-17"
  /\ number_to_string (2 ^ 53 + 1) = lit "9007199254740992"
  /\ number_to_string (2 ^ 60) = lit "1152921504606847000"
  /\ number_to_string (10 ^ 20) = lit "100000000000000000000"
  /\ number_to_string (10 ^ 21) = lit "1e+21"
  /\ number_to_string (10 ^ 21 + 10 ^ 6) = lit "1.000000000000001e+21"
  /\ number_to_string (- 2 ^ 70) = lit "-1.1805916207174113e+21".
Proof. vm_compute. repeat split. Qed.

(** A value of JSON with an own [toString] property has no string form,
    alone or inside an array. *)
Example to_string_examples :
  to_string (JArr [JNum 1; JNull; JStr (lit "a"); JArr [JBool true]])
  = Ok (lit "1,,a,true")
  /\ to_string (JObj [(lit "id", JNum 1)]) = Ok (lit "[object Object]")
  /\ to_string (JObj [(lit "toString", JNum 1)]) = Thrown TypeError
  /\ to_string (JArr [JStr (lit "a"); JObj [(lit "toString", JNull)]])
     = Thrown TypeError.
Proof. vm_compute. repeat split. Qed.

Lemma jor_str_empty (s : jstring) : jor (JStr s) (JStr []) = JStr s.
Proof. destruct s; reflexivity. Qed.

Lemma jor_str_nonempty (s d : jstring) :
  jor (JStr s) (JStr d) = JStr (nonempty_or s d).
Proof. destruct s; reflexivity. Qed.

Lemma get_oget (v : JValue) (k : string) :
  nullish v = false -> get v k = Ok (oget v k).
Proof. destruct v; simpl; intros H; try discriminate; reflexivity. Qed.

Lemma is_str_type_not_nullish (p : JValue) (k : string) (s : jstring) :
  is_str (oget p k) s = true -> nullish p = false.
Proof. destruct p; simpl; intros H; try discriminate; reflexivity. Qed.

Lemma segment_ok_object (p : JValue) :
  segment_ok p = true -> nullish p = false.
Proof.
  unfold segment_ok. intros H. apply andb_true_iff in H as [H _].
  apply negb_true_iff in H. exact H.
Qed.

Lemma filter_text_ok (l : list JValue) :
  forallb segment_ok l = true ->
  filter_text l
  = Ok (filter (fun p => is_str (oget p "type") (lit "text")) l).
Proof.
  induction l as [|p r IH]; simpl; intros H; [reflexivity|].
  apply andb_true_iff in H as [Hp Hr].
  rewrite (get_oget p "type" (segment_ok_object p Hp)); simpl.
  rewrite (IH Hr); simpl.
  destruct (is_str (oget p "type") (lit "text")); reflexivity.
Qed.

Lemma map_text_ok (l : list JValue) :
  Forall (fun p => nullish p = false) l ->
  map_text l = Ok (map (fun p => oget p "text") l).
Proof.
  induction 1 as [|p r Hp _ IH]; simpl; [reflexivity|].
  rewrite (get_oget p "text" Hp); simpl.
  rewrite IH; reflexivity.
Qed.

Lemma filter_text_segments_objects (l : list JValue) :
  Forall (fun p => nullish p = false)
         (filter (fun p => is_str (oget p "type") (lit "text")) l).
Proof.
  apply Forall_forall; intros p Hin.
  apply filter_In in Hin as [_ Hty].
  exact (is_str_type_not_nullish _ _ _ Hty).
Qed.

Lemma join_text_segments (l : list JValue) :
  forallb segment_ok l = true ->
  join_empty (map (fun p => oget p "text")
                  (filter (fun p => is_str (oget p "type") (lit "text")) l))
  = Ok (List.concat
          (map segment_text
               (filter (fun p => is_str (oget p "type") (lit "text")) l))).
Proof.
  induction l as [|p r IH]; simpl; intros H; [reflexivity|].
  apply andb_true_iff in H as [Hp Hr].
  destruct (is_str (oget p "type") (lit "text")) eqn:Ety; [|exact (IH Hr)].
  simpl. rewrite (IH Hr).
  unfold segment_ok in Hp. rewrite Ety in Hp.
  apply andb_true_iff in Hp as [_ Hp]. simpl in Hp.
  unfold segment_text, element_string.
  destruct (oget p "text"); try discriminate Hp; reflexivity.
Qed.

Lemma rich_text_parts_ok (data : JValue) :
  segments_ok data = true ->
  rich_text_parts (jor (oget (oget data "content") "richText") (JArr []))
  = Ok (text_segments data).
Proof.
  unfold segments_ok, text_segments.
  destruct (oget (oget data "content") "richText") as [| |b|z|s|l|fs] eqn:E;
    simpl; intros H; try reflexivity; try discriminate.
  - destruct b; [discriminate | reflexivity].
  - unfold jor; simpl. destruct (z =? 0); [reflexivity | discriminate].
  - destruct s; [reflexivity | discriminate].
  - unfold jor; simpl.
    rewrite (filter_text_ok l H); simpl.
    rewrite (map_text_ok _ (filter_text_segments_objects l)); simpl.
    exact (join_text_segments l H).
Qed.

Lemma otrim_text_content (data : JValue) :
  text_content_ok data = true ->
  otrim (oget (oget data "text") "content")
  = Ok (match oget (oget data "text") "content" with
        | JStr s => JStr (trim s)
        | _ => JUndefined
        end).
Proof.
  unfold text_content_ok.
  destruct (oget (oget data "text") "content"); simpl; intros H;
    try discriminate; reflexivity.
Qed.

Lemma trimmed_or_empty (data : JValue) :
  jor (match oget (oget data "text") "content" with
       | JStr s => JStr (trim s)
       | _ => JUndefined
       end) (JStr [])
  = JStr (original_text data).
Proof.
  unfold original_text.
  destruct (oget (oget data "text") "content"); try reflexivity.
  apply jor_str_empty.
Qed.

Lemma is_str_eq (v : JValue) (k : jstring) :
  is_str v k = true -> v = JStr k.
Proof.
  destruct v; simpl; try discriminate.
  unfold jstring_eqb. destruct (list_eq_dec N.eq_dec s k); [congruence|discriminate].
Qed.

Lemma truthy_prop_not_nullish (data : JValue) (k : string) :
  truthy (oget data k) = true -> nullish data = false.
Proof. destruct data; simpl; intros H; try discriminate; reflexivity. Qed.

(** C1. For every well-formed inbound event with a [msgtype],
    [extractMessageContent] returns exactly the row of the codec table
    selected by the [msgtype]: the trimmed content for ["text"]; the
    concatenated text segments or the placeholder for ["richText"]; the
    placeholder label with the download code and the media type for
    ["picture"], ["audio"] (the transcript when present), ["video"] and
    ["file"] (with the file name); and for any other type the trimmed text
    or a placeholder naming the type, with no media fields.  The table
    spells every placeholder out. *)
Theorem extractMessageContent_table (data : JValue) :
  truthy (oget data "msgtype") = true ->
  well_formed_event data = true ->
  extractMessageContent data = Ok (codec_table data).
Proof.
  intros Hmt Hwf.
  pose proof (truthy_prop_not_nullish _ _ Hmt) as Hn.
  unfold extractMessageContent, codec_table, well_formed_event, row_of in *.
  rewrite !(get_oget data _ Hn).
  cbv beta iota delta [rbind].
  assert (Hj : jor (oget data "msgtype") (JStr (lit "text"))
               = oget data "msgtype") by (unfold jor; rewrite Hmt; reflexivity).
  rewrite !Hj.
  destruct (is_str (oget data "msgtype") (lit "text")) eqn:E1.
  { rewrite (otrim_text_content data Hwf).
    rewrite trimmed_or_empty, (is_str_eq _ _ E1). reflexivity. }
  destruct (is_str (oget data "msgtype") (lit "richText")) eqn:E2.
  { rewrite (rich_text_parts_ok data Hwf).
    rewrite jor_str_nonempty, (is_str_eq _ _ E2). reflexivity. }
  destruct (is_str (oget data "msgtype") (lit "picture")) eqn:E3.
  { rewrite (is_str_eq _ _ E3). reflexivity. }
  destruct (is_str (oget data "msgtype") (lit "audio")) eqn:E4.
  { rewrite (is_str_eq _ _ E4). reflexivity. }
  destruct (is_str (oget data "msgtype") (lit "video")) eqn:E5.
  { rewrite (is_str_eq _ _ E5). reflexivity. }
  destruct (is_str (oget data "msgtype") (lit "file")) eqn:E6.
  { rewrite (is_str_eq _ _ E6).
    unfold file_name_ok, file_name in *.
    destruct (oget (oget data "content") "fileName") as [| |b|z|s|l|fs];
      try discriminate Hwf; try reflexivity.
    - destruct b; [discriminate Hwf | reflexivity].
    - unfold jor. simpl in Hwf |- *. destruct (z =? 0);
        [reflexivity | discriminate Hwf].
    - destruct s; reflexivity. }
  apply andb_true_iff in Hwf as [Hty Htext].
  rewrite (otrim_text_content data Htext).
  unfold type_name_ok, type_name, original_text in *.
  destruct (oget data "msgtype") as [| | | |name| |]; try discriminate Hty.
  destruct (oget (oget data "text") "content") as [| | | |s| |];
    try reflexivity.
  simpl truthy. destruct (trim s); reflexivity.
Qed.

Lemma extractMessageContent_table_witness :
  extractMessageContent sample_padded_event
  = Ok (mkContent (str "hi there") None None (str "text"))
  /\ extractMessageContent sample_richtext_event
     = Ok (mkContent (str "see this") None None (str "richText"))
  /\ extractMessageContent sample_bare_richtext_event
     = Ok (mkContent
             (JStr [0x5B; 0x5BCC; 0x6587; 0x672C; 0x6D88; 0x606F; 0x5D]%N)
             None None (str "richText"))
  /\ extractMessageContent sample_image_event
     = Ok (mkContent (JStr [0x5B; 0x56FE; 0x7247; 0x5D]%N)
                     (Some (str "DC1")) (Some (str "image")) (str "picture"))
  /\ extractMessageContent sample_audio_event
     = Ok (mkContent (str "hello")
                     (Some (str "DC1")) (Some (str "audio")) (str "audio"))
  /\ extractMessageContent sample_silent_audio_event
     = Ok (mkContent (JStr [0x5B; 0x8BED; 0x97F3; 0x6D88; 0x606F; 0x5D]%N)
                     (Some (str "DC1")) (Some (str "audio")) (str "audio"))
  /\ extractMessageContent sample_video_event
     = Ok (mkContent (JStr [0x5B; 0x89C6; 0x9891; 0x5D]%N)
                     (Some (str "DC1")) (Some (str "video")) (str "video"))
  /\ extractMessageContent sample_file_event
     = Ok (mkContent
             (JStr ([0x5B; 0x6587; 0x4EF6; 0x3A; 0x20]%N
                    ++ lit "report.pdf" ++ [0x5D]%N))
             (Some (str "DC1")) (Some (str "file")) (str "file"))
  /\ extractMessageContent sample_unnamed_file_event
     = Ok (mkContent
             (JStr [0x5B; 0x6587; 0x4EF6; 0x3A; 0x20; 0x6587; 0x4EF6; 0x5D]%N)
             (Some (str "DC1")) (Some (str "file")) (str "file"))
  /\ extractMessageContent sample_location_event
     = Ok (mkContent
             (JStr ([0x5B]%N ++ lit "location" ++ [0x6D88; 0x606F; 0x5D]%N))
             None None (str "location")).
Proof.
  repeat match goal with |- _ /\ _ => split end;
    match goal with
    | |- extractMessageContent ?e = _ =>
        rewrite (extractMessageContent_table e eq_refl eq_refl); reflexivity
    end.
Defined.

(** C10. An event whose payload has no [msgtype] property is decoded
    exactly as a ["text"] event: the trimmed text content (or the empty
    string), message type ["text"], no media fields; it neither throws nor
    reaches the placeholder of the unknown-type branch. *)
Theorem extractMessageContent_without_msgtype (fields : list (jstring * JValue)) :
  oget (JObj fields) "msgtype" = JUndefined ->
  text_content_ok (JObj fields) = true ->
  extractMessageContent (JObj fields)
  = Ok (mkContent (JStr (original_text (JObj fields))) None None
                  (JStr (lit "text")))
  /\ extractMessageContent (JObj fields)
     = extractMessageContent (JObj ((lit "msgtype", JStr (lit "text")) :: fields)).
Proof.
  intros Hmt Hok.
  assert (H1 : extractMessageContent (JObj fields)
               = Ok (mkContent (JStr (original_text (JObj fields))) None None
                               (JStr (lit "text")))).
  { unfold extractMessageContent.
    rewrite !(get_oget (JObj fields) _ eq_refl).
    cbv beta iota delta [rbind].
    rewrite Hmt.
    change (is_str (jor JUndefined (JStr (lit "text"))) (lit "text")) with true.
    cbv iota.
    rewrite (otrim_text_content _ Hok), trimmed_or_empty. reflexivity. }
  split; [exact H1|].
  rewrite H1.
  unfold extractMessageContent.
  rewrite !(get_oget (JObj _) _ eq_refl).
  cbv beta iota delta [rbind].
  change (oget (JObj ((lit "msgtype", JStr (lit "text")) :: fields)) "msgtype")
    with (JStr (lit "text")).
  change (is_str (jor (JStr (lit "text")) (JStr (lit "text"))) (lit "text"))
    with true.
  cbv iota.
  change (oget (JObj ((lit "msgtype", JStr (lit "text")) :: fields)) "text")
    with (oget (JObj fields) "text").
  rewrite (otrim_text_content _ Hok), trimmed_or_empty. reflexivity.
Qed.

Lemma extractMessageContent_without_msgtype_witness :
  extractMessageContent (JObj sample_untyped_fields)
  = Ok (mkContent (JStr (lit "hi")) None None (JStr (lit "text"))).
Proof.
  exact (proj1 (extractMessageContent_without_msgtype
                  sample_untyped_fields eq_refl eq_refl)).
Defined.

(** * Properties of the outbound message composition *)
(* ================================================================== *)

Lemma mem_In (c : N) (cs : list N) : mem c cs = true <-> In c cs.
Proof.
  unfold mem. rewrite existsb_exists. split.
  - intros [x [Hin Heq]]. apply N.eqb_eq in Heq. subst. exact Hin.
  - intros Hin. exists c. split; [exact Hin | apply N.eqb_refl].
Qed.

Lemma not_mem_In (c : N) (cs : list N) : mem c cs = false -> ~ In c cs.
Proof.
  intros H Hin. apply mem_In in Hin. congruence.
Qed.

Lemma markdown_regex_test_spec (t : jstring) :
  markdown_regex_test t = true
  <-> (exists c r, t = c :: r /\ In c (lit "#*>-"))
      \/ (exists c, In c t /\ In c (lit "*_`#[]")).
Proof.
  change (lit "#*>-") with LEADING_MARKERS.
  change (lit "*_`#[]") with INLINE_MARKERS.
  unfold markdown_regex_test. rewrite orb_true_iff, existsb_exists.
  split.
  - intros [H|[c [Hin Hm]]].
    + left. destruct t as [|c r]; [discriminate|].
      exists c, r. split; [reflexivity | apply mem_In; exact H].
    + right. exists c. split; [exact Hin | apply mem_In; exact Hm].
  - intros [[c [r [-> Hin]]]|[c [Hin Hm]]].
    + left. apply mem_In; exact Hin.
    + right. exists c. split; [exact Hin | apply mem_In; exact Hm].
Qed.

Lemma hasMarkdownFeatures_spec (t : jstring) :
  hasMarkdownFeatures t = true <-> markdown_features t.
Proof.
  unfold hasMarkdownFeatures, markdown_features, includes_newline.
  rewrite orb_true_iff, markdown_regex_test_spec.
  change 0xA%N with NEWLINE. rewrite mem_In. tauto.
Qed.

Lemma no_markdown_features (t : jstring) :
  hasMarkdownFeatures t = false -> ~ markdown_features t.
Proof.
  intros H Hf. apply hasMarkdownFeatures_spec in Hf. congruence.
Qed.

Lemma false_of_iff (b : bool) (P : Prop) : (b = true <-> P) -> ~ P -> b = false.
Proof.
  intros [H _] Hn. destruct b; [|reflexivity].
  exfalso. exact (Hn (H eq_refl)).
Defined.

(** Stepping a computation whose first action has a known outcome. *)
Lemma bind_ok {A B} (m : M A) (f : A -> M B) o w a w' :
  m o w = (Ok a, w') -> bind m f o w = f a o w'.
Proof. intros H. unfold bind. rewrite H. reflexivity. Qed.

Lemma bind_thrown {A B} (m : M A) (f : A -> M B) o w e w' :
  m o w = (Thrown e, w') -> bind m f o w = (Thrown e, w').
Proof. intros H. unfold bind. rewrite H. reflexivity. Qed.

Lemma bind_lift_ok {A B} (a : A) (f : A -> M B) o w :
  bind (lift (Ok a)) f o w = f a o w.
Proof. reflexivity. Qed.

Lemma bind_ret {A B} (a : A) (f : A -> M B) o w :
  bind (ret a) f o w = f a o w.
Proof. reflexivity. Qed.

Lemma bind_call {B} (c : Call) (f : Ans c -> M B) (o : Oracle) w :
  bind (call c) f o w = f (o (trace w) c) o (log_call c w).
Proof. reflexivity. Qed.

Lemma bind_callR {A B} (c : Call) (cast : Ans c -> Result A)
      (f : A -> M B) (o : Oracle) w :
  bind (callR c cast) f o w
  = match cast (o (trace w) c) with
    | Ok a => f a o (log_call c w)
    | Thrown e => (Thrown e, log_call c w)
    end.
Proof. reflexivity. Qed.

Lemma bind_read_world {B} (f : World -> M B) o w :
  bind read_world f o w = f w o w.
Proof. reflexivity. Qed.

Lemma bind_modify {B} (g : World -> World) (f : unit -> M B) o w :
  bind (modify g) f o w = f tt o (g w).
Proof. reflexivity. Qed.

Lemma bind_assoc {A B C} (m : M A) (f : A -> M B) (g : B -> M C) o w :
  bind (bind m f) g o w = bind m (fun a => bind (f a) g) o w.
Proof. unfold bind. destruct (m o w) as [[a|e] w']; reflexivity. Qed.

Lemma accessToken_log_call c w : accessToken (log_call c w) = accessToken w.
Proof. reflexivity. Qed.

Lemma accessTokenExpiry_log_call c w :
  accessTokenExpiry (log_call c w) = accessTokenExpiry w.
Proof. reflexivity. Qed.


Lemma sendMessage_decides config sw t fields o w :
  sendMessage config sw t (JObj fields) o w
  = if useMarkdown (oget (JObj fields) "useMarkdown") t
    then sendMarkdownMessage config sw
           (markdown_title (oget (JObj fields) "title") t) t (JObj fields) o w
    else sendTextMessage config sw t (JObj fields) o w.
Proof.
  unfold sendMessage. simpl default_options.
  change (get (JObj fields) "useMarkdown")
    with (Ok (oget (JObj fields) "useMarkdown")).
  rewrite bind_lift_ok.
  destruct (useMarkdown (oget (JObj fields) "useMarkdown") t); reflexivity.
Qed.

Lemma sendTextMessage_posts config sw t fields o w tok w1 :
  getAccessToken config o w = (Ok tok, w1) ->
  exists body,
    sendTextMessage config sw t (JObj fields) o w
    = (o (trace w1) (CPostWebhook sw body tok),
       log_call (CPostWebhook sw body tok) w1)
    /\ body_kind body = JStr (lit "text").
Proof.
  intros Htok. unfold sendTextMessage.
  rewrite (bind_ok _ _ _ _ _ _ Htok).
  eexists. split; reflexivity.
Qed.

(** What [sendMarkdownMessage] does once the token is there: the mention
    is appended to the text, which throws when the id has no string form,
    and the body is posted. *)
Lemma sendMarkdownMessage_run config sw title t fields o w tok w1 :
  getAccessToken config o w = (Ok tok, w1) ->
  sendMarkdownMessage config sw title t (JObj fields) o w
  = let atUserId := oget (JObj fields) "atUserId" in
    let post text :=
      let body :=
        JObj ([(lit "msgtype", JStr (lit "markdown"));
               (lit "markdown",
                JObj [(lit "title", jor title (JStr DEFAULT_TITLE));
                      (lit "text", JStr text)])]
              ++ (if truthy atUserId then [(lit "at", at_field atUserId)]
                  else [])) in
      (o (trace w1) (CPostWebhook sw body tok),
       log_call (CPostWebhook sw body tok) w1) in
    if truthy atUserId then
      match to_string atUserId with
      | Ok id => post (t ++ lit " @" ++ id)
      | Thrown e => (Thrown e, w1)
      end
    else post t.
Proof.
  intros Htok. unfold sendMarkdownMessage.
  rewrite (bind_ok _ _ _ _ _ _ Htok).
  simpl default_options.
  change (get (JObj fields) "atUserId")
    with (Ok (oget (JObj fields) "atUserId")).
  rewrite bind_lift_ok.
  cbv zeta.
  destruct (truthy (oget (JObj fields) "atUserId")) eqn:Et.
  - destruct (to_string (oget (JObj fields) "atUserId")) as [id|e]; reflexivity.
  - reflexivity.
Qed.

Lemma sendMarkdownMessage_posts config sw title t fields o w tok w1 :
  getAccessToken config o w = (Ok tok, w1) ->
  mentionable (oget (JObj fields) "atUserId") ->
  exists body,
    sendMarkdownMessage config sw title t (JObj fields) o w
    = (o (trace w1) (CPostWebhook sw body tok),
       log_call (CPostWebhook sw body tok) w1)
    /\ body_kind body = JStr (lit "markdown")
    /\ body_title body = jor title (JStr DEFAULT_TITLE).
Proof.
  intros Htok Hat.
  rewrite (sendMarkdownMessage_run _ _ _ _ _ _ _ _ _ Htok). cbv zeta.
  unfold mentionable in Hat.
  destruct (truthy (oget (JObj fields) "atUserId")).
  - destruct (Hat eq_refl) as [id Hid]. rewrite Hid.
    eexists. split; [reflexivity|]. split; reflexivity.
  - eexists. split; [reflexivity|]. split; reflexivity.
Qed.

(** C4. With no explicit override ([options.useMarkdown] undefined) a text
    is sent as markdown if and only if it contains a newline, starts with
    one of [# * > -], or contains one of [* _ ` # [ ]]; otherwise it is
    sent as plain text.  An explicit [true] or [false] overrides the
    heuristic.  The decision is the kind of the message posted to the
    session webhook (a markdown message that mentions someone needs an id
    that can be written into the text). *)
Theorem sendMessage_markdown_heuristic (t : jstring) :
  (useMarkdown JUndefined t = true <-> markdown_features t)
  /\ useMarkdown (JBool true) t = true
  /\ useMarkdown (JBool false) t = false
  /\ forall config sw fields o w tok w1,
       getAccessToken config o w = (Ok tok, w1) ->
       (useMarkdown (oget (JObj fields) "useMarkdown") t = true ->
        mentionable (oget (JObj fields) "atUserId")) ->
       exists body,
         sendMessage config sw t (JObj fields) o w
         = (o (trace w1) (CPostWebhook sw body tok),
            log_call (CPostWebhook sw body tok) w1)
         /\ body_kind body
            = JStr (lit (if useMarkdown (oget (JObj fields) "useMarkdown") t
                         then "markdown" else "text")).
Proof.
  split; [|split; [|split]].
  - unfold useMarkdown. simpl. apply hasMarkdownFeatures_spec.
  - reflexivity.
  - reflexivity.
  - intros config sw fields o w tok w1 Htok Hat.
    rewrite sendMessage_decides.
    destruct (useMarkdown (oget (JObj fields) "useMarkdown") t).
    + destruct (sendMarkdownMessage_posts config sw
                  (markdown_title (oget (JObj fields) "title") t)
                  t fields o w tok w1 Htok (Hat eq_refl))
        as [body [Hrun [Hk _]]].
      exists body. split; [exact Hrun | exact Hk].
    + destruct (sendTextMessage_posts config sw t fields o w tok w1 Htok)
        as [body [Hrun Hk]].
      exists body. split; [exact Hrun | exact Hk].
Qed.

Lemma sendMessage_markdown_heuristic_witness :
  useMarkdown JUndefined (lit "hello world") = false
  /\ useMarkdown JUndefined (lit "a > b - c.") = false
  /\ useMarkdown JUndefined (lit "a" ++ [0xA%N] ++ lit "b") = true
  /\ useMarkdown JUndefined (lit "> quote") = true
  /\ useMarkdown JUndefined (lit "- item") = true
  /\ useMarkdown JUndefined (lit "snake_case") = true
  /\ useMarkdown JUndefined (lit "see [1]") = true
  /\ useMarkdown JUndefined (lit "run `ls`") = true
  /\ exists body,
       sendMessage sample_config sample_webhook (lit "snake_case")
                   (JObj []) (scripted calm) warm_world
       = (Ok (JObj []),
          log_call (CPostWebhook sample_webhook body (lit "T0"))
                   (log_call CNow warm_world))
       /\ body_kind body = JStr (lit "markdown").
Proof.
  repeat match goal with |- _ /\ _ => split end;
    try match goal with
    | |- useMarkdown JUndefined ?t = false =>
        exact (false_of_iff _ _ (proj1 (sendMessage_markdown_heuristic t))
                 (no_markdown_features t eq_refl))
    | |- useMarkdown JUndefined ?t = true =>
        exact (proj2 (proj1 (sendMessage_markdown_heuristic t))
                 (proj1 (hasMarkdownFeatures_spec t) eq_refl))
    end.
  exact (proj2 (proj2 (proj2 (sendMessage_markdown_heuristic (lit "snake_case"))))
           sample_config sample_webhook [] (scripted calm) warm_world
           (lit "T0") (log_call CNow warm_world) eq_refl
           (fun _ (H : truthy JUndefined = true) =>
              False_ind _ (Bool.diff_false_true H))).
Defined.

Lemma drop_while_spec (p : N -> bool) (s : jstring) :
  s = take_while p s ++ drop_while p s
  /\ forallb p (take_while p s) = true
  /\ match drop_while p s with
     | [] => True
     | c :: _ => p c = false
     end.
Proof.
  induction s as [|c r [IH1 [IH2 IH3]]]; simpl.
  - repeat split.
  - destruct (p c) eqn:E; simpl.
    + rewrite E. repeat split; [f_equal; exact IH1 | exact IH2 | exact IH3].
    + rewrite E. repeat split.
Qed.

Lemma drop_while_unique (p : N -> bool) (markers rest : jstring) :
  forallb p markers = true ->
  match rest with
  | [] => True
  | c :: _ => p c = false
  end ->
  drop_while p (markers ++ rest) = rest.
Proof.
  induction markers as [|m ms IH]; simpl; intros Hm Hr.
  - destruct rest as [|c r]; [reflexivity|]. simpl. rewrite Hr. reflexivity.
  - apply andb_true_iff in Hm as [Hm Hms]. rewrite Hm. exact (IH Hms Hr).
Qed.

Lemma split_on_nonempty (c : N) (s : jstring) : split_on c s <> [].
Proof.
  destruct s as [|x r]; simpl; [discriminate|].
  destruct (N.eqb x c); [discriminate|].
  destruct (split_on c r); discriminate.
Qed.

Lemma first_line_cons (x : N) (r : jstring) :
  x <> NEWLINE -> first_line (x :: r) = x :: first_line r.
Proof.
  intros Hx. unfold first_line. simpl.
  apply N.eqb_neq in Hx. rewrite Hx.
  destruct (split_on NEWLINE r) as [|h tl] eqn:Es; [|reflexivity].
  exfalso. exact (split_on_nonempty _ _ Es).
Qed.

Lemma first_line_spec (t : jstring) :
  ~ In NEWLINE (first_line t)
  /\ (t = first_line t \/ exists rest, t = first_line t ++ NEWLINE :: rest).
Proof.
  induction t as [|x r [IH1 IH2]].
  - split; [intros [] | left; reflexivity].
  - destruct (N.eq_dec x NEWLINE) as [->|Hx].
    + split; [intros [] | right; exists r; reflexivity].
    + rewrite (first_line_cons x r Hx). split.
      * intros [H|H]; [congruence | exact (IH1 H)].
      * destruct IH2 as [IH2|[rest IH2]].
        -- left. f_equal. exact IH2.
        -- right. exists rest. simpl. f_equal. exact IH2.
Qed.

Lemma first_line_unique (t line : jstring) :
  is_first_line t line -> line = first_line t.
Proof.
  intros [Hnl Ht]. change 0xA%N with NEWLINE in *.
  revert t Ht. induction line as [|x r IH]; intros t Ht.
  - destruct Ht as [->|[rest ->]]; reflexivity.
  - assert (Hx : x <> NEWLINE) by (intros ->; apply Hnl; left; reflexivity).
    assert (Hr : ~ In NEWLINE r) by (intros H; apply Hnl; right; exact H).
    destruct Ht as [->|[rest ->]].
    + rewrite (first_line_cons x r Hx). f_equal.
      apply (IH Hr). left; reflexivity.
    + simpl. rewrite (first_line_cons x _ Hx). f_equal.
      apply (IH Hr). right. exists rest. reflexivity.
Qed.

Lemma is_js_space_spec (c : N) : is_js_space c = true <-> white_space c.
Proof.
  unfold is_js_space, white_space.
  rewrite orb_true_iff, andb_true_iff, mem_In, !N.leb_le. tauto.
Qed.

Lemma is_title_marker_spec (c : N) :
  is_title_marker c = true <-> title_marker c.
Proof.
  unfold is_title_marker, title_marker.
  rewrite orb_true_iff, mem_In, is_js_space_spec.
  change [HASH; STAR; DASH; GT] with (lit "#*->"). tauto.
Qed.

Lemma not_title_marker (c : N) :
  is_title_marker c = false -> ~ title_marker c.
Proof.
  intros H Hm. apply is_title_marker_spec in Hm. congruence.
Qed.

Lemma title_markers_spec (ms : jstring) :
  forallb is_title_marker ms = true <-> Forall title_marker ms.
Proof.
  rewrite forallb_forall, Forall_forall.
  split; intros H c Hc; apply is_title_marker_spec, H, Hc.
Qed.

Lemma strip_markers_spec (line : jstring) :
  is_stripped line (strip_markers line).
Proof.
  destruct (drop_while_spec is_title_marker line) as [Hs1 [Hs2 Hs3]].
  exists (take_while is_title_marker line).
  split; [exact Hs1|]. split; [apply title_markers_spec; exact Hs2|].
  unfold strip_markers.
  destruct (drop_while is_title_marker line) as [|c r]; [exact I|].
  apply not_title_marker; exact Hs3.
Qed.

Lemma strip_markers_unique (line stripped : jstring) :
  is_stripped line stripped -> stripped = strip_markers line.
Proof.
  intros [markers [-> [Hm Hs]]]. unfold strip_markers.
  symmetry. apply drop_while_unique.
  - apply title_markers_spec; exact Hm.
  - destruct stripped as [|c r]; [exact I|].
    destruct (is_title_marker c) eqn:E; [|reflexivity].
    exfalso. apply Hs. apply is_title_marker_spec; exact E.
Qed.

Lemma firstn_nonempty {A} (n : nat) (l : list A) :
  (0 < n)%nat -> l <> [] -> firstn n l <> [].
Proof.
  destruct n; [lia|]. destruct l; [congruence|]. simpl. discriminate.
Qed.

Lemma markdown_title_default (title : JValue) (t : jstring) :
  truthy title = false ->
  markdown_title title t
  = JStr (match strip_markers (first_line t) with
          | [] => DEFAULT_TITLE
          | c :: s => firstn 20 (c :: s)
          end).
Proof.
  intros Ht. unfold markdown_title, jor at 1. rewrite Ht.
  unfold slice20. rewrite jor_str_nonempty.
  destruct (strip_markers (first_line t)); reflexivity.
Qed.

Lemma derived_title_nonempty (stripped : jstring) :
  derived_title stripped <> [].
Proof.
  destruct stripped as [|c r]; [discriminate|].
  apply firstn_nonempty; [lia | discriminate].
Qed.

Lemma derived_title_short (stripped : jstring) :
  (length (derived_title stripped) <= 20)%nat.
Proof.
  destruct stripped as [|c r].
  - apply Nat.leb_le. reflexivity.
  - unfold derived_title. rewrite length_firstn. lia.
Qed.

(** C5. When a message is sent as markdown and the caller gives no
    title, the title is taken from the first line of the text (the text up
    to its first newline), with the leading run of the characters
    [# * - >] and white space removed, cut to at most 20 code units; when
    nothing is left of the first line the title is the fixed fallback
    [Clawdbot 消息].  The title is never empty, and it is the title of the
    body posted to the webhook. *)
Theorem sendMessage_markdown_title (t : jstring) (title : JValue) :
  truthy title = false ->
  (exists line stripped, is_first_line t line /\ is_stripped line stripped)
  /\ forall line stripped,
       is_first_line t line ->
       is_stripped line stripped ->
       markdown_title title t = JStr (derived_title stripped)
       /\ derived_title stripped <> []
       /\ (length (derived_title stripped) <= 20)%nat
       /\ forall config sw fields o w tok w1,
            oget (JObj fields) "title" = title ->
            useMarkdown (oget (JObj fields) "useMarkdown") t = true ->
            mentionable (oget (JObj fields) "atUserId") ->
            getAccessToken config o w = (Ok tok, w1) ->
            exists body,
              sendMessage config sw t (JObj fields) o w
              = (o (trace w1) (CPostWebhook sw body tok),
                 log_call (CPostWebhook sw body tok) w1)
              /\ body_kind body = JStr (lit "markdown")
              /\ body_title body = JStr (derived_title stripped).
Proof.
  intros Ht. split.
  { exists (first_line t), (strip_markers (first_line t)).
    split; [exact (first_line_spec t) | apply strip_markers_spec]. }
  intros line stripped Hline Hstripped.
  rewrite (strip_markers_unique _ _ Hstripped), (first_line_unique _ _ Hline).
  assert (Hchosen : markdown_title title t
                    = JStr (derived_title (strip_markers (first_line t)))).
  { rewrite (markdown_title_default title t Ht).
    destruct (strip_markers (first_line t)); reflexivity. }
  split; [exact Hchosen|].
  split; [apply derived_title_nonempty|].
  split; [apply derived_title_short|].
  intros config sw fields o w tok w1 Htitle Hmd Hat Htok.
  rewrite sendMessage_decides, Hmd, Htitle.
  destruct (sendMarkdownMessage_posts config sw (markdown_title title t)
              t fields o w tok w1 Htok Hat) as [body [Hrun [Hk Htl]]].
  exists body. split; [exact Hrun|]. split; [exact Hk|].
  rewrite Htl, Hchosen. unfold jor. simpl.
  pose proof (derived_title_nonempty (strip_markers (first_line t))) as Hne.
  destruct (derived_title (strip_markers (first_line t)));
    [congruence | reflexivity].
Qed.

Lemma first_line_of_text (line rest : jstring) :
  mem 0xA%N line = false -> is_first_line (line ++ 0xA%N :: rest) line.
Proof.
  intros H. split; [apply not_mem_In; exact H|].
  right. exists rest. reflexivity.
Defined.

Lemma first_line_of_line (line : jstring) :
  mem 0xA%N line = false -> is_first_line line line.
Proof.
  intros H. split; [apply not_mem_In; exact H | left; reflexivity].
Defined.

Lemma stripped_of_line (markers stripped : jstring) :
  forallb is_title_marker markers = true ->
  match stripped with
  | [] => true
  | c :: _ => negb (is_title_marker c)
  end = true ->
  is_stripped (markers ++ stripped) stripped.
Proof.
  intros Hm Hs. exists markers. split; [reflexivity|].
  split; [apply title_markers_spec; exact Hm|].
  destruct stripped as [|c r]; [exact I|].
  apply not_title_marker. apply negb_true_iff. exact Hs.
Defined.

Lemma sendMessage_markdown_title_witness :
  markdown_title JUndefined
    (lit "## Release notes for the week" ++ [0xA%N] ++ lit "body")
  = JStr (lit "Release notes for th")
  /\ markdown_title JUndefined (lit "> - * quoted") = JStr (lit "quoted")
  /\ markdown_title JNull (lit "#-> *" ++ [0xA%N] ++ lit "text")
     = JStr (lit "Clawdbot " ++ [0x6D88; 0x606F]%N)
  /\ markdown_title (JStr []) [] = JStr (lit "Clawdbot " ++ [0x6D88; 0x606F]%N).
Proof.
  split; [|split; [|split]].
  - exact (proj1 (proj2 (sendMessage_markdown_title
                           (lit "## Release notes for the week"
                            ++ [0xA%N] ++ lit "body") JUndefined eq_refl)
                    (lit "## Release notes for the week")
                    (lit "Release notes for the week")
                    (first_line_of_text (lit "## Release notes for the week")
                       (lit "body") eq_refl)
                    (stripped_of_line (lit "## ")
                       (lit "Release notes for the week") eq_refl eq_refl))).
  - exact (proj1 (proj2 (sendMessage_markdown_title
                           (lit "> - * quoted") JUndefined eq_refl)
                    (lit "> - * quoted") (lit "quoted")
                    (first_line_of_line (lit "> - * quoted") eq_refl)
                    (stripped_of_line (lit "> - * ") (lit "quoted")
                       eq_refl eq_refl))).
  - exact (proj1 (proj2 (sendMessage_markdown_title
                           (lit "#-> *" ++ [0xA%N] ++ lit "text") JNull eq_refl)
                    (lit "#-> *") []
                    (first_line_of_text (lit "#-> *") (lit "text") eq_refl)
                    (stripped_of_line (lit "#-> *") [] eq_refl eq_refl))).
  - exact (proj1 (proj2 (sendMessage_markdown_title [] (JStr []) eq_refl)
                    [] []
                    (first_line_of_line [] eq_refl)
                    (stripped_of_line [] [] eq_refl eq_refl))).
Defined.

(* ================================================================== *)
(** * Properties of the token cache *)
(* ================================================================== *)

Lemma trace_log_call (c : Call) (w : World) :
  trace (log_call c w) = trace w ++ [c].
Proof. reflexivity. Qed.

Lemma getAccessToken_hit config (o : Oracle) w tok :
  accessToken w = Some tok -> tok <> [] ->
  accessTokenExpiry w > clock o w + 60000 ->
  getAccessToken config o w = (Ok tok, log_call CNow w).
Proof.
  intros Hc Hne Hexp. unfold getAccessToken.
  rewrite bind_call, bind_read_world.
  rewrite accessToken_log_call, accessTokenExpiry_log_call, Hc.
  destruct tok as [|c s]; [congruence|]. simpl token_truthy.
  unfold TOKEN_MARGIN_MS, clock in *.
  replace (accessTokenExpiry w >? o (trace w) CNow + 60000) with true
    by (symmetry; apply Z.gtb_lt; lia).
  reflexivity.
Qed.

Lemma getAccessToken_miss fields (o : Oracle) w :
  token_truthy (accessToken w) = false
  \/ accessTokenExpiry w <= clock o w + 60000 ->
  let config := JObj fields in
  getAccessToken config o w
  = match refresh_answer o w config with
    | Ok resp =>
        (Ok (resp_accessToken resp),
         set_token (resp_accessToken resp)
                   (clock o w + resp_expireIn resp * 1000)
                   (log_call (refresh_request config) (log_call CNow w)))
    | Thrown e =>
        (Thrown e, log_call (refresh_request config) (log_call CNow w))
    end.
Proof.
  intros Hmiss config. unfold getAccessToken, clock, refresh_answer in *.
  rewrite bind_call, bind_read_world.
  rewrite accessToken_log_call, accessTokenExpiry_log_call.
  replace (token_truthy (accessToken w)
           && (accessTokenExpiry w >? o (trace w) CNow + TOKEN_MARGIN_MS))
    with false.
  2:{ symmetry. apply andb_false_iff.
      destruct Hmiss as [H|H]; [left; exact H|].
      right. unfold TOKEN_MARGIN_MS.
      destruct (accessTokenExpiry w >? o (trace w) CNow + 60000) eqn:E;
        [apply Z.gtb_lt in E; lia | reflexivity]. }
  subst config. unfold refresh_request.
  change (get (JObj fields) "clientId") with (Ok (oget (JObj fields) "clientId")).
  change (get (JObj fields) "clientSecret")
    with (Ok (oget (JObj fields) "clientSecret")).
  rewrite !bind_lift_ok, bind_callR. simpl trace.
  destruct (o (trace w ++ [CNow])
              (CPostAccessToken (oget (JObj fields) "clientId")
                                (oget (JObj fields) "clientSecret")));
    reflexivity.
Qed.

(** The closing sentence of C2 fails: a token the identity endpoint
    grants for 30 seconds is stored and returned at once, 30 seconds
    before its stored expiry. *)
Lemma fresh_token_returned_near_expiry : ~ never_returned_near_expiry.
Proof.
  intros H.
  specialize (H (scripted short_lived) fresh_world sample_config (lit "T1")
                _ eq_refl).
  vm_compute in H. discriminate.
Qed.

(** C2, amended.  When a non-empty token is cached and its stored expiry
    is more than 60000 ms after the current time, [getAccessToken] returns
    it unchanged and makes no request.  Otherwise it makes exactly one
    refresh request with the client id and secret; the token of a
    successful answer is stored with the expiry [now + expireIn * 1000] and
    returned, and a failure propagates with the cache untouched.  Hence a
    token returned without a refresh is more than 60 seconds from its
    stored expiry; a token just fetched is returned whatever lifetime the
    endpoint granted. *)
Theorem getAccessToken_cache_policy (o : Oracle) (w : World)
        (fields : list (jstring * JValue)) :
  let config := JObj fields in
  (forall tok,
      accessToken w = Some tok -> tok <> [] ->
      accessTokenExpiry w > clock o w + 60000 ->
      exists w',
        getAccessToken config o w = (Ok tok, w')
        /\ calls_between w w' [CNow]
        /\ accessToken w' = Some tok
        /\ accessTokenExpiry w' = accessTokenExpiry w)
  /\ (token_truthy (accessToken w) = false
      \/ accessTokenExpiry w <= clock o w + 60000 ->
      exists r w',
        getAccessToken config o w = (r, w')
        /\ calls_between w w' [CNow; refresh_request config]
        /\ match refresh_answer o w config with
           | Ok resp =>
               r = Ok (resp_accessToken resp)
               /\ accessToken w' = Some (resp_accessToken resp)
               /\ accessTokenExpiry w'
                  = clock o w + resp_expireIn resp * 1000
           | Thrown e =>
               r = Thrown e
               /\ accessToken w' = accessToken w
               /\ accessTokenExpiry w' = accessTokenExpiry w
           end)
  /\ (forall tok w',
        getAccessToken config o w = (Ok tok, w') ->
        calls_between w w' [CNow] ->
        accessTokenExpiry w' > clock o w + 60000).
Proof.
  intros config.
  assert (Hmiss : token_truthy (accessToken w) = false
                  \/ accessTokenExpiry w <= clock o w + 60000 ->
                  exists r w',
                    getAccessToken config o w = (r, w')
                    /\ calls_between w w' [CNow; refresh_request config]
                    /\ match refresh_answer o w config with
                       | Ok resp =>
                           r = Ok (resp_accessToken resp)
                           /\ accessToken w' = Some (resp_accessToken resp)
                           /\ accessTokenExpiry w'
                              = clock o w + resp_expireIn resp * 1000
                       | Thrown e =>
                           r = Thrown e
                           /\ accessToken w' = accessToken w
                           /\ accessTokenExpiry w' = accessTokenExpiry w
                       end).
  { intros H. subst config. rewrite (getAccessToken_miss fields o w H).
    destruct (refresh_answer o w (JObj fields)) as [resp|e];
      eexists; eexists; (split; [reflexivity|]);
      (split; [unfold calls_between; simpl; rewrite <- app_assoc; reflexivity|]);
      repeat split. }
  split; [|split; [exact Hmiss|]].
  - intros tok Hc Hne Hexp. exists (log_call CNow w).
    rewrite (getAccessToken_hit config o w tok Hc Hne Hexp).
    repeat split. exact Hc.
  - intros tok w' Hrun Hcalls.
    destruct (token_truthy (accessToken w)) eqn:Et.
    + destruct (Z_le_gt_dec (accessTokenExpiry w) (clock o w + 60000)) as [Hle|Hgt].
      * destruct (Hmiss (or_intror Hle)) as [r [w2 [Hr [Hc2 _]]]].
        rewrite Hrun in Hr. inversion Hr; subst.
        unfold calls_between in *. rewrite Hcalls in Hc2.
        apply app_inv_head in Hc2. discriminate.
      * destruct (accessToken w) as [tok0|] eqn:Ec; [|discriminate].
        assert (Hne : tok0 <> []) by (destruct tok0; [discriminate|congruence]).
        rewrite (getAccessToken_hit config o w tok0 Ec Hne Hgt) in Hrun.
        inversion Hrun; subst. exact Hgt.
    + destruct (Hmiss (or_introl eq_refl)) as [r [w2 [Hr [Hc2 _]]]].
      rewrite Hrun in Hr. inversion Hr; subst.
      unfold calls_between in *. rewrite Hcalls in Hc2.
      apply app_inv_head in Hc2. discriminate.
Qed.

Lemma getAccessToken_cache_policy_witness :
  exists w',
    getAccessToken (JObj []) (scripted calm) warm_world = (Ok (lit "T0"), w')
    /\ calls_between warm_world w' [CNow]
    /\ accessToken w' = Some (lit "T0")
    /\ accessTokenExpiry w' = accessTokenExpiry warm_world.
Proof.
  refine (proj1 (getAccessToken_cache_policy (scripted calm) warm_world [])
                (lit "T0") eq_refl _ _).
  - discriminate.
  - reflexivity.
Defined.

(* ================================================================== *)
(** * Properties of the media upload *)
(* ================================================================== *)

Lemma FILE_SIZE_LIMITS_values :
  MediaUtils.FILE_SIZE_LIMITS MediaUtils.image = 20971520
  /\ MediaUtils.FILE_SIZE_LIMITS MediaUtils.video = 20971520
  /\ MediaUtils.FILE_SIZE_LIMITS MediaUtils.file = 20971520
  /\ MediaUtils.FILE_SIZE_LIMITS MediaUtils.voice = 2097152.
Proof. repeat split. Qed.

Lemma uploadMedia_run (ld : bool) (o : Oracle) (w : World) (config : JValue)
      (mediaPath : jstring) (mediaType : MediaUtils.DingTalkMediaType)
      (getTok : JValue -> M jstring) :
  MediaUtils.uploadMedia ld config mediaPath mediaType getTok o w
  = match getTok config o w with
    | (Thrown _, w1) => (Ok JNull, w1)
    | (Ok tok, w1) =>
        let w2 := log_call (CStat mediaPath) w1 in
        match o (trace w1) (CStat mediaPath) with
        | Thrown _ => (Ok JNull, w2)
        | Ok size =>
            if size >? MediaUtils.FILE_SIZE_LIMITS mediaType
            then (Ok JNull, w2)
            else
              let w3 := log_call (CCreateReadStream mediaPath) w2 in
              let w4 := log_call (CBasename mediaPath) w3 in
              let request :=
                CPostUpload (upload_url tok mediaType)
                            (o (trace w3) (CBasename mediaPath)) in
              (Ok (match o (trace w4) request with
                   | Ok data => media_id_of ld data
                   | Thrown _ => JNull
                   end),
               log_call CStreamDestroy (log_call request w4))
        end
    end.
Proof.
  cbv [MediaUtils.uploadMedia MediaUtils.with_local MediaUtils.ltry_finally
       MediaUtils.ltry_catch MediaUtils.lbind MediaUtils.keep
       MediaUtils.read_local MediaUtils.lret MediaUtils.assign callR call lift].
  destruct (getTok config o w) as [[tok|e] w1]; [|reflexivity].
  destruct (o (trace w1) (CStat mediaPath)) as [size|e]; [|reflexivity].
  destruct (size >? MediaUtils.FILE_SIZE_LIMITS mediaType); [reflexivity|].
  cbv zeta. fold (upload_url tok mediaType).
  match goal with
  | |- context [o ?tr (CPostUpload ?u ?f)] =>
      destruct (o tr (CPostUpload u f)) as [data|e]; [|reflexivity]
  end.
  unfold media_id_of, MediaUtils.is_zero, writable.
  destruct (oget data "errcode") as [| | |z| | |]; try reflexivity.
  destruct z; try reflexivity. rewrite andb_true_l.
  destruct (truthy (oget data "media_id")) eqn:Et; [|reflexivity].
  rewrite (get_oget data _ (truthy_prop_not_nullish _ _ Et)).
  destruct ld; [|reflexivity].
  destruct (to_string (oget data "media_id")); reflexivity.
Qed.

(** C3. Once the token is obtained and the file's size is known,
    [uploadMedia] returns [null] after the [stat] alone, with no upload
    request, when the size strictly exceeds the ceiling of the media type
    (20 MiB for image, video and file, 2 MiB for voice); a size up to and
    including the ceiling passes the gate and the upload request is made. *)
Theorem uploadMedia_size_gate (ld : bool) (o : Oracle) (w w1 : World)
        (config : JValue)
        (mediaPath : jstring) (mediaType : MediaUtils.DingTalkMediaType)
        (getTok : JValue -> M jstring) (tok : jstring) (size : Z) :
  getTok config o w = (Ok tok, w1) ->
  o (trace w1) (CStat mediaPath) = Ok size ->
  let limit := MediaUtils.FILE_SIZE_LIMITS mediaType in
  limit = match mediaType with
          | MediaUtils.voice => 2 * 1024 * 1024
          | _ => 20 * 1024 * 1024
          end
  /\ (size > limit ->
      exists w',
        MediaUtils.uploadMedia ld config mediaPath mediaType getTok o w
        = (Ok JNull, w')
        /\ calls_between w1 w' [CStat mediaPath])
  /\ (size <= limit ->
      exists r w' url filename,
        MediaUtils.uploadMedia ld config mediaPath mediaType getTok o w
        = (r, w')
        /\ calls_between w1 w'
             [CStat mediaPath; CCreateReadStream mediaPath;
              CBasename mediaPath; CPostUpload url filename; CStreamDestroy]).
Proof.
  intros Htok Hstat limit.
  split; [destruct mediaType; reflexivity|].
  rewrite uploadMedia_run, Htok. cbv zeta. rewrite Hstat. fold limit.
  split.
  - intros Hgt. exists (log_call (CStat mediaPath) w1).
    split; [|reflexivity].
    replace (size >? limit) with true by (symmetry; apply Z.gtb_lt; lia).
    reflexivity.
  - intros Hle.
    replace (size >? limit) with false
      by (symmetry; destruct (size >? limit) eqn:E;
          [apply Z.gtb_lt in E; lia | reflexivity]).
    do 4 eexists. split; [reflexivity|].
    unfold calls_between. rewrite !trace_log_call.
    rewrite <- !app_assoc. reflexivity.
Qed.

Lemma uploadMedia_size_gate_witness :
  exists w',
    MediaUtils.uploadMedia true sample_config sample_voice_path
                           MediaUtils.voice
                           getAccessToken (scripted oversize_voice) warm_world
    = (Ok JNull, w')
    /\ calls_between (log_call CNow warm_world) w' [CStat sample_voice_path].
Proof.
  refine (proj1 (proj2 (uploadMedia_size_gate
                          true (scripted oversize_voice) warm_world
                          (log_call CNow warm_world) sample_config
                          sample_voice_path MediaUtils.voice getAccessToken
                          (lit "T0") (2 * 1024 * 1024 + 1)
                          eq_refl eq_refl)) _).
  reflexivity.
Defined.

(** The boundary of the gate: a voice file of exactly 2 MiB is uploaded. *)
Example uploadMedia_at_limit :
  exists r w' url filename,
    MediaUtils.uploadMedia true sample_config sample_voice_path
                           MediaUtils.voice
                           getAccessToken (scripted full_voice) warm_world
    = (r, w')
    /\ In (CPostUpload url filename) (trace w').
Proof.
  do 4 eexists. split; [reflexivity|]. simpl. right. right. right. right.
  left. reflexivity.
Qed.

(* ================================================================== *)
(** * Which calls a computation makes *)
(* ================================================================== *)

Section Emits.
Variable p : Call -> bool.

Lemma emits_ret {A} (a : A) : emits p (ret a).
Proof. intros o w. exists []. split; [symmetry; apply app_nil_r | reflexivity]. Qed.

Lemma emits_throw {A} (e : exn) : emits p (@throw A e).
Proof. intros o w. exists []. split; [symmetry; apply app_nil_r | reflexivity]. Qed.

Lemma emits_lift {A} (r : Result A) : emits p (lift r).
Proof. intros o w. exists []. split; [symmetry; apply app_nil_r | reflexivity]. Qed.

Lemma emits_read_world : emits p read_world.
Proof. intros o w. exists []. split; [symmetry; apply app_nil_r | reflexivity]. Qed.

Lemma emits_set_token t z : emits p (modify (set_token t z)).
Proof. intros o w. exists []. split; [symmetry; apply app_nil_r | reflexivity]. Qed.

Lemma emits_call (c : Call) : p c = true -> emits p (call c).
Proof.
  intros Hc o w. exists [c]. split; [reflexivity|]. simpl. rewrite Hc. reflexivity.
Qed.

Lemma emits_callR {A} (c : Call) (cast : Ans c -> Result A) :
  p c = true -> emits p (callR c cast).
Proof.
  intros Hc o w. exists [c]. split; [reflexivity|]. simpl. rewrite Hc. reflexivity.
Qed.

Lemma emits_bind {A B} (m : M A) (f : A -> M B) :
  emits p m -> (forall a, emits p (f a)) -> emits p (bind m f).
Proof.
  intros Hm Hf o w. unfold bind.
  destruct (Hm o w) as [tr1 [H1 P1]].
  destruct (m o w) as [[a|e] w1]; simpl in H1.
  - destruct (Hf a o w1) as [tr2 [H2 P2]].
    exists (tr1 ++ tr2). split.
    + rewrite H2, H1, app_assoc. reflexivity.
    + rewrite forallb_app, P1, P2. reflexivity.
  - exists tr1. split; assumption.
Qed.

Lemma emits_try_catch {A} (m : M A) (h : exn -> M A) :
  emits p m -> (forall e, emits p (h e)) -> emits p (try_catch m h).
Proof.
  intros Hm Hh o w. unfold try_catch.
  destruct (Hm o w) as [tr1 [H1 P1]].
  destruct (m o w) as [[a|e] w1]; simpl in H1.
  - exists tr1. split; assumption.
  - destruct (Hh e o w1) as [tr2 [H2 P2]].
    exists (tr1 ++ tr2). split.
    + rewrite H2, H1, app_assoc. reflexivity.
    + rewrite forallb_app, P1, P2. reflexivity.
Qed.

Lemma emits_try_finally {A} (m : M A) (fin : M unit) :
  emits p m -> emits p fin -> emits p (try_finally m fin).
Proof.
  intros Hm Hf o w. unfold try_finally.
  destruct (Hm o w) as [tr1 [H1 P1]].
  destruct (m o w) as [r w1]; simpl in H1.
  destruct (Hf o w1) as [tr2 [H2 P2]].
  exists (tr1 ++ tr2). split.
  - destruct (fin o w1) as [[u|e] w2]; simpl in *;
      rewrite H2, H1, app_assoc; reflexivity.
  - rewrite forallb_app, P1, P2. reflexivity.
Qed.

Lemma emits_when (c : bool) (m : M unit) : emits p m -> emits p (when c m).
Proof. intros Hm. destruct c; [exact Hm | apply emits_ret]. Qed.

Lemma emits_covers (q : Call -> bool) {A} (m : M A) :
  covers p q -> emits q m -> emits p m.
Proof.
  intros Hc Hm o w. destruct (Hm o w) as [tr [H1 P1]].
  exists tr. split; [exact H1|].
  apply forallb_forall. intros c Hin. apply Hc.
  exact (proj1 (forallb_forall q tr) P1 c Hin).
Qed.
End Emits.

(** Discharges [covers p q] for two concrete classes. *)
Ltac cover :=
  let c := fresh "c" in
  let H := fresh "H" in
  intros c H; destruct c; first [discriminate H | reflexivity].

(** Decomposes [emits p m] along the structure of [m]. *)
Ltac emit :=
  repeat first
    [ progress intros
    | progress cbv zeta
    | apply emits_ret | apply emits_throw | apply emits_lift
    | apply emits_read_world | apply emits_set_token
    | apply emits_call; reflexivity
    | apply emits_callR; reflexivity
    | apply emits_bind | apply emits_try_catch | apply emits_try_finally
    | apply emits_when
    | match goal with
      | |- emits _ (if ?b then _ else _) => destruct b
      | |- emits _ (match ?x with _ => _ end) => destruct x
      end ].

Lemma emits_getAccessToken config : emits token_call (getAccessToken config).
Proof. unfold getAccessToken. emit. Qed.

Lemma emits_downloadMedia config code :
  emits download_call (downloadMedia config code).
Proof. unfold downloadMedia. emit. Qed.

Lemma emits_sendTextMessage config sw t options :
  emits send_call (sendTextMessage config sw t options).
Proof. unfold sendTextMessage. emit. Qed.

Lemma emits_sendMarkdownMessage config sw title t options :
  emits send_call (sendMarkdownMessage config sw title t options).
Proof. unfold sendMarkdownMessage. emit. Qed.

Lemma emits_sendMessage config sw t options :
  emits send_call (sendMessage config sw t options).
Proof. unfold sendMessage. emit. Qed.

Lemma emits_deliver config sw d sid payload :
  emits send_call (deliver config sw d sid payload).
Proof. unfold deliver. emit. Qed.

Lemma emits_deliver_all config sw d sid payloads :
  emits send_call (deliver_all config sw d sid payloads).
Proof.
  induction payloads as [|x r IH]; simpl.
  - apply emits_ret.
  - apply emits_bind; [apply emits_deliver | intros _; exact IH].
Qed.

Lemma emits_fetch_media config content :
  emits download_call (fetch_media config content).
Proof. unfold fetch_media. emit. Qed.

Lemma emits_cleanup_media mediaPath :
  emits after_media_call (cleanup_media mediaPath).
Proof. unfold cleanup_media. emit. Qed.

Lemma emits_route_and_record li cfg accountId data sw config content pr mp mt :
  emits after_media_call
        (route_and_record li cfg accountId data sw config content pr mp mt).
Proof. unfold route_and_record. emit. Qed.

Lemma emits_reply_cycle ctx cfg config sw pr mp :
  emits after_media_call (reply_cycle ctx cfg config sw pr mp).
Proof.
  unfold reply_cycle, dispatch_reply, after_dispatch.
  emit; first [ apply emits_cleanup_media
              | eapply emits_covers; [|apply emits_cleanup_media]; cover
              | eapply emits_covers; [|apply emits_deliver_all]; cover ].
Qed.

Lemma emits_handleDingTalkMessage li cfg accountId data sw config :
  emits handler_call (handleDingTalkMessage li cfg accountId data sw config).
Proof.
  unfold handleDingTalkMessage, getRuntime.
  emit; first [ apply emits_cleanup_media
              | eapply emits_covers; [|apply emits_cleanup_media]; cover
              | eapply emits_covers; [|apply emits_deliver_all]; cover ].
Qed.

Lemma emits_handle_frame li cfg accountId config res :
  emits (fun c => negb (is_ack c)) (handle_frame li cfg accountId config res).
Proof.
  unfold handle_frame.
  apply emits_bind; [apply emits_callR; reflexivity | intros data].
  apply emits_bind; [apply emits_lift | intros sw].
  eapply emits_covers; [|apply emits_handleDingTalkMessage]. cover.
Qed.

(** The [deliver] callback always passes an explicit flag, computed from
    the pattern alone: a reply whose only markdown feature is a newline is
    posted as plain text. *)
Lemma deliver_newline_only_is_plain config sw d sid (t : jstring) o w tok w1 :
  t <> [] ->
  markdown_regex_test t = false ->
  getAccessToken config o w = (Ok tok, w1) ->
  exists body r,
    deliver config sw d sid (mkPayload None (Some t)) o w
    = (r, log_call (CPostWebhook sw body tok) w1)
    /\ body_kind body = JStr (lit "text").
Proof.
  intros Hne Hre Htok. destruct t as [|c s]; [congruence|].
  assert (Hflag : deliver_isMarkdown (mkPayload None (Some (c :: s))) (c :: s)
                  = false)
    by (unfold deliver_isMarkdown; rewrite Hre; reflexivity).
  change (deliver config sw d sid (mkPayload None (Some (c :: s))))
    with (try_catch
            (sendMessage config sw (c :: s)
               (JObj [(lit "atUserId", at_user d sid);
                      (lit "useMarkdown",
                       JBool (deliver_isMarkdown
                                (mkPayload None (Some (c :: s))) (c :: s)))]) ;;;
             ret DeliverOk)
            (fun e => ret (DeliverFailed e))).
  rewrite Hflag.
  unfold try_catch, bind. rewrite sendMessage_decides.
  change (useMarkdown (oget (JObj _) "useMarkdown") (c :: s)) with false.
  cbv iota.
  match goal with
  | |- context [sendTextMessage config sw (c :: s) (JObj ?f) o w] =>
      destruct (sendTextMessage_posts config sw (c :: s) f o w tok w1 Htok)
        as [body [Hrun Hk]]
  end.
  rewrite Hrun.
  exists body.
  destruct (o (trace w1) (CPostWebhook sw body tok)) as [v|e];
    eexists; (split; [reflexivity | exact Hk]).
Qed.

(* ================================================================== *)
(** * Properties of the inbound handler *)
(* ================================================================== *)

(** C6. When the decoded text of an event is the empty string the
    handler returns at once and normally; the world is unchanged, so no
    route is resolved, no session recorded, no thinking message sent and no
    dispatch made. *)
Theorem handleDingTalkMessage_empty_text (li : bool) (o : Oracle) (w : World)
        (cfg accountId data sessionWebhook dingtalkConfig : JValue)
        (content : MessageContent) :
  runtime w = true ->
  extractMessageContent data = Ok content ->
  text content = JStr [] ->
  handleDingTalkMessage li cfg accountId data sessionWebhook dingtalkConfig o w
  = (Ok tt, w).
Proof.
  intros Hrt Hex Htext.
  unfold handleDingTalkMessage, getRuntime.
  rewrite bind_assoc, bind_read_world, Hrt, bind_ret, Hex, bind_lift_ok, Htext.
  reflexivity.
Qed.

Lemma handleDingTalkMessage_empty_text_witness :
  handleDingTalkMessage true (JObj []) (str "default") sample_blank_event
                        sample_webhook sample_config (scripted calm) fresh_world
  = (Ok tt, fresh_world).
Proof.
  exact (handleDingTalkMessage_empty_text true (scripted calm) fresh_world
           (JObj []) (str "default") sample_blank_event sample_webhook
           sample_config (mkContent (JStr []) None None (str "text"))
           eq_refl eq_refl eq_refl).
Defined.

(** ** Media download *)

Lemma downloadMedia_never_throws config code (o : Oracle) w :
  exists media w', downloadMedia config code o w = (Ok media, w').
Proof.
  unfold downloadMedia, try_catch.
  match goal with
  | |- context [match ?body o w with _ => _ end] =>
      destruct (body o w) as [[media|e] w']
  end; eexists; eexists; reflexivity.
Qed.

Lemma downloadMedia_token_error config code (o : Oracle) w e w1 :
  getAccessToken config o w = (Thrown e, w1) ->
  downloadMedia config code o w = (Ok None, w1).
Proof.
  intros H. unfold downloadMedia, try_catch.
  rewrite (bind_thrown _ _ _ _ _ _ H). reflexivity.
Qed.

Lemma downloadMedia_with_token config code (o : Oracle) w tok w1 rc :
  getAccessToken config o w = (Ok tok, w1) ->
  get config "robotCode" = Ok rc ->
  let request := CPostDownload code rc tok in
  let w2 := log_call request w1 in
  match o (trace w1) request with
  | Thrown _ => downloadMedia config code o w = (Ok None, w2)
  | Ok data =>
      let url := oget data "downloadUrl" in
      if truthy url then
        exists media tr,
          downloadMedia config code o w
          = (Ok media, mkWorld (trace w2 ++ CGetUrl url :: tr)
                               (accessToken w1) (accessTokenExpiry w1)
                               (runtime w1))
          /\ download_requests tr = 0%nat
          /\ (media <> None ->
              exists resp, o (trace w2) (CGetUrl url) = Ok resp)
      else downloadMedia config code o w = (Ok None, w2)
  end.
Proof.
  intros Htok Hrc request w2.
  unfold downloadMedia, try_catch.
  rewrite (bind_ok _ _ _ _ _ _ Htok), Hrc, bind_lift_ok, bind_callR.
  fold request. fold w2.
  destruct (o (trace w1) request) as [data|e]; [|reflexivity].
  cbv zeta.
  destruct (truthy (oget data "downloadUrl")); [|reflexivity].
  change (negb true) with false. cbv iota.
  rewrite bind_callR.
  destruct (o (trace w2) (CGetUrl (oget data "downloadUrl"))) as [resp|e] eqn:Eg.
  - rewrite !bind_call, bind_callR.
    match goal with
    | |- context [o ?tr (CWriteFile ?p ?d)] =>
        destruct (o tr (CWriteFile p d)) as [u|e]
    end.
    + eexists; eexists. split; [|split].
      * unfold bind, ret, log_call. simpl.
        rewrite <- !app_assoc. simpl. reflexivity.
      * reflexivity.
      * intros _. exists resp. reflexivity.
    + eexists; eexists. split; [|split].
      * unfold log_call. simpl. rewrite <- !app_assoc. simpl. reflexivity.
      * reflexivity.
      * congruence.
  - exists None, []. split; [|split].
    + reflexivity.
    + reflexivity.
    + congruence.
Qed.

(** The whole of [downloadMedia], answer by answer. *)
Lemma downloadMedia_run config code (o : Oracle) w tok w1 :
  getAccessToken config o w = (Ok tok, w1) ->
  match get config "robotCode" with
  | Thrown _ => downloadMedia config code o w = (Ok None, w1)
  | Ok rc =>
      let request := CPostDownload code rc tok in
      let w2 := log_call request w1 in
      match o (trace w1) request with
      | Thrown _ => downloadMedia config code o w = (Ok None, w2)
      | Ok data =>
          let url := oget data "downloadUrl" in
          if truthy url then
            let w3 := log_call (CGetUrl url) w2 in
            match o (trace w2) (CGetUrl url) with
            | Thrown _ => downloadMedia config code o w = (Ok None, w3)
            | Ok resp =>
                let contentType :=
                  content_type_or_default (content_type resp) in
                let w4 := log_call CNow (log_call CTmpdir w3) in
                let name :=
                  lit "dingtalk_"
                  ++ number_to_string (o (trace (log_call CTmpdir w3)) CNow)
                  ++ lit "." ++ extension_of contentType in
                let join := CPathJoin (o (trace w3) CTmpdir) name in
                let tempPath := o (trace w4) join in
                let write := CWriteFile tempPath (media_data resp) in
                let w5 := log_call join w4 in
                match o (trace w5) write with
                | Thrown _ =>
                    downloadMedia config code o w
                    = (Ok None, log_call write w5)
                | Ok _ =>
                    downloadMedia config code o w
                    = (Ok (Some (mkMedia tempPath contentType)),
                       log_call write w5)
                end
            end
          else downloadMedia config code o w = (Ok None, w2)
      end
  end.
Proof.
  intros Htok.
  unfold downloadMedia, try_catch.
  rewrite (bind_ok _ _ _ _ _ _ Htok).
  destruct (get config "robotCode") as [rc|e]; [|reflexivity].
  rewrite bind_lift_ok, bind_callR. cbv zeta.
  destruct (o (trace w1) (CPostDownload code rc tok)) as [data|e];
    [|reflexivity].
  destruct (truthy (oget data "downloadUrl")); [|reflexivity].
  change (negb true) with false. cbv iota.
  rewrite bind_callR.
  destruct (o (trace (log_call (CPostDownload code rc tok) w1))
              (CGetUrl (oget data "downloadUrl"))) as [resp|e]; [|reflexivity].
  rewrite !bind_call, bind_callR.
  match goal with
  | |- context [o ?tr (CWriteFile ?p ?d)] =>
      destruct (o tr (CWriteFile p d)) as [u|e]
  end; reflexivity.
Qed.

(** ** Routing and recording *)

Lemma swallowed_never_throws (m : M JValue) (o : Oracle) w :
  exists w',
    try_catch (m ;;; ret tt) (fun _ => ret tt) o w = (Ok tt, w')
    /\ w' = snd (m o w).
Proof.
  unfold try_catch, bind. destruct (m o w) as [[v|e] w'];
    eexists; split; reflexivity.
Qed.

(** The answer of an obliging host to one request. *)
Ltac host_answer Hob v :=
  rewrite bind_callR;
  match goal with
  | |- context [?o (trace ?w) ?c] =>
      let H := fresh "Hans" in
      pose proof (Hob (trace w) c) as H;
      destruct (o (trace w) c) as [v|?];
      [ simpl in H | discriminate H ]
  end.

Lemma thinking_message_trace config sw t options (b : bool) (o : Oracle) w :
  exists w' tr,
    when b (try_catch (sendTextMessage config sw t options ;;; ret tt)
                      (fun _ => ret tt)) o w = (Ok tt, w')
    /\ trace w' = trace w ++ tr
    /\ forallb send_call tr = true.
Proof.
  destruct b; simpl.
  - destruct (swallowed_never_throws (sendTextMessage config sw t options) o w)
      as [w' [Hrun Hw]].
    destruct (emits_sendTextMessage config sw t options o w) as [tr [Htr Hp]].
    exists w', tr. rewrite Hrun, Hw. repeat split; assumption.
  - exists w, []. repeat split. symmetry. apply app_nil_r.
Qed.

Lemma from_label_ok (p : Peer) :
  peer_printable p -> exists s, from_label p = Ok s.
Proof.
  intros [[id Hid] [[name Hname] [_ [subject Hsubject]]]].
  unfold from_label.
  destruct (isDirect p).
  - rewrite Hname, Hid. eexists. reflexivity.
  - rewrite Hsubject, Hname. eexists. reflexivity.
Qed.

Lemma to_address_ok (p : Peer) :
  peer_printable p -> exists s, to_address p = Ok s.
Proof.
  intros [[id Hid] [_ [[gid Hgid] _]]].
  unfold to_address.
  destruct (isDirect p); [rewrite Hid | rewrite Hgid]; eexists; reflexivity.
Qed.

Lemma log_line_runs {B} (li : bool) (p : Peer) (content : MessageContent)
      (k : unit -> M B) (o : Oracle) w :
  peer_printable p -> loggable li content ->
  bind (when li (lift (inbound_log_line p content) ;;; ret tt)) k o w
  = k tt o w.
Proof.
  intros [_ [[name Hname] _]] Hlog.
  destruct li; [|reflexivity].
  destruct (Hlog eq_refl) as [s Hs].
  unfold when, inbound_log_line. rewrite Hname, Hs. reflexivity.
Qed.

(** The routing phase with a serving host, up to the thinking message:
    five requests to the host, the finalization of the envelope, the
    recording of the session. *)
Lemma route_and_record_steps (li : bool) (o : Oracle) w cfg accountId data sw
      config content pr mp mt :
  host_obliging o ->
  nullish cfg = false -> nullish data = false -> nullish config = false ->
  peer_printable pr -> loggable li content ->
  exists ctx w6 pre rec body sessionKey fromLabel to,
    let env := inbound_context body (text content) sessionKey accountId pr
                 fromLabel to (oget data "msgId") (oget data "createAt")
                 mp mt in
    route_and_record li cfg accountId data sw config content pr mp mt o w
    = bind (when (not_false (oget config "showThinking"))
              (try_catch
                 (sendTextMessage config sw THINKING_TEXT
                    (JObj [(lit "atUserId",
                            at_user (isDirect pr) (senderId pr))]) ;;;
                  ret tt)
                 (fun _ => ret tt)))
           (fun _ => ret ctx) o w6
    /\ trace w6 = trace w ++ pre ++ [CFinalizeInboundContext env; rec]
    /\ forallb host_call (pre ++ [rec]) = true
    /\ accessToken w6 = accessToken w
    /\ accessTokenExpiry w6 = accessTokenExpiry w
    /\ o (trace w ++ pre) (CFinalizeInboundContext env) = Ok ctx
    /\ from_label pr = Ok fromLabel
    /\ to_address pr = Ok to.
Proof.
  intros Hob Hcfg Hdata Hconfig Hpr Hlog.
  destruct (from_label_ok pr Hpr) as [fromLabel Hfrom].
  destruct (to_address_ok pr Hpr) as [to Hto].
  unfold route_and_record.
  host_answer Hob route. apply negb_true_iff in Hans.
  rewrite (get_oget cfg _ Hcfg), bind_lift_ok.
  rewrite (get_oget route _ Hans), bind_lift_ok.
  host_answer Hob storePath. host_answer Hob envelopeOptions.
  rewrite (get_oget route _ Hans), bind_lift_ok.
  host_answer Hob previousTimestamp.
  rewrite Hfrom, bind_lift_ok.
  rewrite (get_oget data _ Hdata), bind_lift_ok.
  host_answer Hob body.
  rewrite Hto, bind_lift_ok.
  rewrite (get_oget data _ Hdata), bind_lift_ok.
  rewrite bind_callR.
  match goal with
  | |- context [o (trace ?w5) (CFinalizeInboundContext ?e)] =>
      pose proof (Hob (trace w5) (CFinalizeInboundContext e)) as Hfin;
      destruct (o (trace w5) (CFinalizeInboundContext e)) as [ctx|?] eqn:Efin;
      [ simpl in Hfin; apply negb_true_iff in Hfin | discriminate Hfin ]
  end.
  rewrite (get_oget ctx _ Hfin), bind_lift_ok.
  assert (Hmain : exists msk,
             (if isDirect pr then lift (get route "mainSessionKey")
              else ret JUndefined) = lift (Ok msk)).
  { destruct (isDirect pr);
      [rewrite (get_oget route _ Hans) |]; eexists; reflexivity. }
  destruct Hmain as [msk Hmsk]. rewrite Hmsk, bind_lift_ok.
  host_answer Hob recorded.
  rewrite (log_line_runs li pr content _ o _ Hpr Hlog).
  rewrite (get_oget config _ Hconfig), bind_lift_ok.
  match goal with
  | |- context [bind (when _ _) _ o ?wx] => remember wx as w6 eqn:Ew6
  end.
  pose proof (f_equal trace Ew6) as Htr.
  pose proof (f_equal accessToken Ew6) as Hat.
  pose proof (f_equal accessTokenExpiry Ew6) as Hae.
  simpl in Hat, Hae.
  rewrite !trace_log_call in Htr, Efin.
  repeat (rewrite <- app_assoc in Htr; simpl app in Htr).
  repeat (rewrite <- app_assoc in Efin; simpl app in Efin).
  match type of Htr with
  | trace _ = trace _ ++ ?c1 :: ?c2 :: ?c3 :: ?c4 :: ?c5 :: _ :: ?c7 :: _ =>
      exists ctx, w6, [c1; c2; c3; c4; c5], c7, body,
             (oget route "sessionKey"), fromLabel, to
  end.
  cbv zeta.
  split; [reflexivity|].
  split; [exact Htr|].
  split; [reflexivity|].
  split; [exact Hat|].
  split; [exact Hae|].
  split; [exact Efin|].
  split; reflexivity.
Qed.

Lemma route_and_record_obliging (li : bool) (o : Oracle) w cfg accountId data
      sw config content pr mp mt :
  host_obliging o ->
  nullish cfg = false -> nullish data = false -> nullish config = false ->
  peer_printable pr -> loggable li content ->
  exists ctx w' pre env post,
    route_and_record li cfg accountId data sw config content pr mp mt o w
    = (Ok ctx, w')
    /\ trace w' = trace w ++ pre ++ [CFinalizeInboundContext env] ++ post
    /\ o (trace w ++ pre) (CFinalizeInboundContext env) = Ok ctx
    /\ exists body sessionKey fromLabel to,
         env = inbound_context body (text content) sessionKey accountId pr
                 fromLabel to (oget data "msgId") (oget data "createAt")
                 mp mt
         /\ from_label pr = Ok fromLabel
         /\ to_address pr = Ok to.
Proof.
  intros Hob Hcfg Hdata Hconfig Hpr Hlog.
  destruct (route_and_record_steps li o w cfg accountId data sw config content
              pr mp mt Hob Hcfg Hdata Hconfig Hpr Hlog)
    as [ctx [w6 [pre [rec [body [sessionKey [fromLabel [to
         [Hrun [Htr [_ [_ [_ [Hfin [Hfrom Hto]]]]]]]]]]]]]]].
  cbv zeta in *.
  destruct (thinking_message_trace config sw THINKING_TEXT
              (JObj [(lit "atUserId", at_user (isDirect pr) (senderId pr))])
              (not_false (oget config "showThinking")) o w6)
    as [w7 [trk [Hthink [Htrk _]]]].
  rewrite (bind_ok _ _ _ _ _ _ Hthink) in Hrun.
  exists ctx, w7, pre,
         (inbound_context body (text content) sessionKey accountId pr
            fromLabel to (oget data "msgId") (oget data "createAt") mp mt),
         (rec :: trk).
  split; [exact Hrun|].
  split; [rewrite Htrk, Htr; repeat (rewrite <- app_assoc; simpl app);
          reflexivity|].
  split; [exact Hfin|].
  exists body, sessionKey, fromLabel, to.
  split; [reflexivity|]. split; [exact Hfrom | exact Hto].
Qed.

(** ** The reply cycle *)

Lemma deliver_never_throws config sw d sid payload (o : Oracle) w :
  exists r w', deliver config sw d sid payload o w = (Ok r, w').
Proof.
  unfold deliver, try_catch.
  match goal with
  | |- context [match ?body o w with _ => _ end] =>
      destruct (body o w) as [[r|e] w']
  end; eexists; eexists; reflexivity.
Qed.

Lemma deliver_all_runs config sw d sid payloads (o : Oracle) w :
  exists w' tr,
    deliver_all config sw d sid payloads o w = (Ok tt, w')
    /\ trace w' = trace w ++ tr
    /\ forallb send_call tr = true.
Proof.
  revert w. induction payloads as [|x r IH]; intros w; simpl.
  - exists w, []. repeat split. symmetry. apply app_nil_r.
  - destruct (deliver_never_throws config sw d sid x o w) as [res [w1 Hd]].
    destruct (emits_deliver config sw d sid x o w) as [tr1 [Ht1 Hp1]].
    rewrite Hd in Ht1. simpl in Ht1.
    destruct (IH w1) as [w2 [tr2 [Hrun [Ht2 Hp2]]]].
    exists w2, (tr1 ++ tr2).
    split; [rewrite (bind_ok _ _ _ _ _ _ Hd); exact Hrun|].
    split; [rewrite Ht2, Ht1, app_assoc; reflexivity|].
    rewrite forallb_app, Hp1, Hp2. reflexivity.
Qed.

Lemma cleanup_media_runs mediaPath (o : Oracle) w :
  exists w',
    cleanup_media mediaPath o w = (Ok tt, w')
    /\ trace w' = trace w ++ cleanup_calls o (trace w) mediaPath.
Proof.
  unfold cleanup_media, cleanup_calls.
  destruct mediaPath as [[|c s]|].
  - exists w. split; [reflexivity | symmetry; apply app_nil_r].
  - rewrite bind_call.
    destruct (o (trace w) (CExistsSync (c :: s))); simpl when.
    + unfold try_catch, callR.
      match goal with
      | |- context [o ?tr (CUnlinkSync ?q)] =>
          destruct (o tr (CUnlinkSync q)) as [[]|e]
      end; eexists; (split; [reflexivity|]); simpl;
        rewrite <- app_assoc; reflexivity.
    + eexists. split; reflexivity.
  - exists w. split; [reflexivity | symmetry; apply app_nil_r].
Qed.

Lemma reply_cycle_runs ctx cfg config sw pr mediaPath (o : Oracle) w handles :
  o (trace w) CCreateReplyDispatcherWithTyping = Ok handles ->
  let d := CDispatchReplyFromConfig ctx cfg (fst handles) (snd handles) in
  exists mid w',
    reply_cycle ctx cfg config sw pr mediaPath o w
    = (snd (o (trace w ++ [CCreateReplyDispatcherWithTyping]) d), w')
    /\ forallb send_call mid = true
    /\ let before := trace w ++ [CCreateReplyDispatcherWithTyping; d] ++ mid in
       trace w' = before ++ CMarkDispatchIdle
                         :: cleanup_calls o (before ++ [CMarkDispatchIdle])
                                          mediaPath.
Proof.
  intros Hcreate d.
  unfold reply_cycle. rewrite bind_callR, Hcreate.
  unfold try_finally, dispatch_reply, after_dispatch.
  rewrite bind_call. fold d.
  set (w1 := log_call d (log_call CCreateReplyDispatcherWithTyping w)).
  set (answer := o (trace (log_call CCreateReplyDispatcherWithTyping w)) d).
  destruct (deliver_all_runs config sw (isDirect pr) (senderId pr)
              (fst answer) o w1) as [w2 [mid [Hrun [Hmid Hp]]]].
  rewrite (bind_ok _ _ _ _ _ _ Hrun).
  unfold lift. rewrite bind_call.
  destruct (cleanup_media_runs mediaPath o (log_call CMarkDispatchIdle w2))
    as [w3 [Hclean Htr3]].
  rewrite Hclean.
  exists mid, w3. split; [reflexivity|]. split; [exact Hp|].
  cbv zeta. rewrite Htr3, trace_log_call, Hmid. subst w1.
  rewrite !trace_log_call.
  repeat (rewrite <- app_assoc; simpl app). reflexivity.
Qed.

(** ** The handler, phase by phase *)

Lemma extract_ok_not_nullish data content :
  extractMessageContent data = Ok content -> nullish data = false.
Proof.
  destruct data; try reflexivity; unfold extractMessageContent; simpl;
    discriminate.
Qed.

Lemma read_peer_event data :
  nullish data = false -> read_peer data = Ok (event_peer data).
Proof.
  intros H. unfold read_peer. rewrite !(get_oget data _ H). reflexivity.
Qed.

Lemma read_peer_total data :
  nullish data = false -> exists pr, read_peer data = Ok pr.
Proof.
  intros H. exists (event_peer data). exact (read_peer_event data H).
Qed.

Lemma handle_after_fetch (li : bool) (o : Oracle) w w1 cfg accountId data sw
      config content pr media :
  runtime w = true ->
  extractMessageContent data = Ok content ->
  truthy (text content) = true ->
  read_peer data = Ok pr ->
  fetch_media config content o w = (Ok media, w1) ->
  handleDingTalkMessage li cfg accountId data sw config o w
  = bind (route_and_record li cfg accountId data sw config content pr
            (option_map media_path media) (option_map media_mimeType media))
         (fun ctx => reply_cycle ctx cfg config sw pr
                                 (option_map media_path media)) o w1.
Proof.
  intros Hrt Hex Htext Hpeer Hfetch.
  unfold handleDingTalkMessage, getRuntime.
  rewrite bind_assoc, bind_read_world, Hrt, bind_ret, Hex, bind_lift_ok, Htext.
  change (negb true) with false. cbv iota.
  rewrite Hpeer, bind_lift_ok.
  rewrite (bind_ok _ _ _ _ _ _ Hfetch). reflexivity.
Qed.

Lemma fetch_media_downloads config content code (o : Oracle) w :
  mediaPath content = Some code ->
  truthy code = true ->
  truthy (oget config "robotCode") = true ->
  fetch_media config content o w = downloadMedia config code o w.
Proof.
  intros Hmp Hcode Hrc. unfold fetch_media. rewrite Hmp. simpl opt_val.
  rewrite Hcode.
  rewrite (get_oget config _ (truthy_prop_not_nullish _ _ Hrc)).
  rewrite bind_assoc, bind_lift_ok, bind_ret, Hrc. reflexivity.
Qed.

Lemma download_requests_app a b :
  download_requests (a ++ b) = (download_requests a + download_requests b)%nat.
Proof. unfold download_requests. rewrite filter_app, length_app. reflexivity. Qed.

Lemma download_requests_none (p : Call -> bool) tr :
  (forall c, p c = true -> is_download_request c = false) ->
  forallb p tr = true -> download_requests tr = 0%nat.
Proof.
  intros Hp. unfold download_requests.
  induction tr as [|c r IH]; simpl; [reflexivity|].
  intros H. apply andb_true_iff in H as [Hc Hr].
  rewrite (Hp c Hc). exact (IH Hr).
Qed.

Lemma token_call_no_download c :
  token_call c = true -> is_download_request c = false.
Proof. destruct c; simpl; intros H; first [discriminate H | reflexivity]. Qed.

Lemma after_media_call_no_download c :
  after_media_call c = true -> is_download_request c = false.
Proof. destruct c; simpl; intros H; first [discriminate H | reflexivity]. Qed.

Lemma after_media_call_no_transfer c :
  after_media_call c = true -> media_transfer_call c = false.
Proof. destruct c; simpl; intros H; first [discriminate H | reflexivity]. Qed.

Lemma emits_after_fetch li cfg accountId data sw config content pr mp mt :
  emits after_media_call
        (bind (route_and_record li cfg accountId data sw config content pr mp mt)
              (fun ctx => reply_cycle ctx cfg config sw pr mp)).
Proof.
  apply emits_bind; [apply emits_route_and_record|].
  intros ctx. apply emits_reply_cycle.
Qed.

Lemma downloadMedia_one_request config code (o : Oracle) w tok w0 :
  getAccessToken config o w = (Ok tok, w0) ->
  truthy (oget config "robotCode") = true ->
  exists tr,
    trace (snd (downloadMedia config code o w)) = trace w ++ tr
    /\ download_requests tr = 1%nat.
Proof.
  intros Htok Hrc.
  destruct (emits_getAccessToken config o w) as [tr0 [Ht0 Hp0]].
  rewrite Htok in Ht0. simpl in Ht0.
  pose proof (download_requests_none _ _ token_call_no_download Hp0) as Hn0.
  pose proof (downloadMedia_with_token config code o w tok w0
                (oget config "robotCode") Htok
                (get_oget config _ (truthy_prop_not_nullish _ _ Hrc))) as H.
  cbv zeta in H.
  set (rq := CPostDownload code (oget config "robotCode") tok) in *.
  destruct (o (trace w0) rq) as [data|e].
  - destruct (truthy (oget data "downloadUrl")).
    + destruct H as [media [tr [Hrun [Hn _]]]]. rewrite Hrun. simpl snd.
      exists (tr0 ++ rq :: CGetUrl (oget data "downloadUrl") :: tr).
      split.
      * simpl trace. rewrite Ht0. rewrite <- !app_assoc. reflexivity.
      * rewrite download_requests_app, Hn0.
        change (rq :: CGetUrl (oget data "downloadUrl") :: tr)
          with ([rq; CGetUrl (oget data "downloadUrl")] ++ tr).
        rewrite download_requests_app, Hn. reflexivity.
    + rewrite H. exists (tr0 ++ [rq]). split.
      * simpl. rewrite Ht0, <- app_assoc. reflexivity.
      * rewrite download_requests_app, Hn0. reflexivity.
  - rewrite H. exists (tr0 ++ [rq]). split.
    + simpl. rewrite Ht0, <- app_assoc. reflexivity.
    + rewrite download_requests_app, Hn0. reflexivity.
Qed.

Lemma forallb_impl (p q : Call -> bool) tr :
  (forall c, p c = true -> q c = true) ->
  forallb p tr = true -> forallb q tr = true.
Proof.
  intros Hpq H. apply forallb_forall. intros c Hin.
  apply Hpq. exact (proj1 (forallb_forall p tr) H c Hin).
Qed.

(** C7. [downloadMedia] never throws, and every failure yields [null]:
    a token error, a configuration without properties, a failed request to
    the download endpoint, an answer without [downloadUrl], a failed fetch
    of the file, a failed write of the temp file; it returns a media only
    when all of these succeed.  For an event with a media reference and a
    configured robot code the handler makes one run of [downloadMedia]
    (one request to the download endpoint when the token is available) and
    no media transfer afterwards; when the download yields [null], the host
    serves its requests and the names of the event can be written out
    (and, for a listening logger, the decoded text is a string), the
    envelope of the event is finalized without media fields and handed to
    the dispatch. *)
Theorem download_failure_is_not_fatal :
  (forall config code (o : Oracle) w,
      (exists media w', downloadMedia config code o w = (Ok media, w'))
      /\ (forall e w1,
             getAccessToken config o w = (Thrown e, w1) ->
             downloadMedia config code o w = (Ok None, w1))
      /\ (forall tok w1,
             getAccessToken config o w = (Ok tok, w1) ->
             match get config "robotCode" with
             | Thrown _ => downloadMedia config code o w = (Ok None, w1)
             | Ok rc =>
                 let request := CPostDownload code rc tok in
                 let w2 := log_call request w1 in
                 match o (trace w1) request with
                 | Thrown _ => downloadMedia config code o w = (Ok None, w2)
                 | Ok data =>
                     let url := oget data "downloadUrl" in
                     if truthy url then
                       let w3 := log_call (CGetUrl url) w2 in
                       match o (trace w2) (CGetUrl url) with
                       | Thrown _ =>
                           downloadMedia config code o w = (Ok None, w3)
                       | Ok resp =>
                           let contentType :=
                             content_type_or_default (content_type resp) in
                           let w4 := log_call CNow (log_call CTmpdir w3) in
                           let name :=
                             lit "dingtalk_"
                             ++ number_to_string
                                  (o (trace (log_call CTmpdir w3)) CNow)
                             ++ lit "." ++ extension_of contentType in
                           let join := CPathJoin (o (trace w3) CTmpdir) name in
                           let tempPath := o (trace w4) join in
                           let write :=
                             CWriteFile tempPath (media_data resp) in
                           let w5 := log_call join w4 in
                           match o (trace w5) write with
                           | Thrown _ =>
                               downloadMedia config code o w
                               = (Ok None, log_call write w5)
                           | Ok _ =>
                               downloadMedia config code o w
                               = (Ok (Some (mkMedia tempPath contentType)),
                                  log_call write w5)
                           end
                       end
                     else downloadMedia config code o w = (Ok None, w2)
                 end
             end))
  /\ (forall (li : bool) (o : Oracle) w cfg accountId data sw config content
             code,
         runtime w = true ->
         extractMessageContent data = Ok content ->
         truthy (text content) = true ->
         mediaPath content = Some code ->
         truthy code = true ->
         truthy (oget config "robotCode") = true ->
         let final :=
           snd (handleDingTalkMessage li cfg accountId data sw config o w) in
         exists media w1,
           downloadMedia config code o w = (Ok media, w1)
           /\ (exists tr,
                  trace final = trace w1 ++ tr
                  /\ forallb (fun c => negb (media_transfer_call c)) tr = true)
           /\ (forall tok w0,
                  getAccessToken config o w = (Ok tok, w0) ->
                  exists tr,
                    trace final = trace w ++ tr
                    /\ download_requests tr = 1%nat)
           /\ (media = None -> host_obliging o -> nullish cfg = false ->
               peer_printable (event_peer data) -> loggable li content ->
               exists pre env ctx mid handles post,
                 trace final
                 = trace w1 ++ pre ++ [CFinalizeInboundContext env] ++ mid
                   ++ [CCreateReplyDispatcherWithTyping;
                       CDispatchReplyFromConfig ctx cfg (fst handles)
                                                (snd handles)]
                   ++ post
                 /\ o (trace w1 ++ pre) (CFinalizeInboundContext env) = Ok ctx
                 /\ oget env "MediaPath" = JUndefined
                 /\ oget env "MediaType" = JUndefined
                 /\ oget env "MediaUrl" = JUndefined
                 /\ oget env "RawBody" = text content
                 /\ oget env "CommandBody" = text content
                 /\ oget env "AccountId" = accountId
                 /\ oget env "ChatType"
                    = JStr (lit (if is_str (oget data "conversationType")
                                          (lit "1")
                                 then "direct" else "group"))
                 /\ oget env "SenderId"
                    = jor (oget data "senderStaffId") (oget data "senderId")
                 /\ oget env "MessageSid" = oget data "msgId"
                 /\ oget env "Timestamp" = oget data "createAt"
                 /\ oget env "Provider" = JStr (lit "dingtalk"))).
Proof.
  split.
  - intros config code o w. split; [apply downloadMedia_never_throws|].
    split; [intros e w1; apply downloadMedia_token_error|].
    intros tok w1 Htok. exact (downloadMedia_run config code o w tok w1 Htok).
  - intros li o w cfg accountId data sw config content code
           Hrt Hex Htext Hmp Hcode Hrc final.
    pose proof (extract_ok_not_nullish _ _ Hex) as Hdata.
    pose proof (truthy_prop_not_nullish _ _ Hrc) as Hconfig.
    pose proof (read_peer_event data Hdata) as Hpeer.
    destruct (downloadMedia_never_throws config code o w) as [media [w1 Hdl]].
    assert (Hfetch : fetch_media config content o w = (Ok media, w1))
      by (rewrite (fetch_media_downloads config content code o w Hmp Hcode Hrc);
          exact Hdl).
    pose proof (handle_after_fetch li o w w1 cfg accountId data sw config
                  content (event_peer data) media Hrt Hex Htext Hpeer Hfetch)
      as Hrun.
    destruct (emits_after_fetch li cfg accountId data sw config content
                (event_peer data)
                (option_map media_path media) (option_map media_mimeType media)
                o w1) as [tr [Htr Hp]].
    rewrite <- Hrun in Htr. fold final in Htr.
    exists media, w1. split; [exact Hdl|]. split; [|split].
    + exists tr. split; [exact Htr|].
      apply (forallb_impl after_media_call); [|exact Hp].
      intros c Hc. rewrite (after_media_call_no_transfer c Hc). reflexivity.
    + intros tok w0 Htok.
      destruct (downloadMedia_one_request config code o w tok w0 Htok Hrc)
        as [trd [Htrd Hone]].
      rewrite Hdl in Htrd. simpl in Htrd.
      exists (trd ++ tr). split.
      * rewrite Htr, Htrd, app_assoc. reflexivity.
      * rewrite download_requests_app, Hone.
        rewrite (download_requests_none _ _ after_media_call_no_download Hp).
        reflexivity.
    + intros Hnone Hob Hcfg Hpr Hlog. subst media. simpl option_map in *.
      destruct (route_and_record_obliging li o w1 cfg accountId data sw config
                  content (event_peer data) None None
                  Hob Hcfg Hdata Hconfig Hpr Hlog)
        as [ctx [w2 [pre [env [post [Hrr [Htr2 [Hfin
             [body [sessionKey [fromLabel [to [Henv _]]]]]]]]]]]]].
      pose proof (Hob (trace w2) CCreateReplyDispatcherWithTyping) as Hcr.
      destruct (o (trace w2) CCreateReplyDispatcherWithTyping)
        as [handles|e] eqn:Ecreate; [|discriminate Hcr].
      destruct (reply_cycle_runs ctx cfg config sw (event_peer data) None
                  o w2 handles Ecreate)
        as [mid [w3 [Hrc3 [_ Htr3]]]].
      cbv zeta in Htr3. simpl cleanup_calls in Htr3.
      assert (Hfinal : final = w3).
      { unfold final. rewrite Hrun. rewrite (bind_ok _ _ _ _ _ _ Hrr), Hrc3.
        reflexivity. }
      exists pre, env, ctx, post, handles, (mid ++ [CMarkDispatchIdle]).
      split.
      { rewrite Hfinal, Htr3, Htr2.
        repeat (rewrite <- app_assoc; simpl app). reflexivity. }
      split; [exact Hfin|].
      rewrite Henv. repeat split.
Qed.

Lemma scripted_obliging (s : Scenario) :
  (exists v, sc_host s = Ok v /\ nullish v = false) ->
  host_obliging (scripted s).
Proof.
  intros [v [Hv Hn]] past c.
  destruct c; simpl; try reflexivity; rewrite Hv; simpl;
    try reflexivity; rewrite Hn; reflexivity.
Qed.

Lemma download_failure_is_not_fatal_witness :
  fst (downloadMedia sample_config (str "DC1") (scripted download_down)
                     fresh_world) = Ok None
  /\ fst (downloadMedia sample_config (str "DC1") (scripted fetch_down)
                        fresh_world) = Ok None
  /\ fst (downloadMedia sample_config (str "DC1") (scripted disk_full)
                        fresh_world) = Ok None
  /\ fst (downloadMedia sample_config (str "DC1") (scripted calm)
                        fresh_world)
     = Ok (Some (mkMedia (lit "/tmp/dingtalk_1000.png") (lit "image/png")))
  /\ let o := scripted download_down in
     let final :=
       snd (handleDingTalkMessage true (JObj []) (str "default")
              sample_picture_event sample_webhook sample_config o
              fresh_world) in
     exists w1 pre env ctx mid handles post,
       downloadMedia sample_config (str "DC1") o fresh_world = (Ok None, w1)
       /\ trace final
          = trace w1 ++ pre ++ [CFinalizeInboundContext env] ++ mid
            ++ [CCreateReplyDispatcherWithTyping;
                CDispatchReplyFromConfig ctx (JObj []) (fst handles)
                                         (snd handles)]
            ++ post
       /\ oget env "MediaPath" = JUndefined
       /\ oget env "RawBody" = JStr [0x5B; 0x56FE; 0x7247; 0x5D]%N
       /\ oget env "ChatType" = str "group"
       /\ oget env "SenderId" = str "u1".
Proof.
  pose (tok := lit "T1").
  pose (w1 := mkWorld [CNow; CPostAccessToken (str "id") (str "secret")]
                      (Some tok) 7201000 true).
  assert (Hrun : forall s,
             sc_now s = 1000 ->
             sc_token s = Ok (mkTokenResponse tok 7200) ->
             getAccessToken sample_config (scripted s) fresh_world
             = (Ok tok, w1)).
  { intros s Hnow Htok. unfold getAccessToken, bind, call, callR, scripted.
    simpl. rewrite Htok. simpl. rewrite Hnow. reflexivity. }
  split; [|split; [|split; [|]]].
  - exact (f_equal fst
             (proj2 (proj2 (proj1 download_failure_is_not_fatal
                              sample_config (str "DC1")
                              (scripted download_down) fresh_world))
                tok w1 (Hrun download_down eq_refl eq_refl))).
  - exact (f_equal fst
             (proj2 (proj2 (proj1 download_failure_is_not_fatal
                              sample_config (str "DC1")
                              (scripted fetch_down) fresh_world))
                tok w1 (Hrun fetch_down eq_refl eq_refl))).
  - exact (f_equal fst
             (proj2 (proj2 (proj1 download_failure_is_not_fatal
                              sample_config (str "DC1")
                              (scripted disk_full) fresh_world))
                tok w1 (Hrun disk_full eq_refl eq_refl))).
  - split.
    { exact (f_equal fst
               (proj2 (proj2 (proj1 download_failure_is_not_fatal
                                sample_config (str "DC1")
                                (scripted calm) fresh_world))
                  tok w1 (Hrun calm eq_refl eq_refl))). }
    intros o final.
    destruct (proj2 download_failure_is_not_fatal true o fresh_world (JObj [])
                (str "default") sample_picture_event sample_webhook
                sample_config
                (mkContent (JStr PLACEHOLDER_PICTURE) (Some (str "DC1"))
                           (Some (str "image")) (str "picture"))
                (str "DC1") eq_refl eq_refl eq_refl eq_refl eq_refl eq_refl)
      as [media [w1' [Hdl [_ [_ Henv]]]]].
    assert (Hnone : media = None).
    { assert (E : fst (downloadMedia sample_config (str "DC1") o fresh_world)
                  = Ok None) by reflexivity.
      rewrite Hdl in E. simpl in E. congruence. }
    subst media.
    assert (Hpp : peer_printable (event_peer sample_picture_event))
      by (repeat split; eexists; reflexivity).
    destruct (Henv eq_refl
                (scripted_obliging download_down
                   (ex_intro _ (JObj []) (conj eq_refl eq_refl)))
                eq_refl Hpp (fun _ => ex_intro _ _ eq_refl))
      as [pre [env [ctx [mid [handles [post
           [Htr [_ [Hmp [_ [_ [Hraw [_ [_ [Hchat [Hsender _]]]]]]]]]]]]]]]].
    exists w1', pre, env, ctx, mid, handles, post.
    split; [exact Hdl|]. split; [exact Htr|]. split; [exact Hmp|].
    split; [exact Hraw|]. split; [exact Hchat | exact Hsender].
Defined.

(** C9. When a temp media file was downloaded for an event and the
    reply dispatch is entered, then whether the dispatch returns or throws
    the dispatcher is marked idle and the file, if [existsSync] still finds
    it, is unlinked; the handler's outcome is the outcome of the dispatch,
    whatever the unlink answers. *)
Theorem handler_cleans_up_after_dispatch (li : bool) (o : Oracle)
        (w w1 w2 : World)
        (cfg accountId data sw config : JValue) (content : MessageContent)
        (pr : Peer) (media : Media) (ctx : JValue) (handles : JValue * JValue) :
  runtime w = true ->
  extractMessageContent data = Ok content ->
  truthy (text content) = true ->
  read_peer data = Ok pr ->
  fetch_media config content o w = (Ok (Some media), w1) ->
  media_path media <> [] ->
  route_and_record li cfg accountId data sw config content pr
                   (Some (media_path media)) (Some (media_mimeType media)) o w1
  = (Ok ctx, w2) ->
  o (trace w2) CCreateReplyDispatcherWithTyping = Ok handles ->
  let tempPath := media_path media in
  let d := CDispatchReplyFromConfig ctx cfg (fst handles) (snd handles) in
  let outcome := snd (o (trace w2 ++ [CCreateReplyDispatcherWithTyping]) d) in
  exists mid w',
    handleDingTalkMessage li cfg accountId data sw config o w = (outcome, w')
    /\ forallb send_call mid = true
    /\ let before := trace w2 ++ [CCreateReplyDispatcherWithTyping; d] ++ mid in
       trace w'
       = before ++ [CMarkDispatchIdle; CExistsSync tempPath]
         ++ (if (o (before ++ [CMarkDispatchIdle]) (CExistsSync tempPath) : bool)
             then [CUnlinkSync tempPath] else []).
Proof.
  intros Hrt Hex Htext Hpeer Hfetch Hpath Hrr Hcreate tempPath d outcome.
  rewrite (handle_after_fetch li o w w1 cfg accountId data sw config content
             pr (Some media) Hrt Hex Htext Hpeer Hfetch).
  simpl option_map. rewrite (bind_ok _ _ _ _ _ _ Hrr).
  destruct (reply_cycle_runs ctx cfg config sw pr (Some (media_path media))
              o w2 handles Hcreate) as [mid [w3 [Hrun [Hp Htr]]]].
  exists mid, w3. split; [exact Hrun|]. split; [exact Hp|].
  cbv zeta in *. rewrite Htr. unfold cleanup_calls. subst tempPath.
  destruct (media_path media) as [|c s]; [congruence|]. reflexivity.
Qed.

Lemma handler_cleans_up_after_dispatch_witness :
  exists w' before tempPath,
    handleDingTalkMessage true (JObj []) (str "default") sample_picture_event
                          sample_webhook sample_config
                          (scripted dispatch_throws) fresh_world
    = (Thrown (Error (lit "boom")), w')
    /\ trace w' = before ++ [CMarkDispatchIdle; CExistsSync tempPath;
                             CUnlinkSync tempPath].
Proof.
  edestruct (handler_cleans_up_after_dispatch
               true (scripted dispatch_throws) fresh_world)
    with (cfg := JObj []) (accountId := str "default")
         (data := sample_picture_event) (sw := sample_webhook)
         (config := sample_config)
    as [mid [w' [Hrun [_ Htr]]]].
  - reflexivity.
  - reflexivity.
  - reflexivity.
  - reflexivity.
  - reflexivity.
  - vm_compute. discriminate.
  - reflexivity.
  - reflexivity.
  - eexists. eexists. eexists. split; [exact Hrun | exact Htr].
Defined.

(** The [finally] block guards the dispatch only: when route resolution
    throws after the download, the handler throws and the temp file is
    neither looked up nor unlinked. *)
Example temp_file_kept_when_routing_throws :
  let run := handleDingTalkMessage true (JObj []) (str "default")
               sample_picture_event sample_webhook sample_config
               (scripted host_down) fresh_world in
  fst run = Thrown (Error (lit "no route"))
  /\ (exists p data, In (CWriteFile p data) (trace (snd run)))
  /\ forallb (fun c => match c with
                       | CExistsSync _ | CUnlinkSync _ | CMarkDispatchIdle => false
                       | _ => true
                       end) (trace (snd run)) = true.
Proof.
  split; [reflexivity|]. split; [|reflexivity].
  eexists. eexists. vm_compute. do 7 right. left. reflexivity.
Qed.

(* ================================================================== *)
(** * Properties of the stream listener *)
(* ================================================================== *)

(** C8 as stated fails: for a frame without a [messageId] whose body
    does not parse, handling throws and no acknowledgment is sent. *)
Lemma no_ack_without_messageId : ~ nack_always_sent.
Proof.
  intros H.
  specialize (H true (scripted malformed_json) fresh_world (JObj [])
                (str "default") sample_config anonymous_frame eq_refl).
  vm_compute in H. destruct H as [H|[]]. discriminate H.
Qed.

Lemma on_frame_runs li cfg accountId config res (o : Oracle) w :
  let run := handle_frame li cfg accountId config res o w in
  on_frame li cfg accountId config res o w
  = (Ok tt,
     if truthy (frame_messageId res)
     then log_call (CAck (frame_messageId res) (completed (fst run))) (snd run)
     else snd run).
Proof.
  cbv zeta. unfold on_frame, try_catch, bind, acknowledge, when.
  destruct (handle_frame li cfg accountId config res o w) as [[[]|e] w1];
    simpl; destruct (truthy (frame_messageId res)); try reflexivity;
    unfold call;
    match goal with
    | |- context [o ?tr (CAck ?m ?b)] => destruct (o tr (CAck m b))
    end; reflexivity.
Qed.

Lemma no_acks_in (tr : list Call) :
  forallb (fun c => negb (is_ack c)) tr = true -> filter is_ack tr = [].
Proof.
  induction tr as [|c r IH]; simpl; [reflexivity|].
  intros H. apply andb_true_iff in H as [Hc Hr].
  apply negb_true_iff in Hc. rewrite Hc. exact (IH Hr).
Qed.

Lemma on_frame_acks li cfg accountId config res (o : Oracle) w :
  exists w' tr,
    on_frame li cfg accountId config res o w = (Ok tt, w')
    /\ trace w' = trace w ++ tr
    /\ length (filter is_ack tr)
       = if truthy (frame_messageId res) then 1%nat else 0%nat.
Proof.
  rewrite on_frame_runs. cbv zeta.
  destruct (emits_handle_frame li cfg accountId config res o w) as [tr [Htr Hp]].
  pose proof (no_acks_in tr Hp) as Hno.
  destruct (truthy (frame_messageId res)).
  - eexists. exists (tr ++ [CAck (frame_messageId res)
                              (completed (fst (handle_frame li cfg accountId config
                                                            res o w)))]).
    split; [reflexivity|]. split.
    + rewrite trace_log_call, Htr, app_assoc. reflexivity.
    + rewrite filter_app, Hno. reflexivity.
  - eexists. exists tr. split; [reflexivity|]. split; [exact Htr|].
    rewrite Hno. reflexivity.
Qed.

Lemma on_frames_acks li cfg accountId config frames (o : Oracle) w :
  exists w' tr,
    on_frames li cfg accountId config frames o w = (Ok tt, w')
    /\ trace w' = trace w ++ tr
    /\ length (filter is_ack tr) = length (identified frames).
Proof.
  revert w. induction frames as [|res rest IH]; intros w; simpl.
  - exists w, []. repeat split. symmetry. apply app_nil_r.
  - destruct (on_frame_acks li cfg accountId config res o w)
      as [w1 [tr1 [Hrun1 [Htr1 Hn1]]]].
    destruct (IH w1) as [w2 [tr2 [Hrun2 [Htr2 Hn2]]]].
    exists w2, (tr1 ++ tr2).
    split; [rewrite (bind_ok _ _ _ _ _ _ Hrun1); exact Hrun2|].
    split; [rewrite Htr2, Htr1, app_assoc; reflexivity|].
    rewrite filter_app, length_app, Hn1, Hn2.
    unfold identified. simpl.
    destruct (truthy (frame_messageId res)); reflexivity.
Qed.

(** C8, amended.  For every frame that carries a [messageId], the
    callback returns normally and sends exactly one acknowledgment after
    the handling: negative when parsing or handling threw, positive when it
    completed.  For a frame without a [messageId] it returns normally and
    sends none.  Over any sequence of frames the listener returns normally
    and sends one acknowledgment per frame that carries a [messageId]. *)
Theorem on_frame_acknowledges (li : bool) (o : Oracle) (w : World)
        (cfg accountId config : JValue) (res : Frame) :
  let run := handle_frame li cfg accountId config res o w in
  (truthy (frame_messageId res) = true ->
   on_frame li cfg accountId config res o w
   = (Ok tt, log_call (CAck (frame_messageId res) (completed (fst run)))
                      (snd run)))
  /\ (truthy (frame_messageId res) = false ->
      on_frame li cfg accountId config res o w = (Ok tt, snd run))
  /\ (exists tr, trace (snd run) = trace w ++ tr /\ filter is_ack tr = [])
  /\ (forall frames,
         exists w' tr,
           on_frames li cfg accountId config frames o w = (Ok tt, w')
           /\ trace w' = trace w ++ tr
           /\ length (filter is_ack tr) = length (identified frames)).
Proof.
  intros run. split; [|split; [|split]].
  - intros H. rewrite on_frame_runs. cbv zeta. rewrite H. reflexivity.
  - intros H. rewrite on_frame_runs. cbv zeta. rewrite H. reflexivity.
  - destruct (emits_handle_frame li cfg accountId config res o w) as [tr [Htr Hp]].
    exists tr. split; [exact Htr | exact (no_acks_in tr Hp)].
  - intros frames. apply on_frames_acks.
Qed.

Lemma on_frame_acknowledges_witness :
  on_frame true (JObj []) (str "default") sample_config broken_frame
           (scripted malformed_json) fresh_world
  = (Ok tt, mkWorld [CJsonParse (lit "{oops"); CAck (str "m1") false]
                    None 0 true).
Proof.
  exact (proj1 (on_frame_acknowledges true (scripted malformed_json)
                  fresh_world
                  (JObj []) (str "default") sample_config broken_frame)
               eq_refl).
Defined.

(* ================================================================== *)
(** * Further properties of the token cache *)
(* ================================================================== *)

(** X1. After a successful refresh, every later call made while the clock
    is more than 60 seconds short of the expiry stored by that refresh
    returns the token of the refresh and makes no request, whatever
    configuration it is given: the cache is one slot for the whole
    process. *)
Theorem getAccessToken_reuses_refreshed_token (o : Oracle) (w : World)
        (fields : list (jstring * JValue)) (config' : JValue)
        (resp : TokenResponse) :
  token_truthy (accessToken w) = false
  \/ accessTokenExpiry w <= clock o w + 60000 ->
  refresh_answer o w (JObj fields) = Ok resp ->
  resp_accessToken resp <> [] ->
  let w1 := world_after (getAccessToken (JObj fields)) o w in
  clock o w1 + 60000 < clock o w + resp_expireIn resp * 1000 ->
  getAccessToken config' o w1 = (Ok (resp_accessToken resp), log_call CNow w1).
Proof.
  intros Hmiss Hans Hne w1 Hclock.
  assert (Hw1 : w1 = set_token (resp_accessToken resp)
                       (clock o w + resp_expireIn resp * 1000)
                       (log_call (refresh_request (JObj fields))
                                 (log_call CNow w))).
  { unfold w1, world_after. rewrite (getAccessToken_miss fields o w Hmiss).
    rewrite Hans. reflexivity. }
  apply getAccessToken_hit.
  - rewrite Hw1. reflexivity.
  - exact Hne.
  - rewrite Hw1 at 1. simpl accessTokenExpiry. lia.
Qed.

Lemma getAccessToken_reuses_refreshed_token_witness :
  getAccessToken JNull (scripted calm)
    (world_after (getAccessToken sample_config) (scripted calm) fresh_world)
  = (Ok (lit "T1"),
     log_call CNow
       (world_after (getAccessToken sample_config) (scripted calm) fresh_world)).
Proof.
  refine (getAccessToken_reuses_refreshed_token
            (scripted calm) fresh_world _ JNull
            (mkTokenResponse (lit "T1") 7200) _ eq_refl _ _).
  - left. reflexivity.
  - discriminate.
  - reflexivity.
Defined.

(* ================================================================== *)
(** * Further properties of the outbound senders *)
(* ================================================================== *)

Lemma sendTextMessage_run (o : Oracle) (w : World)
      (config sw : JValue) (t : jstring) (fields : list (jstring * JValue)) :
  match getAccessToken config o w with
  | (Thrown e, w1) =>
      sendTextMessage config sw t (JObj fields) o w = (Thrown e, w1)
  | (Ok tok, w1) =>
      exists body,
        sendTextMessage config sw t (JObj fields) o w
        = (o (trace w1) (CPostWebhook sw body tok),
           log_call (CPostWebhook sw body tok) w1)
        /\ body_kind body = JStr (lit "text")
        /\ oget (oget body "text") "content" = JStr t
        /\ oget body "at" = mention_of (oget (JObj fields) "atUserId")
  end.
Proof.
  destruct (getAccessToken config o w) as [[tok|e] w1] eqn:Htok.
  - unfold sendTextMessage. rewrite (bind_ok _ _ _ _ _ _ Htok).
    simpl default_options.
    change (get (JObj fields) "atUserId")
      with (Ok (oget (JObj fields) "atUserId")).
    rewrite bind_lift_ok. unfold mention_of.
    destruct (truthy (oget (JObj fields) "atUserId"));
      eexists; (split; [reflexivity|]); repeat split.
  - unfold sendTextMessage. apply (bind_thrown _ _ _ _ _ _ Htok).
Qed.

Lemma sendMarkdownMessage_outcome (o : Oracle) (w : World)
      (config sw title : JValue) (t : jstring)
      (fields : list (jstring * JValue)) :
  let atUserId := oget (JObj fields) "atUserId" in
  match getAccessToken config o w with
  | (Thrown e, w1) =>
      sendMarkdownMessage config sw title t (JObj fields) o w = (Thrown e, w1)
  | (Ok tok, w1) =>
      let posts text :=
        exists body,
          sendMarkdownMessage config sw title t (JObj fields) o w
          = (o (trace w1) (CPostWebhook sw body tok),
             log_call (CPostWebhook sw body tok) w1)
          /\ body_kind body = JStr (lit "markdown")
          /\ body_title body
             = (if truthy title then title else JStr FALLBACK_TITLE)
          /\ oget (oget body "markdown") "text" = JStr text
          /\ oget body "at" = mention_of atUserId in
      if truthy atUserId then
        match to_string atUserId with
        | Ok id => posts (t ++ lit " @" ++ id)
        | Thrown e =>
            sendMarkdownMessage config sw title t (JObj fields) o w
            = (Thrown e, w1)
        end
      else posts t
  end.
Proof.
  intros atUserId.
  destruct (getAccessToken config o w) as [[tok|e] w1] eqn:Htok.
  - rewrite (sendMarkdownMessage_run _ _ _ _ _ _ _ _ _ Htok). cbv zeta.
    fold atUserId. unfold mention_of.
    destruct (truthy atUserId).
    + destruct (to_string atUserId) as [id|e]; [|reflexivity].
      eexists; (split; [reflexivity|]); repeat split.
    + eexists; (split; [reflexivity|]); repeat split.
  - unfold sendMarkdownMessage. apply (bind_thrown _ _ _ _ _ _ Htok).
Qed.

(** X2. [sendTextMessage] posts nothing when the token cannot be
    obtained and rethrows.  With a token it makes one post to the session
    webhook, carrying that token, whose body is a ["text"] message with the
    given content unchanged and a mention block exactly when
    [options.atUserId] is truthy; it returns what the webhook answers. *)
Theorem sendTextMessage_wire_format (o : Oracle) (w : World)
        (config sw : JValue) (t : jstring) (fields : list (jstring * JValue)) :
  match getAccessToken config o w with
  | (Thrown e, w1) =>
      sendTextMessage config sw t (JObj fields) o w = (Thrown e, w1)
  | (Ok tok, w1) =>
      exists body,
        sendTextMessage config sw t (JObj fields) o w
        = (o (trace w1) (CPostWebhook sw body tok),
           log_call (CPostWebhook sw body tok) w1)
        /\ body_kind body = JStr (lit "text")
        /\ oget (oget body "text") "content" = JStr t
        /\ oget body "at" = mention_of (oget (JObj fields) "atUserId")
  end.
Proof. exact (sendTextMessage_run o w config sw t fields). Qed.

(** X3. [sendMarkdownMessage] posts nothing without a token.  With a
    token it posts one ["markdown"] message whose title is the given title,
    or [Clawdbot 消息] when that is falsy, and whose text is the markdown
    followed by [" @"] and the id written as a string exactly when
    [options.atUserId] is truthy, together with the mention block; when the
    id cannot be written as a string the call throws and nothing is
    posted. *)
Theorem sendMarkdownMessage_wire_format (o : Oracle) (w : World)
        (config sw title : JValue) (t : jstring)
        (fields : list (jstring * JValue)) :
  let atUserId := oget (JObj fields) "atUserId" in
  match getAccessToken config o w with
  | (Thrown e, w1) =>
      sendMarkdownMessage config sw title t (JObj fields) o w = (Thrown e, w1)
  | (Ok tok, w1) =>
      let posts text :=
        exists body,
          sendMarkdownMessage config sw title t (JObj fields) o w
          = (o (trace w1) (CPostWebhook sw body tok),
             log_call (CPostWebhook sw body tok) w1)
          /\ body_kind body = JStr (lit "markdown")
          /\ body_title body
             = (if truthy title then title else JStr FALLBACK_TITLE)
          /\ oget (oget body "markdown") "text" = JStr text
          /\ oget body "at" = mention_of atUserId in
      if truthy atUserId then
        match to_string atUserId with
        | Ok id => posts (t ++ lit " @" ++ id)
        | Thrown e =>
            sendMarkdownMessage config sw title t (JObj fields) o w
            = (Thrown e, w1)
        end
      else posts t
  end.
Proof. exact (sendMarkdownMessage_outcome o w config sw title t fields). Qed.

(** The text of a markdown message that mentions a user whose id is a
    string, a large number, or an object that cannot be written out. *)
Example sendMarkdownMessage_mentions :
  let send id :=
    sendMarkdownMessage sample_config sample_webhook JUndefined (lit "hi")
      (JObj [(lit "atUserId", id)]) (scripted calm) warm_world in
  let posted text id :=
    (Ok (JObj []),
     log_call
       (CPostWebhook sample_webhook
          (JObj [(lit "msgtype", str "markdown");
                 (lit "markdown",
                  JObj [(lit "title",
                         JStr (lit "Clawdbot " ++ [0x6D88; 0x606F]%N));
                        (lit "text", JStr text)]);
                 (lit "at",
                  JObj [(lit "atUserIds", JArr [id]);
                        (lit "isAtAll", JBool false)])])
          (lit "T0"))
       (log_call CNow warm_world)) in
  send (str "u1") = posted (lit "hi @u1") (str "u1")
  /\ send (JNum (10 ^ 21)) = posted (lit "hi @1e+21") (JNum (10 ^ 21))
  /\ send (JObj [(lit "toString", JNull)])
     = (Thrown TypeError, log_call CNow warm_world).
Proof. vm_compute. repeat split. Qed.

(* ================================================================== *)
(** * Further properties of the reply delivery *)
(* ================================================================== *)

Lemma sendMessage_run (o : Oracle) (w : World) (config sw : JValue)
      (t : jstring) (fields : list (jstring * JValue)) :
  let atUserId := oget (JObj fields) "atUserId" in
  let markdown := useMarkdown (oget (JObj fields) "useMarkdown") t in
  match getAccessToken config o w with
  | (Thrown e, w1) => sendMessage config sw t (JObj fields) o w = (Thrown e, w1)
  | (Ok tok, w1) =>
      match (if markdown && truthy atUserId then to_string atUserId
             else Ok []) with
      | Thrown e => sendMessage config sw t (JObj fields) o w = (Thrown e, w1)
      | Ok _ =>
          exists body,
            sendMessage config sw t (JObj fields) o w
            = (o (trace w1) (CPostWebhook sw body tok),
               log_call (CPostWebhook sw body tok) w1)
            /\ body_kind body
               = JStr (lit (if markdown then "markdown" else "text"))
            /\ oget body "at" = mention_of atUserId
      end
  end.
Proof.
  cbv zeta. rewrite sendMessage_decides.
  destruct (useMarkdown (oget (JObj fields) "useMarkdown") t).
  - pose proof (sendMarkdownMessage_outcome o w config sw
                  (markdown_title (oget (JObj fields) "title") t) t fields) as H.
    cbv zeta in H. rewrite andb_true_l.
    destruct (getAccessToken config o w) as [[tok|e] w1]; [|exact H].
    destruct (truthy (oget (JObj fields) "atUserId")).
    + destruct (to_string (oget (JObj fields) "atUserId")) as [id|e];
        [|exact H].
      destruct H as [body [Hrun [Hk [_ [_ Hat]]]]].
      exists body. repeat split; assumption.
    + destruct H as [body [Hrun [Hk [_ [_ Hat]]]]].
      exists body. repeat split; assumption.
  - pose proof (sendTextMessage_run o w config sw t fields) as H.
    rewrite andb_false_l.
    destruct (getAccessToken config o w) as [[tok|e] w1]; [|exact H].
    destruct H as [body [Hrun [Hk [_ Hat]]]].
    exists body. repeat split; assumption.
Qed.

Lemma deliver_nothing_to_send (o : Oracle) w config sw d sid payload :
  textToSend payload = None \/ textToSend payload = Some [] ->
  deliver config sw d sid payload o w = (Ok DeliverOk, w).
Proof.
  intros [H|H]; unfold deliver, try_catch; rewrite H; reflexivity.
Qed.

Lemma deliver_run (o : Oracle) w config sw d sid payload (t : jstring) :
  textToSend payload = Some t -> t <> [] ->
  match getAccessToken config o w with
  | (Thrown e, w1) =>
      deliver config sw d sid payload o w = (Ok (DeliverFailed e), w1)
  | (Ok tok, w1) =>
      match (if deliver_isMarkdown payload t && truthy (at_user d sid)
             then to_string (at_user d sid) else Ok []) with
      | Thrown e =>
          deliver config sw d sid payload o w = (Ok (DeliverFailed e), w1)
      | Ok _ =>
          exists body,
            deliver config sw d sid payload o w
            = (Ok (match o (trace w1) (CPostWebhook sw body tok) with
                   | Ok _ => DeliverOk
                   | Thrown e => DeliverFailed e
                   end),
               log_call (CPostWebhook sw body tok) w1)
            /\ body_kind body
               = JStr (lit (if deliver_isMarkdown payload t
                            then "markdown" else "text"))
            /\ oget body "at" = mention_of (at_user d sid)
      end
  end.
Proof.
  intros Ht Hne. destruct t as [|c s]; [congruence|].
  unfold deliver, try_catch. rewrite Ht. cbv zeta.
  set (fields := [(lit "atUserId", at_user d sid);
                  (lit "useMarkdown",
                   JBool (deliver_isMarkdown payload (c :: s)))]).
  pose proof (sendMessage_run o w config sw (c :: s) fields) as H.
  cbv zeta in H.
  change (oget (JObj fields) "atUserId") with (at_user d sid) in H.
  change (oget (JObj fields) "useMarkdown")
    with (JBool (deliver_isMarkdown payload (c :: s))) in H.
  assert (Hmd : useMarkdown (JBool (deliver_isMarkdown payload (c :: s)))
                            (c :: s)
                = deliver_isMarkdown payload (c :: s))
    by (destruct (deliver_isMarkdown payload (c :: s)); reflexivity).
  rewrite Hmd in H.
  unfold bind.
  destruct (getAccessToken config o w) as [[tok|e] w1].
  - destruct (if deliver_isMarkdown payload (c :: s) && truthy (at_user d sid)
              then to_string (at_user d sid) else Ok []) as [id|e].
    + destruct H as [body [Hrun [Hk Hat]]]. rewrite Hrun.
      exists body. split; [|split].
      * destruct (o (trace w1) (CPostWebhook sw body tok)); reflexivity.
      * exact Hk.
      * exact Hat.
    + rewrite H. reflexivity.
  - rewrite H. reflexivity.
Qed.

Lemma mentionable_string_form (b : bool) (v : JValue) :
  mentionable v ->
  exists id, (if b && truthy v then to_string v else Ok []) = Ok id.
Proof.
  intros H. destruct b; simpl; [|eexists; reflexivity].
  unfold mentionable in H.
  destruct (truthy v); [|eexists; reflexivity].
  destruct (H eq_refl) as [id Hid]. exists id. exact Hid.
Qed.

(** X4. The [deliver] callback never throws.  A payload with neither
    markdown nor text (or with empty ones) is acknowledged as delivered
    without any call; a failure to obtain the token or to post is returned
    as a failed delivery carrying the error, and a successful post as a
    delivered one.  A markdown reply that mentions a sender whose id cannot
    be written as a string is a failed delivery too, without a post. *)
Theorem deliver_reports_outcome (o : Oracle) (w : World)
        (config sw sid : JValue) (d : bool) (payload : Payload) :
  (exists r w', deliver config sw d sid payload o w = (Ok r, w'))
  /\ (textToSend payload = None \/ textToSend payload = Some [] ->
      deliver config sw d sid payload o w = (Ok DeliverOk, w))
  /\ (forall t, textToSend payload = Some t -> t <> [] ->
      match getAccessToken config o w with
      | (Thrown e, w1) =>
          deliver config sw d sid payload o w = (Ok (DeliverFailed e), w1)
      | (Ok tok, w1) =>
          (mentionable (at_user d sid) ->
           exists body,
             deliver config sw d sid payload o w
             = (Ok (match o (trace w1) (CPostWebhook sw body tok) with
                    | Ok _ => DeliverOk
                    | Thrown e => DeliverFailed e
                    end),
                log_call (CPostWebhook sw body tok) w1))
          /\ (forall e,
                 deliver_isMarkdown payload t = true ->
                 truthy (at_user d sid) = true ->
                 to_string (at_user d sid) = Thrown e ->
                 deliver config sw d sid payload o w
                 = (Ok (DeliverFailed e), w1))
      end).
Proof.
  split; [apply deliver_never_throws|].
  split; [apply deliver_nothing_to_send|].
  intros t Ht Hne.
  pose proof (deliver_run o w config sw d sid payload t Ht Hne) as H.
  destruct (getAccessToken config o w) as [[tok|e] w1]; [|exact H].
  split.
  - intros Hm.
    destruct (mentionable_string_form (deliver_isMarkdown payload t) _ Hm)
      as [id Hid].
    rewrite Hid in H. destruct H as [body [Hrun _]]. exists body. exact Hrun.
  - intros e Hmd Hat He. rewrite Hmd, Hat, He in H. exact H.
Qed.

Lemma deliver_reports_outcome_witness :
  deliver sample_config sample_webhook true (str "u1") (mkPayload None None)
          (scripted calm) fresh_world
  = (Ok DeliverOk, fresh_world)
  /\ deliver sample_config sample_webhook false
             (JObj [(lit "toString", JNull)])
             (mkPayload (Some (lit "report")) None)
             (scripted calm) warm_world
     = (Ok (DeliverFailed TypeError), log_call CNow warm_world).
Proof.
  split.
  - exact (proj1 (proj2 (deliver_reports_outcome (scripted calm) fresh_world
                           sample_config sample_webhook (str "u1") true
                           (mkPayload None None)))
                 (or_introl eq_refl)).
  - refine (proj2 (proj2 (proj2 (deliver_reports_outcome
                                   (scripted calm) warm_world
                                   sample_config sample_webhook
                                   (JObj [(lit "toString", JNull)]) false
                                   (mkPayload (Some (lit "report")) None)))
                     (lit "report") eq_refl _)
                  TypeError eq_refl eq_refl eq_refl).
    discriminate.
Defined.



(* ================================================================== *)
(** * Further properties of the message codec and the handler *)
(* ================================================================== *)

Lemma truthy_jor_r (a b : JValue) : truthy b = true -> truthy (jor a b) = true.
Proof. intros H. unfold jor. destruct (truthy a) eqn:E; assumption. Qed.

Lemma truthy_str_app_l (a : N) (s r : jstring) :
  truthy (JStr ((a :: s) ++ r)) = true.
Proof. reflexivity. Qed.

Lemma rbind_ok {A B} (r : Result A) (f : A -> Result B) (b : B) :
  rbind r f = Ok b -> exists a, r = Ok a /\ f a = Ok b.
Proof. destruct r as [a|e]; simpl; [eauto | discriminate]. Qed.

Lemma extract_text_nonempty data content :
  extractMessageContent data = Ok content ->
  is_str (jor (oget data "msgtype") (JStr (lit "text"))) (lit "text") = false ->
  truthy (text content) = true.
Proof.
  intros Hex Hnt. unfold extractMessageContent in Hex.
  apply rbind_ok in Hex as [raw [Hraw Hex]].
  assert (Hmt : raw = oget data "msgtype").
  { destruct data; try discriminate Hraw; inversion Hraw; reflexivity. }
  subst raw. rewrite Hnt in Hex.
  repeat match type of Hex with
         | (if ?b then _ else _) = _ => destruct b eqn:?
         | rbind _ _ = Ok _ =>
             let x := fresh "x" in
             let H := fresh "H" in
             apply rbind_ok in Hex as [x [H Hex]]
         end;
    inversion Hex; subst; simpl text;
    try reflexivity; try assumption; apply truthy_jor_r; reflexivity.
Qed.

Lemma fetch_media_never_throws config content (o : Oracle) w :
  nullish config = false ->
  exists media w1, fetch_media config content o w = (Ok media, w1).
Proof.
  intros Hc. unfold fetch_media.
  destruct (truthy (opt_val (mediaPath content))).
  - rewrite (get_oget config _ Hc), bind_assoc, bind_lift_ok, bind_ret.
    destruct (truthy (oget config "robotCode")).
    + apply downloadMedia_never_throws.
    + eexists; eexists; reflexivity.
  - rewrite bind_ret. eexists; eexists; reflexivity.
Qed.

Lemma bind_trace_grows (p : Call -> bool) {A B} (m : M A) (f : A -> M B)
      (o : Oracle) w :
  (forall a, emits p (f a)) ->
  exists tr, trace (snd (bind m f o w)) = trace (snd (m o w)) ++ tr.
Proof.
  intros Hf. unfold bind. destruct (m o w) as [[a|e] w1]; simpl.
  - destruct (Hf a o w1) as [tr [Htr _]]. exists tr. exact Htr.
  - exists []. symmetry. apply app_nil_r.
Qed.

Lemma route_and_record_first_call (li : bool) (o : Oracle) w cfg accountId data
      sw config content pr mp mt :
  exists arg tr,
    trace (snd (route_and_record li cfg accountId data sw config content pr mp
                                 mt o w))
    = trace w ++ CResolveAgentRoute arg :: tr
    /\ oget (oget arg "peer") "kind"
       = JStr (lit (if isDirect pr then "dm" else "group"))
    /\ oget (oget arg "peer") "id"
       = (if isDirect pr then senderId pr else groupId pr).
Proof.
  unfold route_and_record.
  match goal with
  | |- context [bind (callR (CResolveAgentRoute ?a) ?cast) ?f] =>
      set (arg := a); set (k := f)
  end.
  assert (Hk : forall a, emits after_media_call (k a)) by (subst k; emit).
  exists arg.
  rewrite bind_callR.
  destruct (o (trace w) (CResolveAgentRoute arg)) as [route|e].
  - destruct (Hk route o (log_call (CResolveAgentRoute arg) w)) as [tr [Htr _]].
    exists tr. split; [|split; reflexivity].
    rewrite Htr, trace_log_call, <- app_assoc. reflexivity.
  - exists []. split; [|split; reflexivity]. reflexivity.
Qed.

(** X6. Only text events can be ignored as empty.  For an event whose
    [msgtype] is present and is not ["text"], the decoded text is never
    empty, and the handler (with the runtime registered and a configuration
    object) always goes on to ask the host for a route. *)
Theorem non_text_event_reaches_routing (li : bool) (o : Oracle) (w : World)
        (cfg accountId data sw config : JValue) (content : MessageContent) :
  runtime w = true ->
  extractMessageContent data = Ok content ->
  is_str (jor (oget data "msgtype") (JStr (lit "text"))) (lit "text") = false ->
  nullish config = false ->
  truthy (text content) = true
  /\ exists arg,
       In (CResolveAgentRoute arg)
          (trace (world_after
                    (handleDingTalkMessage li cfg accountId data sw config)
                    o w)).
Proof.
  intros Hrt Hex Hnt Hc.
  pose proof (extract_text_nonempty data content Hex Hnt) as Htext.
  split; [exact Htext|].
  destruct (read_peer_total data (extract_ok_not_nullish _ _ Hex)) as [pr Hpeer].
  destruct (fetch_media_never_throws config content o w Hc)
    as [media [w1 Hfetch]].
  unfold world_after.
  rewrite (handle_after_fetch li o w w1 cfg accountId data sw config content pr
             media Hrt Hex Htext Hpeer Hfetch).
  destruct (bind_trace_grows after_media_call
              (route_and_record li cfg accountId data sw config content pr
                 (option_map media_path media)
                 (option_map media_mimeType media))
              (fun ctx => reply_cycle ctx cfg config sw pr
                                      (option_map media_path media))
              o w1 (fun ctx => emits_reply_cycle ctx cfg config sw pr _))
    as [tr2 Htr2].
  destruct (route_and_record_first_call li o w1 cfg accountId data sw config
              content pr (option_map media_path media)
              (option_map media_mimeType media)) as [arg [tr1 [Htr1 _]]].
  exists arg. rewrite Htr2, Htr1.
  apply in_or_app. left. apply in_or_app. right. left. reflexivity.
Qed.

Lemma non_text_event_reaches_routing_witness :
  exists arg,
    In (CResolveAgentRoute arg)
       (trace (world_after
                 (handleDingTalkMessage true (JObj []) (str "default")
                    sample_picture_event sample_webhook sample_config)
                 (scripted host_down) fresh_world)).
Proof.
  exact (proj2 (non_text_event_reaches_routing
                  true (scripted host_down) fresh_world (JObj [])
                  (str "default")
                  sample_picture_event sample_webhook sample_config
                  (mkContent (JStr PLACEHOLDER_PICTURE) (Some (str "DC1"))
                             (Some (str "image")) (str "picture"))
                  eq_refl eq_refl eq_refl eq_refl)).
Defined.

(** X7. How an inbound event is addressed.  With a host that serves its
    requests, a direct chat ([conversationType] ["1"]) is routed by the
    sender's id and its envelope has chat type ["direct"] and
    [From = To = "dingtalk:<sender>"]; any other chat is routed by the
    conversation id with chat type ["group"] and
    [From = To = "dingtalk:group:<conversation>"], the ids written as
    strings.  The sender is [senderStaffId] when present, else
    [senderId]. *)
Theorem handler_addresses_by_chat_kind (li : bool) (o : Oracle) (w : World)
        (cfg accountId data sw config : JValue) (content : MessageContent)
        (sender_id group_id : jstring) :
  runtime w = true ->
  extractMessageContent data = Ok content ->
  truthy (text content) = true ->
  host_obliging o ->
  nullish cfg = false -> nullish config = false ->
  peer_printable (event_peer data) -> loggable li content ->
  let direct := is_str (oget data "conversationType") (lit "1") in
  let sender := jor (oget data "senderStaffId") (oget data "senderId") in
  to_string sender = Ok sender_id ->
  to_string (oget data "conversationId") = Ok group_id ->
  let address :=
    JStr (if direct then lit "dingtalk:" ++ sender_id
          else lit "dingtalk:group:" ++ group_id) in
  let final :=
    world_after (handleDingTalkMessage li cfg accountId data sw config) o w in
  exists arg env,
    In (CResolveAgentRoute arg) (trace final)
    /\ In (CFinalizeInboundContext env) (trace final)
    /\ oget (oget arg "peer") "kind"
       = JStr (lit (if direct then "dm" else "group"))
    /\ oget (oget arg "peer") "id"
       = (if direct then sender else oget data "conversationId")
    /\ oget env "ChatType" = JStr (lit (if direct then "direct" else "group"))
    /\ oget env "From" = address
    /\ oget env "To" = address
    /\ oget env "OriginatingTo" = address
    /\ oget env "SenderId" = sender
    /\ oget env "RawBody" = text content.
Proof.
  intros Hrt Hex Htext Hob Hcfg Hconfig Hpr Hlog direct sender Hsid Hgid
         address final.
  pose proof (extract_ok_not_nullish _ _ Hex) as Hdata.
  pose proof (read_peer_event data Hdata) as Hpeer.
  set (pr := event_peer data) in *.
  destruct (fetch_media_never_throws config content o w Hconfig)
    as [media [w1 Hfetch]].
  pose proof (handle_after_fetch li o w w1 cfg accountId data sw config content
                pr media Hrt Hex Htext Hpeer Hfetch) as Hrun.
  set (mp := option_map media_path media) in *.
  set (mt := option_map media_mimeType media) in *.
  destruct (bind_trace_grows after_media_call
              (route_and_record li cfg accountId data sw config content pr mp mt)
              (fun ctx => reply_cycle ctx cfg config sw pr mp)
              o w1 (fun ctx => emits_reply_cycle ctx cfg config sw pr _))
    as [tr2 Htr2].
  rewrite <- Hrun in Htr2. fold (world_after
    (handleDingTalkMessage li cfg accountId data sw config) o w) in Htr2.
  fold final in Htr2.
  destruct (route_and_record_first_call li o w1 cfg accountId data sw config
              content pr mp mt) as [arg [tr1 [Htr1 [Hkind Hid]]]].
  destruct (route_and_record_obliging li o w1 cfg accountId data sw config
              content pr mp mt Hob Hcfg Hdata Hconfig Hpr Hlog)
    as [ctx [w2 [pre [env [post [Hrr [Htre [_
         [body [sessionKey [fromLabel [to [Henv [_ Hto]]]]]]]]]]]]]].
  assert (Haddr : JStr to = address).
  { unfold to_address in Hto. subst address.
    change (isDirect pr) with direct in Hto.
    change (senderId pr) with sender in Hto.
    change (groupId pr) with (oget data "conversationId") in Hto.
    destruct direct; [rewrite Hsid in Hto | rewrite Hgid in Hto];
      unfold rbind in Hto; injection Hto as <-; reflexivity. }
  exists arg, env.
  split; [|split].
  - rewrite Htr2, Htr1.
    apply in_or_app. left. apply in_or_app. right. left. reflexivity.
  - rewrite Htr2, Hrr. simpl snd. rewrite Htre.
    apply in_or_app. left. apply in_or_app. right.
    apply in_or_app. right. left. reflexivity.
  - split; [exact Hkind|]. split; [exact Hid|].
    rewrite Henv.
    change (oget (inbound_context _ _ _ _ _ _ _ _ _ _ _) "From")
      with (JStr to).
    change (oget (inbound_context _ _ _ _ _ _ _ _ _ _ _) "To")
      with (JStr to).
    change (oget (inbound_context _ _ _ _ _ _ _ _ _ _ _) "OriginatingTo")
      with (JStr to).
    rewrite Haddr.
    repeat split.
Qed.

Lemma handler_addresses_by_chat_kind_witness :
  let final :=
    world_after (handleDingTalkMessage true (JObj []) (str "default")
                   sample_direct_event sample_webhook sample_config)
                (scripted calm) fresh_world in
  exists arg env,
    In (CResolveAgentRoute arg) (trace final)
    /\ In (CFinalizeInboundContext env) (trace final)
    /\ oget (oget arg "peer") "id" = str "u1"
    /\ oget env "ChatType" = str "direct"
    /\ oget env "From" = str "dingtalk:u1"
    /\ oget env "To" = str "dingtalk:u1".
Proof.
  intros final.
  assert (Hpp : peer_printable (event_peer sample_direct_event))
    by (repeat split; eexists; reflexivity).
  destruct (handler_addresses_by_chat_kind
              true (scripted calm) fresh_world (JObj []) (str "default")
              sample_direct_event sample_webhook sample_config
              (mkContent (str "hello") None None (str "text"))
              (lit "u1") (lit "undefined")
              eq_refl eq_refl eq_refl
              (scripted_obliging calm
                 (ex_intro _ (JObj []) (conj eq_refl eq_refl)))
              eq_refl eq_refl Hpp (fun _ => ex_intro _ _ eq_refl)
              eq_refl eq_refl)
    as [arg [env [H1 [H2 [_ [H4 [H5 [H6 [H7 _]]]]]]]]].
  exists arg, env. repeat split; assumption.
Defined.

(** ** The thinking message *)

Lemma emits_bind_lift_ok (p : Call -> bool) {A B} (a : A) (f : A -> M B) :
  emits p (f a) -> emits p (bind (lift (Ok a)) f).
Proof. intros H o w. rewrite bind_lift_ok. apply H. Qed.

Lemma route_and_record_quiet li cfg accountId data sw config content pr mp mt :
  get config "showThinking" = Ok (JBool false) ->
  emits host_call
        (route_and_record li cfg accountId data sw config content pr mp mt).
Proof.
  intros Hget. unfold route_and_record. rewrite Hget.
  repeat first
    [ progress intros
    | apply emits_ret
    | apply emits_lift
    | apply emits_callR; reflexivity
    | apply emits_bind_lift_ok
    | apply emits_bind
    | apply emits_when
    | match goal with
      | |- emits _ (if ?b then _ else _) => destruct b
      end ].
Qed.

Lemma route_and_record_thinks (li : bool) (o : Oracle) w cfg accountId data sw
      config content pr mp mt tok :
  host_obliging o ->
  nullish cfg = false -> nullish data = false -> nullish config = false ->
  peer_printable pr -> loggable li content ->
  not_false (oget config "showThinking") = true ->
  accessToken w = Some tok -> tok <> [] ->
  (forall past, (o past CNow : Z) + 60000 < accessTokenExpiry w) ->
  exists ctx w' pre body,
    route_and_record li cfg accountId data sw config content pr mp mt o w
    = (Ok ctx, w')
    /\ trace w' = trace w ++ pre ++ [CNow; CPostWebhook sw body tok]
    /\ forallb host_call pre = true
    /\ oget (oget body "text") "content" = JStr THINKING_TEXT
    /\ oget body "at" = mention_of (at_user (isDirect pr) (senderId pr)).
Proof.
  intros Hob Hcfg Hdata Hconfig Hpr Hlog Hshow Htok Hne Hclock.
  destruct (route_and_record_steps li o w cfg accountId data sw config content
              pr mp mt Hob Hcfg Hdata Hconfig Hpr Hlog)
    as [ctx [w6 [pre [rec [body0 [sessionKey [fromLabel [to
         [Hrun [Htr [Hhost [Hat6 [Hae6 _]]]]]]]]]]]]].
  cbv zeta in *. rewrite Hshow in Hrun.
  set (op := [(lit "atUserId", at_user (isDirect pr) (senderId pr))]) in *.
  destruct (swallowed_never_throws
              (sendTextMessage config sw THINKING_TEXT (JObj op)) o w6)
    as [w7 [Hthink Hw7]].
  unfold when in Hrun.
  rewrite (bind_ok _ _ _ _ _ _ Hthink) in Hrun.
  pose proof (sendTextMessage_run o w6 config sw THINKING_TEXT op) as Hsend.
  assert (Hhit : getAccessToken config o w6 = (Ok tok, log_call CNow w6)).
  { apply getAccessToken_hit; [rewrite Hat6; exact Htok | exact Hne |].
    unfold clock. specialize (Hclock (trace w6)). rewrite Hae6. lia. }
  rewrite Hhit in Hsend. destruct Hsend as [pbody [Hrun' [_ [Hcontent Hat]]]].
  rewrite Hrun' in Hw7. simpl snd in Hw7.
  match type of Htr with
  | _ = _ ++ _ ++ [?f; _] => exists ctx, w7, (pre ++ [f; rec]), pbody
  end.
  split; [exact Hrun|].
  split.
  { rewrite Hw7, !trace_log_call, Htr. rewrite <- !app_assoc. reflexivity. }
  split.
  { rewrite forallb_app in Hhost |- *.
    apply andb_true_iff in Hhost as [Hh1 Hh2]. rewrite Hh1.
    simpl in Hh2 |- *. exact Hh2. }
  split; [exact Hcontent | exact Hat].
Qed.

(** X8. The thinking message.  With [showThinking] set to [false] the
    routing phase makes host calls only.  With any other value, a serving
    host, a valid cached token and names that can be written out (and,
    for a listening logger, a decoded text that is a string), the phase
    ends with one post of the thinking text to the session webhook
    (mentioning the sender in a group chat, nobody in a direct chat) and
    returns the context whatever the webhook answers. *)
Theorem thinking_message_is_optional_and_harmless (li : bool) (o : Oracle)
        (w : World)
        (cfg accountId data sw config : JValue) (content : MessageContent)
        (pr : Peer) (mp mt : option jstring) :
  let phase :=
    route_and_record li cfg accountId data sw config content pr mp mt in
  (oget config "showThinking" = JBool false ->
   exists tr,
     trace (world_after phase o w) = trace w ++ tr
     /\ forallb host_call tr = true)
  /\ (forall tok,
         host_obliging o ->
         nullish cfg = false -> nullish data = false -> nullish config = false ->
         peer_printable pr -> loggable li content ->
         not_false (oget config "showThinking") = true ->
         accessToken w = Some tok -> tok <> [] ->
         (forall past, (o past CNow : Z) + 60000 < accessTokenExpiry w) ->
         exists ctx w' pre body,
           phase o w = (Ok ctx, w')
           /\ trace w' = trace w ++ pre ++ [CNow; CPostWebhook sw body tok]
           /\ forallb host_call pre = true
           /\ oget (oget body "text") "content"
              = JStr [0xD83E; 0xDD14; 0x20; 0x6B63; 0x5728; 0x601D; 0x8003;
                      0x2E; 0x2E; 0x2E]%N
           /\ oget body "at"
              = (if isDirect pr then JUndefined else mention_of (senderId pr))).
Proof.
  intros phase. split.
  - intros Hshow.
    assert (Hget : get config "showThinking" = Ok (JBool false)).
    { destruct config; simpl in Hshow; try discriminate Hshow.
      simpl. rewrite Hshow. reflexivity. }
    exact (route_and_record_quiet li cfg accountId data sw config content pr
             mp mt Hget o w).
  - intros tok Hob Hcfg Hdata Hconfig Hpr Hlog Hshow Htok Hne Hclock.
    destruct (route_and_record_thinks li o w cfg accountId data sw config
                content pr mp mt tok Hob Hcfg Hdata Hconfig Hpr Hlog Hshow
                Htok Hne Hclock)
      as [ctx [w' [pre [body [Hrun [Htr [Hpre [Hc Hat]]]]]]]].
    exists ctx, w', pre, body. repeat split; try assumption.
    rewrite Hat. destruct (isDirect pr); reflexivity.
Qed.

Lemma thinking_message_is_optional_and_harmless_witness :
  (exists tr,
      trace (world_after
               (route_and_record true (JObj []) (str "default")
                  sample_picture_event
                  sample_webhook sample_quiet_config
                  (mkContent (JStr PLACEHOLDER_PICTURE) None None
                             (str "picture"))
                  sample_peer None None)
               (scripted calm) fresh_world)
      = trace fresh_world ++ tr
      /\ forallb host_call tr = true)
  /\ (exists ctx w' pre body,
        route_and_record true (JObj []) (str "default") sample_picture_event
          sample_webhook sample_config
          (mkContent (JStr PLACEHOLDER_PICTURE) None None (str "picture"))
          sample_peer None None (scripted calm) warm_world
        = (Ok ctx, w')
        /\ trace w'
           = pre ++ [CNow; CPostWebhook sample_webhook body (lit "T0")]
        /\ oget (oget body "text") "content"
           = JStr [0xD83E; 0xDD14; 0x20; 0x6B63; 0x5728; 0x601D; 0x8003;
                   0x2E; 0x2E; 0x2E]%N
        /\ oget body "at" = mention_of (str "u1")).
Proof.
  split.
  - exact (proj1 (thinking_message_is_optional_and_harmless
                    true (scripted calm) fresh_world (JObj []) (str "default")
                    sample_picture_event sample_webhook sample_quiet_config
                    (mkContent (JStr PLACEHOLDER_PICTURE) None None
                               (str "picture"))
                    sample_peer None None)
                 eq_refl).
  - assert (Hpp : peer_printable sample_peer)
      by (repeat split; eexists; reflexivity).
    destruct (proj2 (thinking_message_is_optional_and_harmless
                       true (scripted calm) warm_world (JObj [])
                       (str "default")
                       sample_picture_event sample_webhook sample_config
                       (mkContent (JStr PLACEHOLDER_PICTURE) None None
                                  (str "picture"))
                       sample_peer None None)
                (lit "T0")
                (scripted_obliging calm
                   (ex_intro _ (JObj []) (conj eq_refl eq_refl)))
                eq_refl eq_refl eq_refl Hpp
                (fun _ => ex_intro _ _ eq_refl)
                eq_refl eq_refl)
      as [ctx [w' [pre [body [Hrun [Htr [_ [Hc Hat]]]]]]]].
    + discriminate.
    + intros past. reflexivity.
    + exists ctx, w', pre, body.
      split; [exact Hrun|]. split; [exact Htr|].
      split; [exact Hc | exact Hat].
Defined.

(* ================================================================== *)
(** * Further properties of the media download *)
(* ================================================================== *)

Lemma split_on_piece_free (c : N) (s : jstring) (piece : jstring) :
  In piece (split_on c s) -> ~ In c piece.
Proof.
  revert piece. induction s as [|x r IH]; simpl; intros piece Hin.
  - destruct Hin as [<-|[]]. intros [].
  - destruct (N.eqb x c) eqn:E.
    + destruct Hin as [<-|Hin]; [intros [] | exact (IH piece Hin)].
    + apply N.eqb_neq in E.
      destruct (split_on c r) as [|h t] eqn:Es.
      * destruct Hin as [<-|[]]. intros [H|[]]. congruence.
      * destruct Hin as [<-|Hin].
        -- intros [H|H]; [congruence|].
           exact (IH h (or_introl eq_refl) H).
        -- exact (IH piece (or_intror Hin)).
Qed.

Lemma split_on_head_sub (c : N) (s : jstring) (x : N) :
  In x (hd [] (split_on c s)) -> In x s.
Proof.
  induction s as [|y r IH]; simpl; [tauto|].
  destruct (N.eqb y c); simpl; [tauto|].
  destruct (split_on c r) as [|h t]; simpl in *.
  - intros [H|[]]. left. exact H.
  - intros [H|H]; [left; exact H | right; exact (IH H)].
Qed.

Lemma hd_in_split_on (c : N) (s : jstring) :
  In (hd [] (split_on c s)) (split_on c s).
Proof.
  destruct (split_on c s) as [|h t] eqn:E.
  - exfalso. exact (split_on_nonempty _ _ E).
  - left. reflexivity.
Qed.

Lemma extension_of_safe (contentType : jstring) :
  extension_of contentType <> []
  /\ ~ In SLASH (extension_of contentType)
  /\ ~ In SEMICOLON (extension_of contentType).
Proof.
  unfold extension_of.
  destruct (nth_error (split_on 0x2F%N contentType) 1) as [sub|] eqn:En.
  - pose proof (split_on_piece_free _ _ _ (nth_error_In _ _ En)) as Hsub.
    destruct (hd [] (split_on 0x3B%N sub)) as [|c s] eqn:Eh.
    + repeat split; [discriminate | |]; vm_compute; intuition discriminate.
    + split; [discriminate|]. split.
      * intros Hin. apply Hsub. apply (split_on_head_sub 0x3B%N).
        rewrite Eh. exact Hin.
      * rewrite <- Eh. apply split_on_piece_free with (s := sub).
        apply hd_in_split_on.
  - repeat split; [discriminate | |]; vm_compute; intuition discriminate.
Qed.

Lemma uint_string_no_slash (d : Decimal.uint) :
  ~ In SLASH (lit (NilEmpty.string_of_uint d)).
Proof.
  induction d; simpl;
    [ intros [] | intros [H|H]; [discriminate H | exact (IHd H)] .. ].
Qed.

Lemma decimal_no_slash (z : Z) : ~ In SLASH (decimal z).
Proof.
  unfold decimal, NilZero.string_of_int, NilZero.string_of_uint.
  destruct (Z.to_int z) as [d|d].
  - destruct d; try apply uint_string_no_slash.
    simpl. intros [H|[]]. discriminate H.
  - change (lit (String "-" ?s)) with (0x2D%N :: lit s).
    intros [H|H]; [discriminate H|]. revert H.
    destruct d; try apply uint_string_no_slash.
    simpl. intros [H|[]]. discriminate H.
Qed.

Lemma render_decimal_no_slash (s : Z) (j : nat) :
  ~ In SLASH (render_decimal s j).
Proof.
  unfold render_decimal. cbv zeta.
  pose proof (decimal_no_slash s) as Hd.
  destruct (length (decimal s) + j <=? 21)%nat.
  - intros H. apply in_app_or in H as [H|H]; [exact (Hd H)|].
    apply repeat_spec in H. discriminate H.
  - destruct (decimal s) as [|d [|d' rest]].
    + intros [].
    + intros H. apply in_app_or in H as [H|H]; [exact (Hd H)|].
      apply in_app_or in H as [H|H];
        [vm_compute in H; intuition discriminate|].
      exact (decimal_no_slash _ H).
    + intros [H|[H|H]];
        [apply Hd; left; exact H | discriminate H |].
      apply in_app_or in H as [H|H]; [apply Hd; right; exact H|].
      apply in_app_or in H as [H|H];
        [vm_compute in H; intuition discriminate|].
      exact (decimal_no_slash _ H).
Qed.

Lemma number_to_string_no_slash (z : Z) : ~ In SLASH (number_to_string z).
Proof.
  unfold number_to_string.
  destruct (Z.abs z <? 2 ^ 53); [apply decimal_no_slash|].
  intros H. apply in_app_or in H as [H|H].
  - destruct (z <? 0); [vm_compute in H; intuition discriminate | exact H].
  - destruct (nearest_double (Z.abs z)) as [m|];
      [|vm_compute in H; intuition discriminate].
    destruct (shortest_decimal (Z.to_nat (Z.log2 m)) m) as [s j].
    exact (render_decimal_no_slash s j H).
Qed.

Lemma temp_name_no_slash (stamp : Z) (ext : jstring) :
  ~ In SLASH ext ->
  ~ In SLASH (lit "dingtalk_" ++ number_to_string stamp ++ lit "." ++ ext).
Proof.
  intros Hext Hin.
  apply in_app_or in Hin as [Hin|Hin];
    [vm_compute in Hin; intuition discriminate|].
  apply in_app_or in Hin as [Hin|Hin];
    [exact (number_to_string_no_slash _ Hin)|].
  apply in_app_or in Hin as [Hin|Hin];
    [vm_compute in Hin; intuition discriminate|].
  exact (Hext Hin).
Qed.

(** The extension of the temp file for some content types. *)
Example extension_of_examples :
  extension_of (lit "image/png") = lit "png"
  /\ extension_of (lit "text/html; charset=utf-8") = lit "html"
  /\ extension_of (lit "application/octet-stream") = lit "octet-stream"
  /\ extension_of (lit "audio/") = lit "bin"
  /\ extension_of (lit "unknown") = lit "bin".
Proof. vm_compute. repeat split. Qed.

(** X9. A non-null result of [downloadMedia] means the file has been
    fetched and written: the run ends with the fetch of the download URL,
    which answered [resp], and the write of the body of [resp], which
    succeeded, to the returned path.  That path is what [path.join]
    answered for what [os.tmpdir()] answered and the name
    [dingtalk_<ms>.<ext>], [<ms>] being what [Date.now()] answered, written
    as a string.  Whatever content type the server sends, the name contains
    no ['/'], and the returned mime type is the content type of [resp], or
    [application/octet-stream] when it has none or an empty one. *)
Theorem downloadMedia_writes_temp_file (o : Oracle) (w w' : World)
        (config code : JValue) (m : Media) :
  downloadMedia config code o w = (Ok (Some m), w') ->
  exists pre url resp,
    let fetched := pre ++ [CGetUrl url] in
    let tmp := o fetched CTmpdir in
    let stamp := o (fetched ++ [CTmpdir]) CNow in
    let name := lit "dingtalk_" ++ number_to_string stamp ++ lit "."
                ++ extension_of (media_mimeType m) in
    let join := CPathJoin tmp name in
    let write := CWriteFile (media_path m) (media_data resp) in
    trace w' = fetched ++ [CTmpdir; CNow; join; write]
    /\ o pre (CGetUrl url) = Ok resp
    /\ media_path m = o (fetched ++ [CTmpdir; CNow]) join
    /\ o (fetched ++ [CTmpdir; CNow; join]) write = Ok tt
    /\ ~ In SLASH name
    /\ media_mimeType m
       = match content_type resp with
         | Some (c :: s) => c :: s
         | _ => lit "application/octet-stream"
         end.
Proof.
  unfold downloadMedia, try_catch, bind at 1.
  destruct (getAccessToken config o w) as [[tok|e] w1]; [|discriminate].
  destruct (get config "robotCode") as [rc|e]; [|discriminate].
  rewrite bind_lift_ok, bind_callR.
  destruct (o (trace w1) (CPostDownload code rc tok)) as [data|e];
    [|discriminate].
  cbv zeta.
  destruct (truthy (oget data "downloadUrl")); [|discriminate].
  change (negb true) with false. cbv iota.
  rewrite bind_callR.
  match goal with
  | |- context [o ?tr (CGetUrl ?u)] =>
      destruct (o tr (CGetUrl u)) as [resp|e] eqn:Eget; [|discriminate]
  end.
  rewrite !bind_call, bind_callR.
  match goal with
  | |- context [o ?tr (CWriteFile ?p ?d)] =>
      destruct (o tr (CWriteFile p d)) as [[]|e] eqn:Ewrite; [|discriminate]
  end.
  unfold bind, ret. intros H. inversion H; subst; clear H.
  simpl media_path. simpl media_mimeType.
  exists (trace w1 ++ [CPostDownload code rc tok]),
         (oget data "downloadUrl"), resp.
  cbv zeta.
  rewrite !trace_log_call in *.
  repeat (rewrite <- app_assoc in Ewrite; simpl app in Ewrite).
  repeat (rewrite <- app_assoc; simpl app).
  split; [reflexivity|].
  split; [exact Eget|].
  split; [reflexivity|].
  split; [exact Ewrite|].
  split; [|reflexivity].
  apply temp_name_no_slash.
  exact (proj1 (proj2 (extension_of_safe _))).
Qed.

Lemma downloadMedia_writes_temp_file_witness :
  exists w' pre,
    downloadMedia sample_config (str "DC1") (scripted calm) fresh_world
    = (Ok (Some (mkMedia (lit "/tmp/dingtalk_1000.png") (lit "image/png"))), w')
    /\ trace w' = pre ++ [CGetUrl (str "https://media/1"); CTmpdir; CNow;
                          CPathJoin (lit "/tmp") (lit "dingtalk_1000.png");
                          CWriteFile (lit "/tmp/dingtalk_1000.png") []].
Proof.
  edestruct (downloadMedia_writes_temp_file (scripted calm) fresh_world)
    with (config := sample_config) (code := str "DC1")
    as [pre [url [resp [Htr [Hget _]]]]].
  - reflexivity.
  - exists (mkWorld
              [CNow; CPostAccessToken (str "id") (str "secret");
               CPostDownload (str "DC1") (str "robot") (lit "T1");
               CGetUrl (str "https://media/1"); CTmpdir; CNow;
               CPathJoin (lit "/tmp") (lit "dingtalk_1000.png");
               CWriteFile (lit "/tmp/dingtalk_1000.png") []]
              (Some (lit "T1")) 7201000 true),
           [CNow; CPostAccessToken (str "id") (str "secret");
            CPostDownload (str "DC1") (str "robot") (lit "T1")].
    split; reflexivity.
Defined.

(* ================================================================== *)
(** * Further properties of the media upload *)
(* ================================================================== *)

Lemma media_id_of_null_or_truthy (ld : bool) (data : JValue) :
  media_id_of ld data = JNull \/ truthy (media_id_of ld data) = true.
Proof.
  unfold media_id_of.
  destruct (oget data "errcode") as [| | |z| | |]; try (left; reflexivity).
  destruct z; try (left; reflexivity).
  destruct (truthy (oget data "media_id")) eqn:E; [|left; reflexivity].
  destruct (negb ld || writable (oget data "media_id"));
    [right; exact E | left; reflexivity].
Qed.

(** X10. [uploadMedia] never throws, whatever token accessor it is given
    (one that returns a token or throws an Error): its result is [null] or
    a truthy media id.  A failing token accessor gives [null] before the
    file is looked at, and a failing [stat] (file missing, access denied)
    gives [null] before any stream is opened or request made. *)
Theorem uploadMedia_never_throws (ld : bool) (o : Oracle) (w : World)
        (config : JValue)
        (mediaPath : jstring) (mediaType : MediaUtils.DingTalkMediaType)
        (getTok : JValue -> M jstring) :
  let run := MediaUtils.uploadMedia ld config mediaPath mediaType getTok o w in
  (exists r, fst run = Ok r /\ (r = JNull \/ truthy r = true))
  /\ (forall e w1, getTok config o w = (Thrown e, w1) -> run = (Ok JNull, w1))
  /\ (forall tok w1 e,
         getTok config o w = (Ok tok, w1) ->
         o (trace w1) (CStat mediaPath) = Thrown e ->
         run = (Ok JNull, log_call (CStat mediaPath) w1)).
Proof.
  intros run. subst run. rewrite uploadMedia_run.
  split; [|split].
  - destruct (getTok config o w) as [[tok|e] w1];
      [|exists JNull; split; [reflexivity | left; reflexivity]].
    cbv zeta.
    destruct (o (trace w1) (CStat mediaPath)) as [size|e];
      [|exists JNull; split; [reflexivity | left; reflexivity]].
    destruct (size >? MediaUtils.FILE_SIZE_LIMITS mediaType);
      [exists JNull; split; [reflexivity | left; reflexivity]|].
    simpl fst.
    match goal with
    | |- context [match ?a with Ok _ => _ | Thrown _ => _ end] =>
        destruct a as [data|e]
    end.
    + exists (media_id_of ld data). split; [reflexivity|].
      apply media_id_of_null_or_truthy.
    + exists JNull. split; [reflexivity | left; reflexivity].
  - intros e w1 H. rewrite H. reflexivity.
  - intros tok w1 e Htok Hstat. rewrite Htok. cbv zeta. rewrite Hstat.
    reflexivity.
Qed.

(** X11. Once a file has passed the size gate, [uploadMedia] posts it to
    the upload address built from the token and the media type, and
    returns the [media_id] of the answer only when the answer's [errcode]
    is the number [0] and its [media_id] is truthy (and, when a logger
    takes the debug line that announces it, can be written out as a
    string); any other answer, or a failed request, gives [null].  The
    stream is destroyed either way. *)
Theorem uploadMedia_result (ld : bool) (o : Oracle) (w w1 : World)
        (config : JValue)
        (mediaPath : jstring) (mediaType : MediaUtils.DingTalkMediaType)
        (getTok : JValue -> M jstring) (tok : jstring) (size : Z) :
  getTok config o w = (Ok tok, w1) ->
  o (trace w1) (CStat mediaPath) = Ok size ->
  size <= MediaUtils.FILE_SIZE_LIMITS mediaType ->
  exists filename w',
    let request :=
      CPostUpload (lit "https://oapi.dingtalk.com/media/upload?access_token="
                   ++ tok ++ lit "&type=" ++ MediaUtils.media_type_name mediaType)
                  filename in
    let before := trace w1 ++ [CStat mediaPath; CCreateReadStream mediaPath;
                               CBasename mediaPath] in
    MediaUtils.uploadMedia ld config mediaPath mediaType getTok o w
    = (Ok (match o before request with
           | Ok data =>
               match oget data "errcode" with
               | JNum 0 =>
                   if truthy (oget data "media_id")
                      && (negb ld
                          || match to_string (oget data "media_id") with
                             | Ok _ => true
                             | Thrown _ => false
                             end)
                   then oget data "media_id" else JNull
               | _ => JNull
               end
           | Thrown _ => JNull
           end), w')
    /\ trace w' = before ++ [request; CStreamDestroy].
Proof.
  intros Htok Hstat Hsize.
  rewrite uploadMedia_run, Htok. cbv zeta. rewrite Hstat.
  replace (size >? MediaUtils.FILE_SIZE_LIMITS mediaType) with false
    by (symmetry; destruct (size >? _) eqn:E;
        [apply Z.gtb_lt in E; lia | reflexivity]).
  eexists. eexists. split.
  - rewrite !trace_log_call.
    repeat (rewrite <- app_assoc; simpl app). reflexivity.
  - rewrite !trace_log_call.
    repeat (rewrite <- app_assoc; simpl app). reflexivity.
Qed.

Lemma uploadMedia_never_throws_witness :
  MediaUtils.uploadMedia true sample_config sample_voice_path MediaUtils.voice
                         getAccessToken (scripted token_down) fresh_world
  = (Ok JNull,
     log_call (refresh_request sample_config) (log_call CNow fresh_world)).
Proof.
  exact (proj1 (proj2 (uploadMedia_never_throws
                         true (scripted token_down) fresh_world sample_config
                         sample_voice_path MediaUtils.voice getAccessToken))
               (Error (lit "unauthorized")) _ eq_refl).
Defined.

Lemma uploadMedia_result_witness :
  exists filename w',
    MediaUtils.uploadMedia true sample_config sample_voice_path
                           MediaUtils.voice
                           getAccessToken (scripted upload_accepted) warm_world
    = (Ok (str "M1"), w')
    /\ trace w'
       = [CNow; CStat sample_voice_path; CCreateReadStream sample_voice_path;
          CBasename sample_voice_path;
          CPostUpload
            (lit "https://oapi.dingtalk.com/media/upload?access_token=T0&type=voice")
            filename;
          CStreamDestroy].
Proof.
  destruct (uploadMedia_result true (scripted upload_accepted) warm_world
              (log_call CNow warm_world) sample_config sample_voice_path
              MediaUtils.voice getAccessToken (lit "T0") 100 eq_refl eq_refl)
    as [filename [w' [Hrun Htr]]].
  - discriminate.
  - exists filename, w'. split; [exact Hrun | exact Htr].
Defined.

(** The debug line after a successful upload writes the media id out:
    with a logger that takes it, an id without a string form ends in the
    catch block and the upload returns [null]; without one the id is
    returned. *)
Example uploadMedia_unwritable_id :
  fst (MediaUtils.uploadMedia true sample_config sample_voice_path
         MediaUtils.voice getAccessToken (scripted upload_odd_id) warm_world)
  = Ok JNull
  /\ fst (MediaUtils.uploadMedia false sample_config sample_voice_path
            MediaUtils.voice getAccessToken (scripted upload_odd_id)
            warm_world)
     = Ok (obj [("toString", JNull)]%string).
Proof. split; reflexivity. Qed.

(* ================================================================== *)
(** * The handler and the plugin's registration *)
(* ================================================================== *)

Lemma handle_unregistered (li : bool) (o : Oracle) w cfg accountId data sw
      config :
  runtime w = false ->
  handleDingTalkMessage li cfg accountId data sw config o w
  = (Thrown NOT_INITIALIZED, w).
Proof.
  intros Hrt. unfold handleDingTalkMessage, getRuntime.
  rewrite bind_assoc, bind_read_world, Hrt. reflexivity.
Qed.

(** X12. While the module-level runtime is not set, the handler throws
    "DingTalk runtime not initialized" for every event without making a
    call, so the listener answers every frame that parses and carries a
    [messageId] with a negative acknowledgment. *)
Theorem handler_requires_registration (li : bool) (o : Oracle) (w : World)
        (cfg accountId config : JValue) :
  runtime w = false ->
  (forall data sw,
      handleDingTalkMessage li cfg accountId data sw config o w
      = (Thrown NOT_INITIALIZED, w))
  /\ (forall res data,
         o (trace w) (CJsonParse (frame_data res)) = Ok data ->
         nullish data = false ->
         truthy (frame_messageId res) = true ->
         on_frame li cfg accountId config res o w
         = (Ok tt,
            log_call (CAck (frame_messageId res) false)
                     (log_call (CJsonParse (frame_data res)) w))).
Proof.
  intros Hrt. split.
  - intros data sw. apply handle_unregistered. exact Hrt.
  - intros res data Hparse Hdata Hmid.
    assert (Hrun : handle_frame li cfg accountId config res o w
                   = (Thrown NOT_INITIALIZED,
                      log_call (CJsonParse (frame_data res)) w)).
    { unfold handle_frame. rewrite bind_callR, Hparse.
      rewrite (get_oget data _ Hdata), bind_lift_ok.
      apply handle_unregistered. exact Hrt. }
    rewrite on_frame_runs. cbv zeta. rewrite Hmid, Hrun. reflexivity.
Qed.

Lemma handler_requires_registration_witness :
  on_frame true (JObj []) (str "default") sample_config sample_frame
           (scripted calm) unregistered_world
  = (Ok tt,
     log_call (CAck (str "m7") false)
              (log_call (CJsonParse (lit "{}")) unregistered_world)).
Proof.
  exact (proj2 (handler_requires_registration
                  true (scripted calm) unregistered_world (JObj [])
                  (str "default") sample_config eq_refl)
               sample_frame (JObj []) eq_refl eq_refl eq_refl).
Defined.

(* ================================================================== *)
(** * Properties of the account configuration *)
(* ================================================================== *)

Lemma insert_index_perm i k l :
  Permutation ((i, k) :: l) (insert_index i k l).
Proof.
  induction l as [|[j k'] r IH]; simpl; [apply Permutation_refl|].
  destruct (i <=? j)%N; [apply Permutation_refl|].
  eapply Permutation_trans; [apply perm_swap|].
  apply perm_skip. exact IH.
Qed.

Lemma sort_indices_perm l : Permutation l (sort_indices l).
Proof.
  induction l as [|[i k] r IH]; simpl; [apply Permutation_refl|].
  eapply Permutation_trans; [|apply insert_index_perm].
  apply perm_skip. exact IH.
Qed.

Lemma index_partition_perm (ks : list jstring) :
  Permutation ks
    (map snd (flat_map (fun k => match array_index k with
                                 | Some i => [(i, k)]
                                 | None => []
                                 end) ks)
     ++ filter (fun k => match array_index k with
                         | Some _ => false
                         | None => true
                         end) ks).
Proof.
  induction ks as [|k r IH]; simpl; [apply Permutation_refl|].
  destruct (array_index k); simpl.
  - apply perm_skip. exact IH.
  - apply Permutation_cons_app. exact IH.
Qed.

Lemma ordered_names_perm (names : list jstring) :
  Permutation (distinct_names names) (ordered_names names).
Proof.
  unfold ordered_names.
  eapply Permutation_trans; [apply index_partition_perm|].
  apply Permutation_app_tail. apply Permutation_map. apply sort_indices_perm.
Qed.

Lemma distinct_names_spec (names : list jstring) :
  NoDup (distinct_names names)
  /\ forall k, In k (distinct_names names) <-> In k names.
Proof.
  unfold distinct_names. split.
  - apply NoDup_rev. apply NoDup_nodup.
  - intros k. rewrite <- in_rev, nodup_In, <- in_rev. tauto.
Qed.

Lemma ordered_names_spec (names : list jstring) :
  NoDup (ordered_names names)
  /\ forall k, In k (ordered_names names) <-> In k names.
Proof.
  destruct (distinct_names_spec names) as [Hnd Hin].
  pose proof (ordered_names_perm names) as Hp.
  split.
  - exact (Permutation_NoDup Hp Hnd).
  - intros k. rewrite <- Hin. split; intros H.
    + exact (Permutation_in k (Permutation_sym Hp) H).
    + exact (Permutation_in k Hp H).
Qed.

(** X13. In the single-account shape (no [accounts] property),
    [listAccountIds] lists ["default"] exactly when both credentials are
    set, and [resolveAccount] answers every id, known or not, with the
    default account built from the channel-level configuration, which
    [isConfigured] accepts exactly when the channel is configured. *)
Theorem single_account_shape (cfg : JValue) :
  nullish (accounts_of cfg) = true ->
  listAccountIds cfg = Ok (if isConfigured cfg then [lit "default"] else [])
  /\ (forall accountId,
         resolveAccount cfg accountId = Some (default_account cfg))
  /\ accountIsConfigured (default_account cfg) = isConfigured cfg.
Proof.
  unfold accounts_of. intros Hn.
  assert (Hf : truthy (oget (getConfig cfg) "accounts") = false)
    by (destruct (oget (getConfig cfg) "accounts"); try discriminate Hn;
        reflexivity).
  split; [|split].
  - unfold listAccountIds. rewrite Hf. reflexivity.
  - intros accountId. unfold resolveAccount.
    destruct (oget (getConfig cfg) "accounts"); try discriminate Hn;
      reflexivity.
  - reflexivity.
Qed.

Lemma single_account_shape_witness :
  listAccountIds sample_single_cfg = Ok [lit "default"]
  /\ resolveAccount sample_single_cfg (str "anything")
     = Some (default_account sample_single_cfg).
Proof.
  destruct (single_account_shape sample_single_cfg eq_refl) as [H1 [H2 _]].
  split; [exact H1 | exact (H2 (str "anything"))].
Defined.

Lemma has_own_spec fs k : has_own fs k = true <-> In k (map fst fs).
Proof.
  unfold has_own. rewrite existsb_exists, in_map_iff. split.
  - intros [[k' v] [Hin Heq]]. simpl in Heq. unfold jstring_eqb in Heq.
    destruct (list_eq_dec N.eq_dec k k'); [|discriminate].
    exists (k', v). split; [symmetry; assumption | assumption].
  - intros [[k' v] [Heq Hin]]. simpl in Heq. subst k'.
    exists (k, v). split; [assumption|]. simpl. unfold jstring_eqb.
    destruct (list_eq_dec N.eq_dec k k); [reflexivity | congruence].
Qed.

(** X14. With an [accounts] object, [listAccountIds] lists each account
    name once, whatever the channel-level credentials, and every listed
    name, if it is not empty and its entry is truthy, resolves to that
    entry under that name, enabled unless the entry says
    [enabled: false]. *)
Theorem named_accounts_resolve (cfg : JValue) (fs : list (jstring * JValue)) :
  accounts_of cfg = JObj fs ->
  exists ids,
    listAccountIds cfg = Ok ids
    /\ NoDup ids
    /\ (forall k, In k ids <-> In k (map fst fs))
    /\ (forall k,
           In k ids -> k <> [] -> truthy (lookup k fs) = true ->
           resolveAccount cfg (JStr k)
           = Some (mkAccount (JStr k) (lookup k fs)
                             (not_false (oget (lookup k fs) "enabled")))).
Proof.
  unfold accounts_of. intros Hacc.
  exists (ordered_names (map fst fs)).
  destruct (ordered_names_spec (map fst fs)) as [Hnd Hin].
  split; [|split; [exact Hnd | split; [exact Hin|]]].
  - unfold listAccountIds. rewrite Hacc. reflexivity.
  - intros k Hk Hne Ht. unfold resolveAccount. rewrite Hacc.
    assert (Hid : jor (JStr k) (JStr (lit "default")) = JStr k)
      by (destruct k; [congruence | reflexivity]).
    rewrite Hid.
    change (account_entry (JObj fs) (JStr k))
      with (oget_computed (JObj fs) k).
    unfold oget_computed.
    rewrite (proj2 (has_own_spec fs k) (proj1 (Hin k) Hk)), Ht.
    reflexivity.
Qed.

Lemma named_accounts_resolve_witness :
  exists ids,
    listAccountIds sample_multi_cfg = Ok ids
    /\ resolveAccount sample_multi_cfg (str "ops")
       = Some (mkAccount (str "ops")
                         (obj [("clientId", str "c");
                               ("enabled", JBool false)]%string)
                         false).
Proof.
  destruct (named_accounts_resolve sample_multi_cfg _ eq_refl)
    as [ids [Hl [_ [Hin Hres]]]].
  exists ids. split; [exact Hl|].
  refine (Hres (lit "ops") (proj2 (Hin (lit "ops")) _) _ eq_refl).
  - right. left. reflexivity.
  - discriminate.
Defined.

(** X15. [resolveAccount] never fails on an unknown account: an id that
    names no account (and no inherited property), or an account whose
    entry is falsy, is answered with the default account built from the
    channel-level configuration, under the id ["default"].  The name
    looked up is the id written as a string, ["default"] for a falsy
    id. *)
Theorem resolveAccount_falls_back (cfg accountId : JValue)
        (fs : list (jstring * JValue)) (name : jstring) :
  accounts_of cfg = JObj fs ->
  to_string (jor accountId (JStr (lit "default"))) = Ok name ->
  (has_own fs name = false ->
   existsb (jstring_eqb name) OBJECT_PROTOTYPE_NAMES = false ->
   resolveAccount cfg accountId = Some (default_account cfg))
  /\ (has_own fs name = true -> truthy (lookup name fs) = false ->
      resolveAccount cfg accountId = Some (default_account cfg)).
Proof.
  intros Hacc Hname. unfold accounts_of in Hacc. split.
  - intros Hown Hproto. unfold resolveAccount, account_entry.
    rewrite Hacc, Hname. simpl nullish. cbv iota.
    unfold oget_computed. rewrite Hown, Hproto. reflexivity.
  - intros Hown Hf. unfold resolveAccount, account_entry.
    rewrite Hacc, Hname. simpl nullish. cbv iota.
    unfold oget_computed. rewrite Hown, Hf. reflexivity.
Qed.

Lemma resolveAccount_falls_back_witness :
  resolveAccount sample_multi_cfg (str "gone")
  = Some (default_account sample_multi_cfg)
  /\ resolveAccount sample_multi_cfg (str "nobody")
     = Some (default_account sample_multi_cfg).
Proof.
  destruct (resolveAccount_falls_back sample_multi_cfg (str "gone") _
              (lit "gone") eq_refl eq_refl)
    as [_ H1].
  destruct (resolveAccount_falls_back sample_multi_cfg (str "nobody") _
              (lit "nobody") eq_refl eq_refl)
    as [H2 _].
  split; [exact (H1 eq_refl eq_refl) | exact (H2 eq_refl eq_refl)].
Defined.

(* ================================================================== *)
(** * Properties of the target normalization *)
(* ================================================================== *)

Lemma id_char_not_colon (c : N) :
  is_id_char c = true -> ascii_lower c <> COLON.
Proof.
  unfold is_id_char, ascii_lower, COLON. intros H.
  destruct ((65 <=? c) && (c <=? 90))%N eqn:E.
  - apply andb_true_iff in E as [E1 E2].
    apply N.leb_le in E1. apply N.leb_le in E2. lia.
  - rewrite !orb_true_iff, !andb_true_iff, !N.leb_le, !N.eqb_eq in H.
    intros Hc. subst c. lia.
Qed.

Lemma strip_literal_ci_needs_colon (literal s : jstring) :
  In COLON literal ->
  forallb is_id_char s = true ->
  strip_literal_ci literal s = None.
Proof.
  revert s. induction literal as [|l r IH]; intros s Hin Hs; [destruct Hin|].
  destruct s as [|c s']; [reflexivity|]. simpl in *.
  apply andb_true_iff in Hs as [Hc Hs'].
  destruct (ascii_lower c =? l)%N eqn:E; [|reflexivity].
  apply N.eqb_eq in E.
  destruct Hin as [Hl|Hin].
  - exfalso. apply (id_char_not_colon c Hc). congruence.
  - exact (IH s' Hin Hs').
Qed.

Lemma strip_channel_prefix_id (id : jstring) :
  forallb is_id_char id = true -> strip_channel_prefix id = id.
Proof.
  intros H. unfold strip_channel_prefix.
  rewrite !strip_literal_ci_needs_colon; try exact H; try reflexivity;
    vm_compute; tauto.
Qed.

Lemma strip_literal_ci_app (p q s : jstring) :
  strip_literal_ci (map ascii_lower p ++ q) (p ++ s) = strip_literal_ci q s.
Proof.
  induction p as [|c r IH]; simpl; [reflexivity|].
  rewrite N.eqb_refl. exact IH.
Qed.

Lemma strip_channel_prefix_known (prefix id : jstring) :
  In (map ascii_lower prefix) CHANNEL_PREFIXES ->
  strip_channel_prefix (prefix ++ COLON :: id) = id.
Proof.
  unfold strip_channel_prefix. intros [H|[H|[H|[]]]].
  - change (lit "dingtalk:") with (lit "dingtalk" ++ [COLON]).
    rewrite H, strip_literal_ci_app. reflexivity.
  - destruct prefix as [|c1 [|c2 [|c3 r]]]; try discriminate H.
    injection H as H1 H2.
    assert (Hfirst : strip_literal_ci (lit "dingtalk:")
                                      ([c1; c2] ++ COLON :: id) = None)
      by (simpl; rewrite <- H1, <- H2; reflexivity).
    assert (Hsecond : strip_literal_ci (lit "dd:")
                                       ([c1; c2] ++ COLON :: id) = Some id)
      by (simpl; rewrite <- H1, <- H2; reflexivity).
    rewrite Hfirst, Hsecond. reflexivity.
  - destruct prefix as [|c1 [|c2 [|c3 [|c4 [|c5 r]]]]]; try discriminate H.
    injection H as H1 H2 H3 H4.
    assert (Hfirst : strip_literal_ci (lit "dingtalk:")
                                      ([c1; c2; c3; c4] ++ COLON :: id) = None)
      by (simpl; rewrite <- H1, <- H2, <- H3, <- H4; reflexivity).
    assert (Hsecond : strip_literal_ci (lit "dd:")
                                       ([c1; c2; c3; c4] ++ COLON :: id) = None)
      by (simpl; rewrite <- H1, <- H2; reflexivity).
    assert (Hthird : strip_literal_ci (lit "ding:")
                                      ([c1; c2; c3; c4] ++ COLON :: id)
                     = Some id)
      by (simpl; rewrite <- H1, <- H2, <- H3, <- H4; reflexivity).
    rewrite Hfirst, Hsecond, Hthird. reflexivity.
Qed.

(** X16. An id that [looksLikeId] accepts is left unchanged by
    [normalizeTarget] and [normalizeEntry], and writing one of the channel
    prefixes [dingtalk:], [dd:], [ding:] in front of it, in any letter
    case, and normalizing gives the id back. *)
Theorem normalizeTarget_recovers_id (id : jstring) :
  looksLikeId id = true ->
  normalizeTarget id = Some id
  /\ normalizeEntry id = id
  /\ forall prefix,
       In (map ascii_lower prefix) CHANNEL_PREFIXES ->
       normalizeTarget (prefix ++ COLON :: id) = Some id
       /\ normalizeEntry (prefix ++ COLON :: id) = id.
Proof.
  intros Hid. destruct id as [|c s]; [discriminate Hid|].
  simpl looksLikeId in Hid.
  pose proof (strip_channel_prefix_id (c :: s) Hid) as Hfix.
  split; [unfold normalizeTarget; rewrite Hfix; reflexivity|].
  split; [exact Hfix|].
  intros prefix Hp.
  pose proof (strip_channel_prefix_known prefix (c :: s) Hp) as Hk.
  split; [|exact Hk].
  unfold normalizeTarget. rewrite Hk.
  destruct prefix; reflexivity.
Qed.

Lemma normalizeTarget_recovers_id_witness :
  normalizeTarget (lit "DingTalk:cid-42_x") = Some (lit "cid-42_x")
  /\ normalizeTarget (lit "cid-42_x") = Some (lit "cid-42_x").
Proof.
  destruct (normalizeTarget_recovers_id (lit "cid-42_x") eq_refl)
    as [H1 [_ H3]].
  split; [|exact H1].
  refine (proj1 (H3 (lit "DingTalk") _)). left. reflexivity.
Defined.

(* ================================================================== *)
(** * Properties of the status probe and of a missing configuration *)
(* ================================================================== *)

Lemma isConfigured_config_object cfg :
  isConfigured cfg = true -> nullish (getConfig cfg) = false.
Proof.
  unfold isConfigured. intros H. apply andb_true_iff in H as [H _].
  exact (truthy_prop_not_nullish _ _ H).
Qed.

Lemma probe_run (o : Oracle) w cfg :
  probe cfg o w
  = if isConfigured cfg
    then match getAccessToken (getConfig cfg) o w with
         | (Ok _, w1) => (Ok (ProbeOk (oget (getConfig cfg) "clientId")), w1)
         | (Thrown e, w1) => (Ok (ProbeFailed e), w1)
         end
    else (Ok ProbeNotConfigured, w).
Proof.
  unfold probe. destruct (isConfigured cfg) eqn:E; [|reflexivity].
  change (negb true) with false. cbv iota zeta.
  unfold try_catch, bind at 1.
  destruct (getAccessToken (getConfig cfg) o w) as [[tok|e] w1];
    [|reflexivity].
  rewrite (get_oget _ _ (isConfigured_config_object cfg E)). reflexivity.
Qed.

(** X17. [status.probe] never throws.  Without complete credentials it
    answers "not configured" and makes no call; otherwise it answers ok
    exactly when [getAccessToken] returns, and with the error when it
    throws.  With a valid cached token it answers ok after reading the
    clock alone: no request is made for the configuration it was given. *)
Theorem probe_reports_token_availability (o : Oracle) (w : World)
        (cfg : JValue) :
  (isConfigured cfg = false -> probe cfg o w = (Ok ProbeNotConfigured, w))
  /\ (isConfigured cfg = true ->
      match getAccessToken (getConfig cfg) o w with
      | (Ok _, w1) =>
          probe cfg o w = (Ok (ProbeOk (oget (getConfig cfg) "clientId")), w1)
      | (Thrown e, w1) => probe cfg o w = (Ok (ProbeFailed e), w1)
      end)
  /\ (forall tok,
         isConfigured cfg = true ->
         accessToken w = Some tok -> tok <> [] ->
         accessTokenExpiry w > clock o w + 60000 ->
         probe cfg o w
         = (Ok (ProbeOk (oget (getConfig cfg) "clientId")), log_call CNow w)).
Proof.
  split; [|split].
  - intros H. rewrite probe_run, H. reflexivity.
  - intros H. rewrite probe_run, H.
    destruct (getAccessToken (getConfig cfg) o w) as [[tok|e] w1]; reflexivity.
  - intros tok H Hc Hne Hexp. rewrite probe_run, H.
    rewrite (getAccessToken_hit (getConfig cfg) o w tok Hc Hne Hexp).
    reflexivity.
Qed.

Lemma probe_reports_token_availability_witness :
  probe sample_single_cfg (scripted token_down) warm_world
  = (Ok (ProbeOk (str "id")), log_call CNow warm_world).
Proof.
  refine (proj2 (proj2 (probe_reports_token_availability
                          (scripted token_down) warm_world sample_single_cfg))
                (lit "T0") eq_refl eq_refl _ eq_refl).
  discriminate.
Defined.

(** X18. A configuration without a [channels.dingtalk] entry (or no
    configuration at all) is never an error: the channel configuration is
    the empty object, no account is listed, nothing counts as configured,
    every id resolves to an enabled default account with open direct
    messages and no allow list, group chats require a mention, and the
    probe answers "not configured" without a call. *)
Theorem missing_configuration_defaults (o : Oracle) (w : World) (cfg : JValue) :
  truthy (oget (oget cfg "channels") "dingtalk") = false ->
  getConfig cfg = JObj []
  /\ isConfigured cfg = false
  /\ listAccountIds cfg = Ok []
  /\ (forall accountId,
         resolveAccount cfg accountId
         = Some (mkAccount (JStr (lit "default")) (JObj []) true))
  /\ resolveDmPolicy (mkAccount (JStr (lit "default")) (JObj []) true)
     = mkDmPolicy (JStr (lit "open")) (JArr [])
  /\ resolveRequireMention cfg = true
  /\ probe cfg o w = (Ok ProbeNotConfigured, w).
Proof.
  intros H.
  assert (Hc : getConfig cfg = JObj [])
    by (unfold getConfig, jor; rewrite H; reflexivity).
  split; [exact Hc|].
  assert (Hn : isConfigured cfg = false)
    by (unfold isConfigured; rewrite Hc; reflexivity).
  split; [exact Hn|].
  split; [unfold listAccountIds; rewrite Hn, Hc; reflexivity|].
  split; [intros accountId; unfold resolveAccount; rewrite Hc; reflexivity|].
  split; [reflexivity|].
  split; [unfold resolveRequireMention; rewrite Hc; reflexivity|].
  rewrite probe_run, Hn. reflexivity.
Qed.

Lemma missing_configuration_defaults_witness :
  listAccountIds JUndefined = Ok []
  /\ resolveRequireMention JUndefined = true.
Proof.
  destruct (missing_configuration_defaults (scripted calm) fresh_world
              JUndefined eq_refl) as [_ [_ [H1 [_ [_ [H2 _]]]]]].
  split; [exact H1 | exact H2].
Defined.

(** X19. The two gateway methods never throw and leave the module as the
    probe does.  ['dingtalk.status'] always responds with success, whatever
    the probe found; ['dingtalk.probe'] responds with success exactly when
    the probe obtained a token. *)
Theorem gateway_methods_respond (o : Oracle) (w : World) (cfg : JValue) :
  exists result w',
    probe cfg o w = (Ok result, w')
    /\ status_method cfg o w = (Ok (true, result), w')
    /\ probe_method cfg o w = (Ok (probe_ok result, result), w')
    /\ (probe_ok result = true <->
        isConfigured cfg = true
        /\ exists tok, getAccessToken (getConfig cfg) o w = (Ok tok, w')).
Proof.
  unfold status_method, probe_method, bind, ret. rewrite probe_run.
  destruct (isConfigured cfg).
  - destruct (getAccessToken (getConfig cfg) o w) as [[tok|e] w1].
    + eexists _, _. repeat split; eauto.
    + eexists _, _. repeat split; try discriminate.
      intros [_ [tok H]]. discriminate H.
  - eexists _, _. repeat split; try discriminate.
    intros [H _]. discriminate H.
Qed.

Lemma gateway_methods_respond_witness :
  status_method sample_single_cfg (scripted token_down) fresh_world
  = (Ok (true, ProbeFailed (Error (lit "unauthorized"))),
     log_call (CPostAccessToken (str "id") (str "secret"))
              (log_call CNow fresh_world)).
Proof.
  destruct (gateway_methods_respond (scripted token_down) fresh_world
                                    sample_single_cfg)
    as (result & w' & Hp & Hs & _).
  rewrite Hs. vm_compute in Hp. inversion Hp. reflexivity.
Defined.

(* ================================================================== *)
(** * Properties of the gateway *)
(* ================================================================== *)

Lemma startAccount_run (env : Gateway.Env) (account cfg abortSignal : JValue)
      (st : Gateway.State) (o : Oracle) (w : World) :
  nullish account = false ->
  nullish (oget account "config") = false ->
  let config := oget account "config" in
  Gateway.startAccount env account cfg abortSignal st o w
  = if negb (truthy (oget config "clientId"))
       || negb (truthy (oget config "clientSecret"))
    then ((Thrown CREDENTIALS_REQUIRED, st), w)
    else
      match Gateway.env_connect env with
      | Thrown e => ((Thrown e, add_steps (opening account cfg) st), w)
      | Ok _ =>
          if runtime w then
            match Gateway.env_record env (oget account "accountId")
                                     (lit "start") with
            | Thrown e =>
                ((Thrown e,
                  add_steps (opening account cfg
                             ++ [record_of account "start"]) st), w)
            | Ok _ =>
                ((Ok tt,
                  Gateway.mkState
                    (Gateway.steps st ++ opening account cfg
                     ++ [record_of account "start"]
                     ++ (if truthy abortSignal
                         then [Gateway.AddAbortListener] else []))
                    false
                    (if truthy abortSignal then true
                     else Gateway.listening st)), w)
            end
          else ((Thrown NOT_INITIALIZED, add_steps (opening account cfg) st),
                w)
      end.
Proof.
  intros Ha Hc config. subst config. unfold Gateway.startAccount.
  cbv [MediaUtils.lbind MediaUtils.keep lift].
  rewrite (get_oget _ _ Ha), (get_oget _ _ Hc).
  destruct (negb (truthy (oget (oget account "config") "clientId"))
            || negb (truthy (oget (oget account "config") "clientSecret")));
    [reflexivity|].
  cbv [Gateway.step Gateway.record_activity Gateway.set_stopped
       Gateway.set_listening MediaUtils.lbind MediaUtils.keep
       MediaUtils.read_local MediaUtils.assign MediaUtils.lret lift
       getRuntime bind read_world ret throw add_steps opening record_of
       Gateway.steps Gateway.stopped Gateway.listening].
  destruct (Gateway.env_connect env) as [[]|e].
  - destruct (runtime w).
    + destruct (Gateway.env_record env (oget account "accountId")
                                   (lit "start")) as [[]|e].
      * destruct (truthy abortSignal); destruct st; simpl;
          rewrite <- ?app_assoc; reflexivity.
      * destruct st; simpl; rewrite <- ?app_assoc; reflexivity.
    + destruct st; simpl; rewrite <- ?app_assoc; reflexivity.
  - destruct st; simpl; rewrite <- ?app_assoc; reflexivity.
Qed.

(** X20. [startAccount] asks for both credentials before it does anything:
    for an account that [config.isConfigured] rejects it throws
    'DingTalk clientId and clientSecret are required' with no client
    created and no step made, and for one it accepts the client is
    created, given its listener and asked to connect.  [describeAccount]
    looks at [clientId] alone, so an account without a secret is described
    as configured and still cannot be started.  An account whose [config]
    is missing is a TypeError. *)
Theorem startAccount_requires_credentials
        (env : Gateway.Env) (a : Account) (cfg abortSignal : JValue)
        (st : Gateway.State) (o : Oracle) (w : World) :
  let run := Gateway.startAccount env (account_value a) cfg abortSignal
                                  st o w in
  (nullish (account_config a) = true -> run = ((Thrown TypeError, st), w))
  /\ (nullish (account_config a) = false ->
      accountIsConfigured a = false ->
      run = ((Thrown CREDENTIALS_REQUIRED, st), w))
  /\ (accountIsConfigured a = true ->
      described_configured (describeAccount a) = true
      /\ exists more,
          Gateway.steps (state_after run)
          = Gateway.steps st ++ opening (account_value a) cfg ++ more)
  /\ (truthy (oget (account_config a) "clientId") = true ->
      truthy (oget (account_config a) "clientSecret") = false ->
      described_configured (describeAccount a) = true
      /\ run = ((Thrown CREDENTIALS_REQUIRED, st), w)).
Proof.
  intros run.
  assert (Hrun : nullish (account_config a) = false ->
                 run = if negb (truthy (oget (account_config a) "clientId"))
                          || negb (truthy (oget (account_config a)
                                                "clientSecret"))
                       then ((Thrown CREDENTIALS_REQUIRED, st), w)
                       else
                         match Gateway.env_connect env with
                         | Thrown e =>
                             ((Thrown e,
                               add_steps (opening (account_value a) cfg) st),
                              w)
                         | Ok _ =>
                             if runtime w then
                               match Gateway.env_record env (account_id a)
                                                        (lit "start") with
                               | Thrown e =>
                                   ((Thrown e,
                                     add_steps
                                       (opening (account_value a) cfg
                                        ++ [record_of (account_value a)
                                                      "start"]) st), w)
                               | Ok _ =>
                                   ((Ok tt,
                                     Gateway.mkState
                                       (Gateway.steps st
                                        ++ opening (account_value a) cfg
                                        ++ [record_of (account_value a)
                                                      "start"]
                                        ++ (if truthy abortSignal
                                            then [Gateway.AddAbortListener]
                                            else []))
                                       false
                                       (if truthy abortSignal then true
                                        else Gateway.listening st)), w)
                               end
                             else
                               ((Thrown NOT_INITIALIZED,
                                 add_steps (opening (account_value a) cfg) st),
                                w)
                         end)
    by (intros Hc; subst run;
        exact (startAccount_run env (account_value a) cfg abortSignal st o w
                                eq_refl Hc)).
  split; [|split; [|split]].
  - intros Hn. subst run. unfold Gateway.startAccount.
    cbv [MediaUtils.lbind MediaUtils.keep lift].
    change (get (account_value a) "config") with (Ok (account_config a)).
    cbv iota beta.
    destruct (account_config a); try discriminate Hn; reflexivity.
  - intros Hc Hno. rewrite (Hrun Hc). unfold accountIsConfigured in Hno.
    rewrite <- negb_andb, Hno. reflexivity.
  - intros Hyes.
    assert (Hid : truthy (oget (account_config a) "clientId") = true)
      by (unfold accountIsConfigured in Hyes;
          apply andb_true_iff in Hyes as [H _]; exact H).
    split; [exact Hid|].
    assert (Hc : nullish (account_config a) = false)
      by (destruct (account_config a); try discriminate Hid; reflexivity).
    rewrite (Hrun Hc). unfold accountIsConfigured in Hyes.
    rewrite <- negb_andb, Hyes. change (negb true) with false. cbv iota.
    destruct (Gateway.env_connect env) as [[]|e].
    + destruct (runtime w).
      * destruct (Gateway.env_record env _ _) as [[]|e];
          eexists; unfold state_after, add_steps;
          cbn [fst snd Gateway.steps]; reflexivity.
      * exists []. unfold state_after, add_steps.
        cbn [fst snd Gateway.steps]. rewrite app_nil_r. reflexivity.
    + exists []. unfold state_after, add_steps.
      cbn [fst snd Gateway.steps]. rewrite app_nil_r. reflexivity.
  - intros Hid Hsec. split; [exact Hid|].
    assert (Hc : nullish (account_config a) = false)
      by (destruct (account_config a); try discriminate Hid; reflexivity).
    rewrite (Hrun Hc), Hid, Hsec. reflexivity.
Qed.

Lemma startAccount_requires_credentials_witness :
  described_configured (describeAccount sample_half_account) = true
  /\ Gateway.startAccount friendly (account_value sample_half_account)
                          JNull JUndefined not_started
                          (scripted calm) fresh_world
     = ((Thrown CREDENTIALS_REQUIRED, not_started), fresh_world).
Proof.
  exact (proj2 (proj2 (proj2
           (startAccount_requires_credentials
              friendly sample_half_account JNull JUndefined not_started
              (scripted calm) fresh_world)))
           eq_refl eq_refl).
Defined.

Lemma startAccount_ok_inv (env : Gateway.Env)
      (account cfg abortSignal : JValue) (st st1 : Gateway.State)
      (o : Oracle) (w w1 : World) :
  Gateway.startAccount env account cfg abortSignal st o w
  = ((Ok tt, st1), w1) ->
  nullish account = false
  /\ truthy (oget (oget account "config") "clientId") = true
  /\ truthy (oget (oget account "config") "clientSecret") = true
  /\ Gateway.env_connect env = Ok tt
  /\ runtime w = true
  /\ Gateway.env_record env (oget account "accountId") (lit "start") = Ok tt
  /\ st1 = started account cfg abortSignal st
  /\ w1 = w.
Proof.
  intros H.
  assert (Ha : nullish account = false).
  { destruct account; try reflexivity;
      cbv [Gateway.startAccount MediaUtils.lbind MediaUtils.keep lift get]
        in H; discriminate H. }
  assert (Hc : nullish (oget account "config") = false).
  { destruct (nullish (oget account "config")) eqn:E; [|reflexivity].
    unfold Gateway.startAccount in H.
    cbv [MediaUtils.lbind MediaUtils.keep lift] in H.
    rewrite (get_oget _ _ Ha) in H.
    destruct (oget account "config"); try discriminate E;
      cbv [get] in H; discriminate H. }
  rewrite (startAccount_run env account cfg abortSignal st o w Ha Hc) in H.
  cbv zeta in H.
  destruct (truthy (oget (oget account "config") "clientId"));
    [|discriminate H].
  destruct (truthy (oget (oget account "config") "clientSecret"));
    [|discriminate H].
  cbn [negb orb] in H.
  destruct (Gateway.env_connect env) as [[]|e]; [|discriminate H].
  destruct (runtime w); [|discriminate H].
  destruct (Gateway.env_record env (oget account "accountId") (lit "start"))
    as [[]|e]; [|discriminate H].
  inversion H; subst. tauto.
Qed.

(** X21. [startAccount] returns its handle only after every step went
    well: both credentials are present, the client was created, given its
    listener (before connecting) and connected, the plugin is registered,
    and 'start' was recorded; the abort listener is added last, and only
    for a truthy [abortSignal].  When the connection fails, or the plugin
    is not registered, the exception leaves the created client behind with
    nothing recorded and no handle.  Module state is the same afterwards in
    each of these cases. *)
Theorem startAccount_returns_after_start_recorded
        (env : Gateway.Env) (account cfg abortSignal : JValue)
        (st : Gateway.State) (o : Oracle) (w : World) :
  let run := Gateway.startAccount env account cfg abortSignal st o w in
  (forall st1 w1,
      run = ((Ok tt, st1), w1) <->
      nullish account = false
      /\ truthy (oget (oget account "config") "clientId") = true
      /\ truthy (oget (oget account "config") "clientSecret") = true
      /\ Gateway.env_connect env = Ok tt
      /\ runtime w = true
      /\ Gateway.env_record env (oget account "accountId") (lit "start")
         = Ok tt
      /\ st1 = started account cfg abortSignal st
      /\ w1 = w)
  /\ (nullish account = false ->
      truthy (oget (oget account "config") "clientId") = true ->
      truthy (oget (oget account "config") "clientSecret") = true ->
      (forall e, Gateway.env_connect env = Thrown e ->
                 run = ((Thrown e, add_steps (opening account cfg) st), w))
      /\ (Gateway.env_connect env = Ok tt -> runtime w = false ->
          run = ((Thrown NOT_INITIALIZED,
                  add_steps (opening account cfg) st), w))).
Proof.
  intros run. split.
  - intros st1 w1. split; [apply startAccount_ok_inv|].
    intros (Ha & Hid & Hsec & Hcon & Hrt & Hrec & -> & ->).
    assert (Hc : nullish (oget account "config") = false)
      by (destruct (oget account "config"); try discriminate Hid;
          reflexivity).
    subst run.
    rewrite (startAccount_run env account cfg abortSignal st o w Ha Hc).
    cbv zeta. rewrite Hid, Hsec, Hcon, Hrt, Hrec. reflexivity.
  - intros Ha Hid Hsec.
    assert (Hc : nullish (oget account "config") = false)
      by (destruct (oget account "config"); try discriminate Hid;
          reflexivity).
    subst run.
    rewrite (startAccount_run env account cfg abortSignal st o w Ha Hc).
    cbv zeta. rewrite Hid, Hsec. split.
    + intros e He. rewrite He. reflexivity.
    + intros Hcon Hrt. rewrite Hcon, Hrt. reflexivity.
Qed.

Lemma startAccount_returns_after_start_recorded_witness :
  Gateway.startAccount friendly (account_value sample_account)
                       JNull JUndefined not_started
                       (scripted calm) unregistered_world
  = ((Thrown NOT_INITIALIZED,
      add_steps (opening (account_value sample_account) JNull) not_started),
     unregistered_world).
Proof.
  exact (proj2 (proj2 (startAccount_returns_after_start_recorded
                         friendly (account_value sample_account)
                         JNull JUndefined not_started
                         (scripted calm) unregistered_world)
                      eq_refl eq_refl eq_refl)
               eq_refl eq_refl).
Defined.

Lemma fire_run (env : Gateway.Env) (account : JValue) (e : Gateway.Event)
      (st : Gateway.State) (o : Oracle) (w : World) :
  Gateway.fire env account e st o w
  = if effective st e && negb (Gateway.stopped st)
    then ((Gateway.env_record env (oget account "accountId") (lit "stop"),
           halted account st), w)
    else ((Ok tt, st), w).
Proof.
  destruct st as [l s a].
  destruct e, s, a; try reflexivity;
    cbv [Gateway.fire Gateway.stop Gateway.on_abort Gateway.set_stopped
         Gateway.record_activity Gateway.step MediaUtils.lbind
         MediaUtils.keep MediaUtils.read_local MediaUtils.assign
         MediaUtils.lret lift effective halted record_of
         Gateway.stopped Gateway.listening Gateway.steps andb negb];
    reflexivity.
Qed.

Lemma fire_all_run (env : Gateway.Env) (account : JValue)
      (es : list Gateway.Event) (o : Oracle) (w : World) :
  forall st,
    Gateway.fire_all env account es st o w
    = ((Ok tt,
        if existsb (effective st) es && negb (Gateway.stopped st)
        then halted account st else st), w).
Proof.
  induction es as [|e es IH]; intros st; [reflexivity|].
  cbn [Gateway.fire_all existsb].
  unfold MediaUtils.lbind at 1, MediaUtils.ltry_catch.
  rewrite fire_run.
  destruct (Gateway.stopped st) eqn:Hs.
  - rewrite !andb_false_r. cbv [MediaUtils.lret]. rewrite IH, Hs, andb_false_r.
    reflexivity.
  - rewrite !andb_true_r.
    destruct (effective st e) eqn:He.
    + cbn [orb].
      assert (Hrest : Gateway.fire_all env account es (halted account st) o w
                      = ((Ok tt, halted account st), w))
        by (rewrite IH; cbn [halted Gateway.stopped negb];
            rewrite andb_false_r; reflexivity).
      destruct (Gateway.env_record env (oget account "accountId")
                                   (lit "stop")) as [[]|x];
        cbv [MediaUtils.lret]; exact Hrest.
    + cbn [orb]. cbv [MediaUtils.lret]. rewrite IH, Hs, andb_true_r.
      reflexivity.
Qed.

(** X22. The handle's [stop] and the abort listener share one [stopped]
    flag: over any sequence of [stop()] calls and abort events, 'stop' is
    recorded once, by the first event that reaches a closure on an account
    not yet stopped, and never again, also when that record throws.
    Nothing else is done: no step is made on the stream client. *)
Theorem stop_is_recorded_once (env : Gateway.Env) (account : JValue)
        (es : list Gateway.Event) (st : Gateway.State)
        (o : Oracle) (w : World) :
  let run := Gateway.fire_all env account es st o w in
  let st' := state_after run in
  run = ((Ok tt, st'), w)
  /\ Gateway.steps st'
     = Gateway.steps st
       ++ (if existsb (effective st) es && negb (Gateway.stopped st)
           then [record_of account "stop"] else [])
  /\ Gateway.stopped st' = Gateway.stopped st || existsb (effective st) es
  /\ Gateway.listening st' = Gateway.listening st.
Proof.
  intros run st'. subst st' run. rewrite fire_all_run.
  unfold state_after. cbn [fst snd].
  split; [reflexivity|].
  destruct st as [l s a].
  cbn [Gateway.steps Gateway.stopped Gateway.listening].
  destruct (existsb (effective (Gateway.mkState l s a)) es), s;
    cbn [andb negb orb halted Gateway.steps Gateway.stopped Gateway.listening];
    rewrite ?app_nil_r; repeat split; reflexivity.
Qed.

(* ================================================================== *)
(** * Properties of media type detection *)
(* ================================================================== *)

Lemma includes_spec (l : list string) (ext : jstring) :
  includes l ext = true <-> exists s, In s l /\ ext = lit s.
Proof.
  unfold includes. rewrite existsb_exists.
  split; intros [s [Hin H]]; exists s; (split; [exact Hin|]).
  - unfold jstring_eqb in H.
    destruct (list_eq_dec N.eq_dec (lit s) ext); [congruence|discriminate].
  - unfold jstring_eqb.
    destruct (list_eq_dec N.eq_dec (lit s) ext); [reflexivity|congruence].
Qed.

Lemma detect_by_extension (extname toLowerCase : jstring -> jstring)
      (filePath : jstring) :
  let ext := toLowerCase (extname filePath) in
  detectMediaTypeFromExtension extname toLowerCase filePath
  = if includes IMAGE_EXTENSIONS ext then MediaUtils.image
    else if includes VOICE_EXTENSIONS ext then MediaUtils.voice
    else if includes VIDEO_EXTENSIONS ext then MediaUtils.video
    else MediaUtils.file.
Proof. reflexivity. Qed.

Lemma image_is_not_voice (ext : jstring) :
  includes IMAGE_EXTENSIONS ext = true -> includes VOICE_EXTENSIONS ext = false.
Proof.
  intros H. apply includes_spec in H as [s [Hin ->]].
  simpl in Hin.
  destruct Hin as [<-|[<-|[<-|[<-|[<-|[]]]]]]; vm_compute; reflexivity.
Qed.

(** X24. A path is detected as voice exactly when its lower-cased
    extension is '.mp3', '.amr' or '.wav', and the detected type fixes the
    size gate of an upload: the limit is 2 MB for those three and 20 MB for
    every other path, known extension or not.  So a file detected as voice
    that is larger than 2 MB is refused by [uploadMedia] after the size was
    read, with [null] and without opening or posting it. *)
Theorem detected_type_sets_the_size_gate (ld : bool)
        (extname toLowerCase : jstring -> jstring) (filePath : jstring)
        (o : Oracle) (w w1 : World) (config : JValue)
        (getTok : JValue -> M jstring) (tok : jstring) (size : Z) :
  let ext := toLowerCase (extname filePath) in
  let detected := detectMediaTypeFromExtension extname toLowerCase filePath in
  (detected = MediaUtils.voice <-> includes VOICE_EXTENSIONS ext = true)
  /\ MediaUtils.FILE_SIZE_LIMITS detected
     = (if includes VOICE_EXTENSIONS ext then MB2 else MB20)
  /\ (includes VOICE_EXTENSIONS ext = true ->
      getTok config o w = (Ok tok, w1) ->
      o (trace w1) (CStat filePath) = Ok size ->
      size > MB2 ->
      MediaUtils.uploadMedia ld config filePath detected getTok o w
      = (Ok JNull, log_call (CStat filePath) w1)).
Proof.
  intros ext detected.
  assert (Hd : detected
               = if includes IMAGE_EXTENSIONS ext then MediaUtils.image
                 else if includes VOICE_EXTENSIONS ext then MediaUtils.voice
                 else if includes VIDEO_EXTENSIONS ext then MediaUtils.video
                 else MediaUtils.file)
    by (subst detected ext; apply detect_by_extension).
  assert (Hv : detected = MediaUtils.voice <->
               includes VOICE_EXTENSIONS ext = true).
  { rewrite Hd. destruct (includes IMAGE_EXTENSIONS ext) eqn:Ei.
    - rewrite (image_is_not_voice ext Ei). split; discriminate.
    - destruct (includes VOICE_EXTENSIONS ext); [tauto|].
      destruct (includes VIDEO_EXTENSIONS ext); split; discriminate. }
  split; [exact Hv|]. split.
  - rewrite Hd. destruct (includes IMAGE_EXTENSIONS ext) eqn:Ei.
    + rewrite (image_is_not_voice ext Ei). reflexivity.
    + destruct (includes VOICE_EXTENSIONS ext); [reflexivity|].
      destruct (includes VIDEO_EXTENSIONS ext); reflexivity.
  - intros Hin Htok Hstat Hsize. apply Hv in Hin. rewrite Hin.
    rewrite uploadMedia_run, Htok. cbv zeta. rewrite Hstat.
    change (MediaUtils.FILE_SIZE_LIMITS MediaUtils.voice) with MB2.
    destruct (size >? MB2) eqn:E; [reflexivity|].
    rewrite Z.gtb_ltb in E.
    apply Z.ltb_ge in E. lia.
Qed.

Lemma detected_type_sets_the_size_gate_witness :
  MediaUtils.uploadMedia true
    sample_config sample_recording_path
    (detectMediaTypeFromExtension last_dot (map ascii_lower)
                                  sample_recording_path)
    getAccessToken (scripted oversize_voice) warm_world
  = (Ok JNull,
     log_call (CStat sample_recording_path) (log_call CNow warm_world)).
Proof.
  refine (proj2 (proj2 (detected_type_sets_the_size_gate
                          true
                          last_dot (map ascii_lower) sample_recording_path
                          (scripted oversize_voice) warm_world
                          (log_call CNow warm_world) sample_config
                          getAccessToken (lit "T0") (2 * 1024 * 1024 + 1)))
                eq_refl eq_refl eq_refl _).
  unfold MB2. lia.
Defined.
